(** * The signed API client of cmp-mcp-server-local

    A shallow embedding of [src/cmp_client.ts]: request signing, the
    response classification of [makeRequest], the four query operations,
    the byte-count formatter and the pagination-cursor codec.

    JavaScript strings are represented by their UTF-8 encoding, as values of
    [string]; a [Buffer] is a list of bytes.  JavaScript numbers are
    represented by exact integers (inside JSON documents, by exact
    decimals; in the byte-count formatter, by exact rationals next to NaN
    and the infinities); no floating-point rounding is modelled.  The
    platform functions the client calls ([createHmac], [Buffer], [JSON],
    [fetch], [URL]) are modelled next to the code that uses them. *)

From Stdlib Require Import ZArith QArith Qround Qabs Lqa String Ascii Bool Lia Arith List.
Import ListNotations.
Local Open Scope string_scope.
Local Open Scope list_scope.
Local Open Scope Z_scope.

Set Implicit Arguments.
Set Warnings "-register-all".

(** ** Bytes and strings *)

Definition byte_of (c : ascii) : Z := Z.of_N (N_of_ascii c).
Definition char_of (b : Z) : ascii := ascii_of_N (Z.to_N b).

Definition bytes_of_string (s : string) : list Z :=
  map byte_of (list_ascii_of_string s).

Definition ascii_leb (a b : ascii) : bool := (N_of_ascii a <=? N_of_ascii b)%N.

Definition in_range (lo hi c : ascii) : bool := ascii_leb lo c && ascii_leb c hi.

Definition is_digit (c : ascii) : bool := in_range "0" "9" c.

Definition is_lower_hex (c : ascii) : bool := is_digit c || in_range "a" "f" c.

Fixpoint string_forallb (p : ascii -> bool) (s : string) : bool :=
  match s with
  | EmptyString => true
  | String c r => p c && string_forallb p r
  end.

(** ** Decimal rendering of integers

    [Number.prototype.toString] and the numeric part of [JSON.stringify] on
    an integral number: the digits, most significant first, with a leading
    minus sign for a negative number. *)

Definition digit_char (d : Z) : ascii := char_of (48 + d).

Fixpoint digits_acc (fuel : nat) (n : Z) (acc : string) : string :=
  match fuel with
  | O => acc
  | S f =>
      let acc' := String (digit_char (n mod 10)) acc in
      if n <? 10 then acc' else digits_acc f (n / 10) acc'
  end.

Definition digits_of (n : Z) : string :=
  digits_acc (S (Z.to_nat (Z.log2 n))) n "".

Definition Number_toString (n : Z) : string :=
  if n <? 0 then String "-" (digits_of (- n)) else digits_of n.

(** ** SHA-256 and HMAC (node:crypto)

    [createHmac("sha256", key)] of the platform, by FIPS 180-4 and RFC 2104,
    on 32-bit words held in [Z]. *)

Module Sha256.

Definition mask32 : Z := 0xFFFFFFFF.

Definition add32 (a b : Z) : Z := Z.land (a + b) mask32.

Definition rotr (n x : Z) : Z :=
  Z.lor (Z.shiftr x n) (Z.land (Z.shiftl x (32 - n)) mask32).

Definition Ch (x y z : Z) : Z :=
  Z.lxor (Z.land x y) (Z.land (Z.lxor x mask32) z).

Definition Maj (x y z : Z) : Z :=
  Z.lxor (Z.lxor (Z.land x y) (Z.land x z)) (Z.land y z).

Definition Sigma0 (x : Z) : Z := Z.lxor (Z.lxor (rotr 2 x) (rotr 13 x)) (rotr 22 x).
Definition Sigma1 (x : Z) : Z := Z.lxor (Z.lxor (rotr 6 x) (rotr 11 x)) (rotr 25 x).
Definition sigma0 (x : Z) : Z := Z.lxor (Z.lxor (rotr 7 x) (rotr 18 x)) (Z.shiftr x 3).
Definition sigma1 (x : Z) : Z := Z.lxor (Z.lxor (rotr 17 x) (rotr 19 x)) (Z.shiftr x 10).

Definition K : list Z :=
  [ 1116352408; 1899447441; 3049323471; 3921009573; 961987163; 1508970993;
    2453635748; 2870763221; 3624381080; 310598401; 607225278; 1426881987;
    1925078388; 2162078206; 2614888103; 3248222580; 3835390401; 4022224774;
    264347078; 604807628; 770255983; 1249150122; 1555081692; 1996064986;
    2554220882; 2821834349; 2952996808; 3210313671; 3336571891; 3584528711;
    113926993; 338241895; 666307205; 773529912; 1294757372; 1396182291;
    1695183700; 1986661051; 2177026350; 2456956037; 2730485921; 2820302411;
    3259730800; 3345764771; 3516065817; 3600352804; 4094571909; 275423344;
    430227734; 506948616; 659060556; 883997877; 958139571; 1322822218;
    1537002063; 1747873779; 1955562222; 2024104815; 2227730452; 2361852424;
    2428436474; 2756734187; 3204031479; 3329325298 ].

(** The eight working variables. *)
Record state := State
  { ha : Z; hb : Z; hc : Z; hd : Z; he : Z; hf : Z; hg : Z; hh : Z }.

Definition H0 : state :=
  State 1779033703 3144134277 1013904242 2773480762
        1359893119 2600822924 528734635 1541459225.

(** Big-endian bytes of a 32-bit word, and back. *)
Definition word_bytes (w : Z) : list Z :=
  [ Z.land (Z.shiftr w 24) 255; Z.land (Z.shiftr w 16) 255;
    Z.land (Z.shiftr w 8) 255; Z.land w 255 ].

Fixpoint words_of_bytes (bs : list Z) : list Z :=
  match bs with
  | b0 :: b1 :: b2 :: b3 :: r =>
      Z.lor (Z.lor (Z.shiftl b0 24) (Z.shiftl b1 16)) (Z.lor (Z.shiftl b2 8) b3)
      :: words_of_bytes r
  | _ => []
  end.

(** Padding: a one bit, zeros up to 56 modulo 64, the bit length on 64 bits. *)
Definition padding (len : Z) : list Z :=
  let zeros := (55 - len) mod 64 in
  let bits := 8 * len in
  128 :: repeat 0 (Z.to_nat zeros)
      ++ word_bytes (Z.land (Z.shiftr bits 32) mask32) ++ word_bytes (Z.land bits mask32).

(** The message schedule, latest word first. *)
Fixpoint schedule (n : nat) (rev_w : list Z) : list Z :=
  match n with
  | O => rev_w
  | S n' =>
      let w2 := nth 1 rev_w 0 in
      let w7 := nth 6 rev_w 0 in
      let w15 := nth 14 rev_w 0 in
      let w16 := nth 15 rev_w 0 in
      schedule n' (add32 (add32 (sigma1 w2) w7) (add32 (sigma0 w15) w16) :: rev_w)
  end.

Definition round (s : state) (kw : Z * Z) : state :=
  let (k, w) := kw in
  let t1 := add32 (add32 (add32 (hh s) (Sigma1 (he s))) (Ch (he s) (hf s) (hg s)))
                  (add32 k w) in
  let t2 := add32 (Sigma0 (ha s)) (Maj (ha s) (hb s) (hc s)) in
  State (add32 t1 t2) (ha s) (hb s) (hc s) (add32 (hd s) t1) (he s) (hf s) (hg s).

Definition compress (s : state) (block : list Z) : state :=
  let w := rev (schedule 48 (rev block)) in
  let r := fold_left round (combine K w) s in
  State (add32 (ha s) (ha r)) (add32 (hb s) (hb r)) (add32 (hc s) (hc r))
        (add32 (hd s) (hd r)) (add32 (he s) (he r)) (add32 (hf s) (hf r))
        (add32 (hg s) (hg r)) (add32 (hh s) (hh r)).

Fixpoint blocks (n : nat) (ws : list Z) : list (list Z) :=
  match n with
  | O => []
  | S n' => firstn 16 ws :: blocks n' (skipn 16 ws)
  end.

Definition digest_bytes (s : state) : list Z :=
  word_bytes (ha s) ++ word_bytes (hb s) ++ word_bytes (hc s) ++ word_bytes (hd s)
  ++ word_bytes (he s) ++ word_bytes (hf s) ++ word_bytes (hg s) ++ word_bytes (hh s).

Definition sha256 (msg : list Z) : list Z :=
  let padded := msg ++ padding (Z.of_nat (length msg)) in
  let ws := words_of_bytes padded in
  digest_bytes (fold_left compress (blocks (length ws / 16) ws) H0).

(** RFC 2104, with the 64-byte block of SHA-256. *)
Definition block_key (key : list Z) : list Z :=
  let k := if (64 <? Z.of_nat (length key)) then sha256 key else key in
  k ++ repeat 0 (64 - length k).

Definition xor_pad (pad : Z) (key : list Z) : list Z := map (Z.lxor pad) key.

Definition hmac_sha256 (key msg : list Z) : list Z :=
  let k := block_key key in
  sha256 (xor_pad 0x5c k ++ sha256 (xor_pad 0x36 k ++ msg)).

End Sha256.

(** Lowercase hexadecimal, two characters a byte ([digest("hex")]). *)
Definition hex_digit (n : Z) : ascii :=
  if n <? 10 then char_of (48 + n) else char_of (87 + n).

Fixpoint hex_of_bytes (bs : list Z) : string :=
  match bs with
  | [] => ""
  | b :: r => String (hex_digit (Z.shiftr b 4)) (String (hex_digit (Z.land b 15)) (hex_of_bytes r))
  end.

(** The [Hmac] object of node:crypto: the key it was created with and the
    data it was fed so far. *)
Record Hmac := MkHmac { hmac_key : list Z; hmac_data : list Z }.

Definition createHmac_sha256 (key : string) : Hmac :=
  MkHmac (bytes_of_string key) [].

Definition Hmac_update (h : Hmac) (data : string) : Hmac :=
  MkHmac (hmac_key h) (hmac_data h ++ bytes_of_string data).

Definition Hmac_digest_hex (h : Hmac) : string :=
  hex_of_bytes (Sha256.hmac_sha256 (hmac_key h) (hmac_data h)).

(** ** The client *)

Record CMPClient := MkClient
  { appKey : string;
    appSecret : string;
    endpoint : string;
    logger : bool  (* whether [setLogger] installed a logger *) }.

(** [generateSignature], cmp_client.ts lines 178-181. *)
Definition generateSignature (c : CMPClient) (timestamp : Z) (requestBody : string) : string :=
  let signContent := (appKey c ++ Number_toString timestamp ++ requestBody)%string in
  Hmac_digest_hex (Hmac_update (createHmac_sha256 (appSecret c)) signContent).


(** ** Buffers and UTF-8 (node:buffer)

    [Buffer.from(s, "utf-8")] yields the bytes of [s]; [buf.toString("utf-8")]
    decodes with replacement: every maximal ill-formed subpart becomes
    U+FFFD (bytes EF BF BD), and well-formed sequences are kept. *)

Definition Buffer : Type := list ascii.

Definition Buffer_from_utf8 (s : string) : Buffer := list_ascii_of_string s.

Inductive lead_class : Type :=
| L1                      (* an ASCII byte *)
| L2                      (* lead of a two-byte sequence *)
| L3 (lo hi : ascii)      (* lead of a three-byte sequence; second byte in lo..hi *)
| L4 (lo hi : ascii)      (* lead of a four-byte sequence; second byte in lo..hi *)
| LBad.                   (* never starts a sequence *)

Definition classify (b : ascii) : lead_class :=
  if ascii_leb b "127" then L1
  else if in_range "194" "223" b then L2
  else if Ascii.eqb b "224" then L3 "160" "191"
  else if Ascii.eqb b "237" then L3 "128" "159"
  else if in_range "225" "239" b then L3 "128" "191"
  else if Ascii.eqb b "240" then L4 "144" "191"
  else if Ascii.eqb b "244" then L4 "128" "143"
  else if in_range "241" "243" b then L4 "128" "191"
  else LBad.

Definition is_cont (b : ascii) : bool := in_range "128" "191" b.

Definition replacement : Buffer := ["239"; "191"; "189"]%char.

Fixpoint utf8_replace (bs : Buffer) : Buffer :=
  match bs with
  | [] => []
  | b1 :: r1 =>
      match classify b1 with
      | L1 => b1 :: utf8_replace r1
      | L2 =>
          match r1 with
          | b2 :: r2 =>
              if is_cont b2 then b1 :: b2 :: utf8_replace r2
              else replacement ++ utf8_replace r1
          | [] => replacement
          end
      | L3 lo hi =>
          match r1 with
          | b2 :: r2 =>
              if in_range lo hi b2 then
                match r2 with
                | b3 :: r3 =>
                    if is_cont b3 then b1 :: b2 :: b3 :: utf8_replace r3
                    else replacement ++ utf8_replace r2
                | [] => replacement
                end
              else replacement ++ utf8_replace r1
          | [] => replacement
          end
      | L4 lo hi =>
          match r1 with
          | b2 :: r2 =>
              if in_range lo hi b2 then
                match r2 with
                | b3 :: r3 =>
                    if is_cont b3 then
                      match r3 with
                      | b4 :: r4 =>
                          if is_cont b4 then b1 :: b2 :: b3 :: b4 :: utf8_replace r4
                          else replacement ++ utf8_replace r3
                      | [] => replacement
                      end
                    else replacement ++ utf8_replace r2
                | [] => replacement
                end
              else replacement ++ utf8_replace r1
          | [] => replacement
          end
      | LBad => replacement ++ utf8_replace r1
      end
  end.

Definition Buffer_toString_utf8 (b : Buffer) : string :=
  string_of_list_ascii (utf8_replace b).

(** Well-formed UTF-8 (Unicode, table 3-7): the byte strings that stand for
    a JavaScript string. *)
Fixpoint utf8_valid (bs : Buffer) : bool :=
  match bs with
  | [] => true
  | b1 :: r1 =>
      match classify b1 with
      | L1 => utf8_valid r1
      | L2 =>
          match r1 with
          | b2 :: r2 => is_cont b2 && utf8_valid r2
          | _ => false
          end
      | L3 lo hi =>
          match r1 with
          | b2 :: b3 :: r3 => in_range lo hi b2 && is_cont b3 && utf8_valid r3
          | _ => false
          end
      | L4 lo hi =>
          match r1 with
          | b2 :: b3 :: b4 :: r4 =>
              in_range lo hi b2 && is_cont b3 && is_cont b4 && utf8_valid r4
          | _ => false
          end
      | LBad => false
      end
  end.

Definition wellformed (s : string) : bool := utf8_valid (list_ascii_of_string s).

(** The UTF-8 bytes of a code point. *)
Definition utf8_encode (cp : Z) : string :=
  if cp <? 0x80 then String (char_of cp) ""
  else if cp <? 0x800 then
    String (char_of (0xC0 + cp / 64)) (String (char_of (0x80 + cp mod 64)) "")
  else if cp <? 0x10000 then
    String (char_of (0xE0 + cp / 4096))
      (String (char_of (0x80 + (cp / 64) mod 64)) (String (char_of (0x80 + cp mod 64)) ""))
  else
    String (char_of (0xF0 + cp / 262144))
      (String (char_of (0x80 + (cp / 4096) mod 64))
         (String (char_of (0x80 + (cp / 64) mod 64)) (String (char_of (0x80 + cp mod 64)) ""))).

(** ** Base64 (node:buffer)

    A sextet is six bits, most significant first.  Encoding uses the
    standard alphabet with padding.  Decoding is the lenient decoder of
    Node: characters outside the alphabet are skipped, the URL-safe
    characters are accepted, decoding stops at the first padding
    character, and it never fails. *)

Definition sextet : Type := (bool * bool * bool * bool * bool * bool)%type.

Definition bit (b : bool) (w : nat) : nat := if b then w else 0%nat.

Definition sextet_index (x : sextet) : nat :=
  let '(b5, b4, b3, b2, b1, b0) := x in
  (bit b5 32 + bit b4 16 + bit b3 8 + bit b2 4 + bit b1 2 + bit b0 1)%nat.

Definition base64_alphabet : string :=
  "ABCDEFGHIJKLMNOPQRSTUVWXYZabcdefghijklmnopqrstuvwxyz0123456789+/".

Definition base64_char (x : sextet) : ascii :=
  match String.get (sextet_index x) base64_alphabet with
  | Some c => c
  | None => "="%char
  end.

Definition sextet_of_index (n : N) : sextet :=
  (N.testbit n 5, N.testbit n 4, N.testbit n 3, N.testbit n 2, N.testbit n 1, N.testbit n 0).

Definition unbase64 (c : ascii) : option sextet :=
  let n := N_of_ascii c in
  if in_range "A" "Z" c then Some (sextet_of_index (n - 65))
  else if in_range "a" "z" c then Some (sextet_of_index (n - 97 + 26))
  else if in_range "0" "9" c then Some (sextet_of_index (n - 48 + 52))
  else if Ascii.eqb c "+" || Ascii.eqb c "-" then Some (sextet_of_index 62)
  else if Ascii.eqb c "/" || Ascii.eqb c "_" then Some (sextet_of_index 63)
  else None.

Definition hi6 (a : ascii) : sextet :=
  let 'Ascii a0 a1 a2 a3 a4 a5 a6 a7 := a in (a7, a6, a5, a4, a3, a2).

Definition lo2_hi4 (a b : ascii) : sextet :=
  let 'Ascii a0 a1 _ _ _ _ _ _ := a in
  let 'Ascii _ _ _ _ b4 b5 b6 b7 := b in (a1, a0, b7, b6, b5, b4).

Definition lo4_hi2 (b c : ascii) : sextet :=
  let 'Ascii b0 b1 b2 b3 _ _ _ _ := b in
  let 'Ascii _ _ _ _ _ _ c6 c7 := c in (b3, b2, b1, b0, c7, c6).

Definition lo6 (c : ascii) : sextet :=
  let 'Ascii c0 c1 c2 c3 c4 c5 _ _ := c in (c5, c4, c3, c2, c1, c0).

Definition zero : ascii := "000"%char.

Fixpoint Buffer_toString_base64 (bs : Buffer) : string :=
  match bs with
  | [] => ""
  | [a] =>
      String (base64_char (hi6 a)) (String (base64_char (lo2_hi4 a zero)) "==")
  | [a; b] =>
      String (base64_char (hi6 a)) (String (base64_char (lo2_hi4 a b))
        (String (base64_char (lo4_hi2 b zero)) "="))
  | a :: b :: c :: r =>
      String (base64_char (hi6 a)) (String (base64_char (lo2_hi4 a b))
        (String (base64_char (lo4_hi2 b c)) (String (base64_char (lo6 c))
          (Buffer_toString_base64 r))))
  end.

(** The sextets of the legal characters before the first padding character. *)
Fixpoint base64_sextets (s : string) : list sextet :=
  match s with
  | EmptyString => []
  | String c r =>
      match unbase64 c with
      | Some x => x :: base64_sextets r
      | None => if Ascii.eqb c "=" then [] else base64_sextets r
      end
  end.

Definition byte1 (x y : sextet) : ascii :=
  let '(a7, a6, a5, a4, a3, a2) := x in
  let '(a1, a0, _, _, _, _) := y in Ascii a0 a1 a2 a3 a4 a5 a6 a7.

Definition byte2 (y z : sextet) : ascii :=
  let '(_, _, b7, b6, b5, b4) := y in
  let '(b3, b2, b1, b0, _, _) := z in Ascii b0 b1 b2 b3 b4 b5 b6 b7.

Definition byte3 (z w : sextet) : ascii :=
  let '(_, _, _, _, c7, c6) := z in
  let '(c5, c4, c3, c2, c1, c0) := w in Ascii c0 c1 c2 c3 c4 c5 c6 c7.

(** Four sextets give three bytes; a tail of three gives two, a tail of two
    gives one, and a lone sextet gives none. *)
Fixpoint sextets_bytes (l : list sextet) : Buffer :=
  match l with
  | x :: y :: z :: w :: r => byte1 x y :: byte2 y z :: byte3 z w :: sextets_bytes r
  | [x; y; z] => [byte1 x y; byte2 y z]
  | [x; y] => [byte1 x y]
  | _ => []
  end.

Definition Buffer_from_base64 (s : string) : Buffer := sextets_bytes (base64_sextets s).

(** cmp_client.ts lines 10-14. *)
Definition base64Encode (input : string) : string :=
  Buffer_toString_base64 (Buffer_from_utf8 input).

Definition base64Decode (input : string) : string :=
  Buffer_toString_utf8 (Buffer_from_base64 input).

(** ** JSON values

    An object is the list of its own properties in enumeration order; a
    number [JNum m e] is the exact decimal [m * 10^e]. *)

Inductive json : Type :=
| JNull
| JBool (b : bool)
| JNum (m e : Z)
| JStr (s : string)
| JArr (items : list json)
| JObj (fields : list (string * json)).

Definition JInt (n : Z) : json := JNum n 0.

Definition dquote : ascii := "034"%char.
Definition backslash : ascii := "092"%char.

Fixpoint obj_get (k : string) (fields : list (string * json)) : option json :=
  match fields with
  | [] => None
  | (k', v) :: r => if String.eqb k k' then Some v else obj_get k r
  end.

(** Assignment to a property: an existing property keeps its place. *)
Fixpoint obj_set (k : string) (v : json) (fields : list (string * json))
  : list (string * json) :=
  match fields with
  | [] => [(k, v)]
  | (k', v') :: r =>
      if String.eqb k k' then (k', v) :: r else (k', v') :: obj_set k v r
  end.

(** *** JSON.stringify *)

Definition hex4 (n : Z) : string :=
  String (hex_digit ((n / 4096) mod 16)) (String (hex_digit ((n / 256) mod 16))
    (String (hex_digit ((n / 16) mod 16)) (String (hex_digit (n mod 16)) ""))).

Definition escape_char (c : ascii) : string :=
  if Ascii.eqb c dquote then String backslash (String dquote "")
  else if Ascii.eqb c backslash then String backslash (String backslash "")
  else if Ascii.eqb c "008" then String backslash "b"
  else if Ascii.eqb c "012" then String backslash "f"
  else if Ascii.eqb c "010" then String backslash "n"
  else if Ascii.eqb c "013" then String backslash "r"
  else if Ascii.eqb c "009" then String backslash "t"
  else if ascii_leb c "031" then String backslash (String "u" (hex4 (byte_of c)))
  else String c "".

Fixpoint escape (s : string) : string :=
  match s with
  | EmptyString => ""
  | String c r => (escape_char c ++ escape r)%string
  end.

Definition quote (s : string) : string :=
  String dquote (escape s ++ String dquote "")%string.

Fixpoint zeros (k : nat) (s : string) : string :=
  match k with
  | O => s
  | S k' => zeros k' (String "0" s)
  end.

Definition zero_pad (width : nat) (s : string) : string :=
  zeros (width - String.length s) s.

(** An integer prints as its digits; a proper decimal prints its integer
    part, a point and its fraction digits. *)
Definition number_text (m e : Z) : string :=
  if 0 <=? e then Number_toString (m * 10 ^ e)
  else
    let scale := 10 ^ (- e) in
    let a := Z.abs m in
    let sign := if m <? 0 then "-" else "" in
    (sign ++ digits_of (a / scale) ++ "."
       ++ zero_pad (Z.to_nat (- e)) (digits_of (a mod scale)))%string.

Fixpoint JSON_stringify (v : json) : string :=
  match v with
  | JNull => "null"
  | JBool true => "true"
  | JBool false => "false"
  | JNum m e => number_text m e
  | JStr s => quote s
  | JArr items =>
      let fix elements (l : list json) : string :=
        match l with
        | [] => ""
        | [x] => JSON_stringify x
        | x :: r => (JSON_stringify x ++ "," ++ elements r)%string
        end in
      ("[" ++ elements items ++ "]")%string
  | JObj fields =>
      let fix members (l : list (string * json)) : string :=
        match l with
        | [] => ""
        | [(k, x)] => (quote k ++ ":" ++ JSON_stringify x)%string
        | (k, x) :: r => (quote k ++ ":" ++ JSON_stringify x ++ "," ++ members r)%string
        end in
      ("{" ++ members fields ++ "}")%string
  end.

(** *** JSON.parse *)

Definition is_ws (c : ascii) : bool :=
  Ascii.eqb c " " || Ascii.eqb c "009" || Ascii.eqb c "010" || Ascii.eqb c "013".

Fixpoint skip_ws (s : string) : string :=
  match s with
  | String c r => if is_ws c then skip_ws r else s
  | EmptyString => s
  end.

Definition digit_value (c : ascii) : Z := byte_of c - 48.

(** The value and the number of the leading digits, and what follows them. *)
Fixpoint read_digits (acc : Z) (count : Z) (s : string) : Z * Z * string :=
  match s with
  | String c r =>
      if is_digit c then read_digits (10 * acc + digit_value c) (count + 1) r
      else (acc, count, s)
  | EmptyString => (acc, count, s)
  end.

Fixpoint strip_zeros (n : nat) (m e : Z) : Z * Z :=
  match n with
  | O => (m, e)
  | S n' =>
      if (e <? 0) && (m mod 10 =? 0) then strip_zeros n' (m / 10) (e + 1) else (m, e)
  end.

(** The number [m * 10^e] in its normal form: an integer has exponent 0, a
    proper decimal has no trailing zero. *)
Definition mk_number (m e : Z) : json :=
  if m =? 0 then JNum 0 0
  else if 0 <=? e then JNum (m * 10 ^ e) 0
  else let (m', e') := strip_zeros (Z.to_nat (- e)) m e in JNum m' e'.

Definition int_part (s : string) : option (Z * string) :=
  match s with
  | String c r =>
      if Ascii.eqb c "0" then Some (0, r)
      else if is_digit c then
        let '(v, _, rest) := read_digits (digit_value c) 0 r in Some (v, rest)
      else None
  | EmptyString => None
  end.

Definition digits1 (s : string) : option (Z * Z * string) :=
  match s with
  | String c _ => if is_digit c then Some (read_digits 0 0 s) else None
  | EmptyString => None
  end.

Definition frac_part (s : string) : option (Z * Z * string) :=
  match s with
  | String c r => if Ascii.eqb c "." then digits1 r else Some (0, 0, s)
  | EmptyString => Some (0, 0, s)
  end.

Definition exp_part (s : string) : option (Z * string) :=
  match s with
  | String c r =>
      if Ascii.eqb c "e" || Ascii.eqb c "E" then
        match r with
        | String sg r' =>
            if Ascii.eqb sg "-" then
              match digits1 r' with
              | Some (x, _, rest) => Some (- x, rest)
              | None => None
              end
            else if Ascii.eqb sg "+" then
              match digits1 r' with
              | Some (x, _, rest) => Some (x, rest)
              | None => None
              end
            else
              match digits1 r with
              | Some (x, _, rest) => Some (x, rest)
              | None => None
              end
        | EmptyString => None
        end
      else Some (0, s)
  | EmptyString => Some (0, s)
  end.

Definition parse_unsigned (neg : bool) (s : string) : option (json * string) :=
  match int_part s with
  | None => None
  | Some (i, s2) =>
      match frac_part s2 with
      | None => None
      | Some (f, fl, s3) =>
          match exp_part s3 with
          | None => None
          | Some (x, s4) =>
              let m := i * 10 ^ fl + f in
              Some (mk_number (if neg then - m else m) (x - fl), s4)
          end
      end
  end.

Definition parse_number (s : string) : option (json * string) :=
  match s with
  | String c r => if Ascii.eqb c "-" then parse_unsigned true r else parse_unsigned false s
  | EmptyString => None
  end.

(** What a string literal holds between its quotes: characters as written,
    and [\uXXXX] escapes as UTF-16 code units. *)
Inductive item : Type :=
| Raw (c : ascii)
| Esc (unit : Z).

Definition hex_value (c : ascii) : option Z :=
  if is_digit c then Some (byte_of c - 48)
  else if in_range "a" "f" c then Some (byte_of c - 87)
  else if in_range "A" "F" c then Some (byte_of c - 55)
  else None.

Definition hex4_value (h1 h2 h3 h4 : ascii) : option Z :=
  match hex_value h1, hex_value h2, hex_value h3, hex_value h4 with
  | Some a, Some b, Some c, Some d => Some (((a * 16 + b) * 16 + c) * 16 + d)
  | _, _, _, _ => None
  end.

Definition simple_escape (e : ascii) : option ascii :=
  if Ascii.eqb e dquote then Some dquote
  else if Ascii.eqb e backslash then Some backslash
  else if Ascii.eqb e "/" then Some "/"%char
  else if Ascii.eqb e "b" then Some "008"%char
  else if Ascii.eqb e "f" then Some "012"%char
  else if Ascii.eqb e "n" then Some "010"%char
  else if Ascii.eqb e "r" then Some "013"%char
  else if Ascii.eqb e "t" then Some "009"%char
  else None.

Definition cons_item (i : item) (p : option (list item * string))
  : option (list item * string) :=
  match p with
  | Some (l, rest) => Some (i :: l, rest)
  | None => None
  end.

(** The items up to the closing quote, and what follows it. *)
Fixpoint string_items (s : string) : option (list item * string) :=
  match s with
  | EmptyString => None
  | String c r =>
      if Ascii.eqb c dquote then Some ([], r)
      else if Ascii.eqb c backslash then
        match r with
        | String e r' =>
            match simple_escape e with
            | Some ch => cons_item (Raw ch) (string_items r')
            | None =>
                if Ascii.eqb e "u" then
                  match r' with
                  | String h1 (String h2 (String h3 (String h4 r''))) =>
                      match hex4_value h1 h2 h3 h4 with
                      | Some u => cons_item (Esc u) (string_items r'')
                      | None => None
                      end
                  | _ => None
                  end
                else None
            end
        | EmptyString => None
        end
      else if ascii_leb c "031" then None
      else cons_item (Raw c) (string_items r)
  end.

Definition is_high (u : Z) : bool := (0xD800 <=? u) && (u <=? 0xDBFF).
Definition is_low (u : Z) : bool := (0xDC00 <=? u) && (u <=? 0xDFFF).

(** A code unit alone: a surrogate without its partner has no UTF-8 form
    and is held as U+FFFD. *)
Definition unit_text (u : Z) : string :=
  if is_high u || is_low u then utf8_encode 0xFFFD else utf8_encode u.

Fixpoint items_text (l : list item) : string :=
  match l with
  | [] => ""
  | Raw c :: r => String c (items_text r)
  | Esc u :: r =>
      match r with
      | Esc v :: r' =>
          if is_high u && is_low v then
            (utf8_encode (0x10000 + (u - 0xD800) * 1024 + (v - 0xDC00)) ++ items_text r')%string
          else (unit_text u ++ items_text r)%string
      | _ => (unit_text u ++ items_text r)%string
      end
  end.

Definition parse_string (s : string) : option (string * string) :=
  match string_items s with
  | Some (l, rest) => Some (items_text l, rest)
  | None => None
  end.

Fixpoint strip_prefix (p s : string) : option string :=
  match p with
  | EmptyString => Some s
  | String a p' =>
      match s with
      | String b s' => if Ascii.eqb a b then strip_prefix p' s' else None
      | EmptyString => None
      end
  end.

Inductive presult (A : Type) : Type :=
| Parsed (a : A) (rest : string)
| Malformed
| NoFuel.
Arguments Malformed {A}.
Arguments NoFuel {A}.

Definition of_option {A : Type} (o : option (A * string)) : presult A :=
  match o with
  | Some (a, rest) => Parsed a rest
  | None => Malformed
  end.

Definition literal (p : string) (v : json) (s : string) : presult json :=
  match strip_prefix p s with
  | Some rest => Parsed v rest
  | None => Malformed
  end.

(** A value, after optional white space.  Each nested value costs one unit
    of fuel. *)
Fixpoint parse_value (fuel : nat) (s : string) : presult json :=
  match fuel with
  | O => NoFuel
  | S f =>
      match skip_ws s with
      | EmptyString => Malformed
      | String c r =>
          if Ascii.eqb c "{" then
            match skip_ws r with
            | String c' r' =>
                if Ascii.eqb c' "}" then Parsed (JObj []) r'
                else parse_members f [] r
            | EmptyString => Malformed
            end
          else if Ascii.eqb c "[" then
            match skip_ws r with
            | String c' r' =>
                if Ascii.eqb c' "]" then Parsed (JArr []) r'
                else parse_elements f [] r
            | EmptyString => Malformed
            end
          else if Ascii.eqb c dquote then
            match parse_string r with
            | Some (str, rest) => Parsed (JStr str) rest
            | None => Malformed
            end
          else if Ascii.eqb c "t" then literal "true" (JBool true) (String c r)
          else if Ascii.eqb c "f" then literal "false" (JBool false) (String c r)
          else if Ascii.eqb c "n" then literal "null" JNull (String c r)
          else of_option (parse_number (String c r))
      end
  end

with parse_members (fuel : nat) (acc : list (string * json)) (s : string) : presult json :=
  match fuel with
  | O => NoFuel
  | S f =>
      match skip_ws s with
      | EmptyString => Malformed
      | String q r =>
          if Ascii.eqb q dquote then
            match parse_string r with
            | None => Malformed
            | Some (k, r1) =>
                match skip_ws r1 with
                | EmptyString => Malformed
                | String colon r2 =>
                    if Ascii.eqb colon ":" then
                      match parse_value f r2 with
                      | Parsed v r3 =>
                          match skip_ws r3 with
                          | EmptyString => Malformed
                          | String d r4 =>
                              if Ascii.eqb d "," then parse_members f (obj_set k v acc) r4
                              else if Ascii.eqb d "}" then Parsed (JObj (obj_set k v acc)) r4
                              else Malformed
                          end
                      | Malformed => Malformed
                      | NoFuel => NoFuel
                      end
                    else Malformed
                end
            end
          else Malformed
      end
  end

with parse_elements (fuel : nat) (acc : list json) (s : string) : presult json :=
  match fuel with
  | O => NoFuel
  | S f =>
      match parse_value f s with
      | Parsed v r1 =>
          match skip_ws r1 with
          | EmptyString => Malformed
          | String d r2 =>
              if Ascii.eqb d "," then parse_elements f (acc ++ [v]) r2
              else if Ascii.eqb d "]" then Parsed (JArr (acc ++ [v])) r2
              else Malformed
          end
      | Malformed => Malformed
      | NoFuel => NoFuel
      end
  end.

(** [JSON.parse]: one value, with nothing but white space after it; [None]
    stands for the SyntaxError. *)
Definition JSON_parse (text : string) : option json :=
  match parse_value (S (String.length text)) text with
  | Parsed v rest =>
      match skip_ws rest with
      | EmptyString => Some v
      | String _ _ => None
      end
  | _ => None
  end.


(** ** JavaScript values in conditions and templates *)

(** [ToBoolean]. *)
Definition js_truthy (v : json) : bool :=
  match v with
  | JNull => false
  | JBool b => b
  | JNum m _ => negb (m =? 0)
  | JStr s => negb (String.eqb s "")
  | JArr _ => true
  | JObj _ => true
  end.

(** [ToString], as a template literal applies it. *)
Fixpoint js_toString (v : json) : string :=
  match v with
  | JNull => "null"
  | JBool true => "true"
  | JBool false => "false"
  | JNum m e => number_text m e
  | JStr s => s
  | JArr items =>
      let fix join (l : list json) : string :=
        match l with
        | [] => ""
        | [x] => match x with JNull => "" | _ => js_toString x end
        | x :: r => ((match x with JNull => "" | _ => js_toString x end) ++ "," ++ join r)%string
        end in
      join items
  | JObj _ => "[object Object]"
  end.

(** [typeof v === "object"] for a value that is not null. *)
Definition is_object (v : json) : bool :=
  match v with
  | JArr _ | JObj _ => true
  | _ => false
  end.

(** Reading a property: an array has no property named by these keys. *)
Definition js_get (k : string) (v : json) : option json :=
  match v with
  | JObj fields => obj_get k fields
  | _ => None
  end.

Definition json_eqb_int (v : json) (n : Z) : bool :=
  match v with
  | JNum m e => (m =? n) && (e =? 0)
  | _ => false
  end.

(** ** Thrown values, the platform and the effects of a call *)

Inductive error_class : Type := PlainError | TypeError | SyntaxError.

Inductive thrown : Type :=
| Throw (cls : error_class) (message : string)   (* an instance of Error *)
| ThrowValue (v : json).                         (* any other thrown value *)

Record Response := MkResponse
  { status : Z; statusText : string; body : string }.

(** [response.ok]: the status is in the range 200-299. *)
Definition ok (r : Response) : bool := (200 <=? status r) && (status r <=? 299).

Record URL := MkURL
  { location : string;                        (* the URL without its query *)
    searchParams : list (string * string) }.

Record FetchRequest := MkFetch
  { req_url : string;
    req_method : string;
    req_headers : list (string * string);
    req_body : option string }.

(** What the client asks of its platform: the clock, the URL parser, the
    network, and the text of the SyntaxError of [response.json()]. *)
Record Platform := MkPlatform
  { Date_now : Z;                                    (* milliseconds *)
    URL_new : string -> option URL;                  (* None: TypeError, Invalid URL *)
    fetch : FetchRequest -> thrown + Response;
    syntax_error_message : string -> string }.

Inductive level : Type := Debug | Info | Warn | LError.

(** What a call leaves behind: the lines handed to the logger and the
    requests handed to [fetch], oldest first. *)
Record World := MkWorld
  { logs : list (level * list string);
    sent : list FetchRequest }.

Definition quiet : World := MkWorld [] [].

Definition M (A : Type) : Type := World -> (thrown + A) * World.

Definition ret {A : Type} (a : A) : M A := fun w => (inr a, w).

Definition throw {A : Type} (t : thrown) : M A := fun w => (inl t, w).

Definition bind {A B : Type} (m : M A) (k : A -> M B) : M B :=
  fun w =>
    match m w with
    | (inr a, w') => k a w'
    | (inl t, w') => (inl t, w')
    end.

Definition try_catch {A : Type} (m : M A) (handler : thrown -> M A) : M A :=
  fun w =>
    match m w with
    | (inr a, w') => (inr a, w')
    | (inl t, w') => handler t w'
    end.

Notation "x <- m ;; k" := (bind m (fun x => k))
  (at level 61, m at next level, right associativity).
Notation "m ;;; k" := (bind m (fun _ => k))
  (at level 61, right associativity).

Definition new_Error {A : Type} (message : string) : M A := throw (Throw PlainError message).

(** ** URL strings *)

Fixpoint ends_with_slash (s : string) : bool :=
  match s with
  | EmptyString => false
  | String c EmptyString => Ascii.eqb c "/"
  | String _ r => ends_with_slash r
  end.

(** [s.slice(0, -1)]. *)
Fixpoint drop_last (s : string) : string :=
  match s with
  | EmptyString => ""
  | String _ EmptyString => ""
  | String c r => String c (drop_last r)
  end.

Definition strip_trailing_slash (s : string) : string :=
  if ends_with_slash s then drop_last s else s.

Definition strip_leading_slash (s : string) : string :=
  match s with
  | String c r => if Ascii.eqb c "/" then r else s
  | EmptyString => s
  end.

Definition upper_hex_digit (n : Z) : ascii :=
  if n <? 10 then char_of (48 + n) else char_of (55 + n).

(** application/x-www-form-urlencoded, a byte at a time. *)
Definition form_byte (c : ascii) : string :=
  if is_digit c || in_range "A" "Z" c || in_range "a" "z" c
     || Ascii.eqb c "*" || Ascii.eqb c "-" || Ascii.eqb c "." || Ascii.eqb c "_"
  then String c ""
  else if Ascii.eqb c " " then "+"
  else String "%" (String (upper_hex_digit (byte_of c / 16))
                     (String (upper_hex_digit (byte_of c mod 16)) "")).

Fixpoint form_encode (s : string) : string :=
  match s with
  | EmptyString => ""
  | String c r => (form_byte c ++ form_encode r)%string
  end.

Fixpoint form_pairs (l : list (string * string)) : string :=
  match l with
  | [] => ""
  | [(k, v)] => (form_encode k ++ "=" ++ form_encode v)%string
  | (k, v) :: r => (form_encode k ++ "=" ++ form_encode v ++ "&" ++ form_pairs r)%string
  end.

Definition URL_toString (u : URL) : string :=
  match searchParams u with
  | [] => location u
  | l => (location u ++ "?" ++ form_pairs l)%string
  end.

Definition searchParams_append (u : URL) (k v : string) : URL :=
  MkURL (location u) (searchParams u ++ [(k, v)]).

(** ** The client, continued *)

(** The constructor, lines 164-168. *)
Definition CMPClient_new (key secret url : string) : CMPClient :=
  MkClient key secret (strip_trailing_slash url) false.

Definition setLogger (c : CMPClient) : CMPClient :=
  MkClient (appKey c) (appSecret c) (endpoint c) true.

(** [this.logger?.[level](...args)], lines 174-176. *)
Definition log (c : CMPClient) (l : level) (args : list string) : M unit :=
  fun w =>
    if logger c then (inr tt, MkWorld (logs w ++ [(l, args)]) (sent w))
    else (inr tt, w).

(** [getHeaders], lines 183-193. *)
Definition getHeaders (P : Platform) (c : CMPClient) (requestBody : string)
  : list (string * string) :=
  let timestamp := Date_now P / 1000 in
  let signature := generateSignature c timestamp requestBody in
  [ ("Content-Type", "application/json");
    ("APP-Key", appKey c);
    ("Signature", signature);
    ("Timestamp", Number_toString timestamp) ].

Definition do_fetch (P : Platform) (rq : FetchRequest) : M Response :=
  fun w =>
    let w' := MkWorld (logs w) (sent w ++ [rq]) in
    match fetch P rq with
    | inl t => (inl t, w')
    | inr r => (inr r, w')
    end.

(** [response.json()]. *)
Definition response_json (P : Platform) (r : Response) : M json :=
  match JSON_parse (body r) with
  | Some v => ret v
  | None => throw (Throw SyntaxError (syntax_error_message P (body r)))
  end.

Fixpoint append_params (u : URL) (params : list (string * option json)) : URL :=
  match params with
  | [] => u
  | (k, Some JNull) :: r => append_params u r
  | (k, None) :: r => append_params u r
  | (k, Some v) :: r => append_params (searchParams_append u k (js_toString v)) r
  end.

Definition synthesized (parsedBody : json) : json :=
  JObj [("code", JInt 200); ("msg", JStr "OK"); ("data", parsedBody)].

Definition msg_or_placeholder (result : json) : string :=
  match js_get "msg" result with
  | Some v => if js_truthy v then js_toString v else "Unknown error"
  | None => "Unknown error"
  end.

(** The checks on a parsed body, lines 238-258. *)
Definition classify_body (c : CMPClient) (parsedBody : json) : M json :=
  if negb (js_truthy parsedBody) || negb (is_object parsedBody) then
    new_Error ("API Error: Invalid response format - " ++ JSON_stringify parsedBody)%string
  else
    match js_get "code" parsedBody with
    | None =>
        log c Warn ["⚠️ API returned data without standard wrapper, treating as success"] ;;;
        ret (synthesized parsedBody)
    | Some code =>
        if negb (json_eqb_int code 200) then
          new_Error ("API Error [" ++ js_toString code ++ "]: "
                       ++ msg_or_placeholder parsedBody)%string
        else ret parsedBody
    end.

(** The body of the try block, lines 221-258. *)
Definition dispatch (P : Platform) (c : CMPClient) (rq : FetchRequest) : M json :=
  response <- do_fetch P rq ;;
  log c Debug [("📡 Response status: " ++ Number_toString (status response) ++ " "
                  ++ statusText response)%string] ;;;
  (if negb (ok response) then
     let responseText := body response in
     log c LError [("❌ Response body: " ++ responseText)%string] ;;;
     new_Error ("HTTP Error: " ++ Number_toString (status response) ++ " "
                  ++ statusText response)%string
   else ret tt) ;;;
  parsedBody <- response_json P response ;;
  log c Debug [("📋 Response data: " ++ JSON_stringify parsedBody)%string] ;;;
  classify_body c parsedBody.

(** The catch clause, lines 259-263. *)
Definition rewrap {A : Type} (c : CMPClient) (error : thrown) : M A :=
  let message :=
    match error with
    | Throw _ m => m
    | ThrowValue _ => "Unknown error"
    end in
  log c LError ["Request failed:"; message] ;;;
  new_Error ("Request failed: " ++ message)%string.

(** The URL string handed to [new URL], lines 202-204. *)
Definition target (c : CMPClient) (resourcePath : string) : string :=
  let baseUrl := strip_trailing_slash (endpoint c) in
  let path := strip_leading_slash resourcePath in
  (baseUrl ++ "/" ++ path)%string.

(** Lines 206-212. *)
Definition with_params (url : URL) (params : option (list (string * option json))) : URL :=
  match params with
  | Some ps => append_params url ps
  | None => url
  end.

(** [data ? JSON.stringify(data) : ""], line 214. *)
Definition serialize_body (data : option json) : string :=
  match data with
  | Some d => if js_truthy d then JSON_stringify d else ""
  | None => ""
  end.

(** The arguments of [fetch], lines 221-225. *)
Definition request_for (P : Platform) (c : CMPClient) (method : string) (url : URL)
    (requestBody : string) : FetchRequest :=
  MkFetch (URL_toString url) method (getHeaders P c requestBody)
    (if String.eqb requestBody "" then None else Some requestBody).

(** [makeRequest], lines 195-264. *)
Definition makeRequest (P : Platform) (c : CMPClient) (method resourcePath : string)
    (data : option json) (params : option (list (string * option json))) : M json :=
  match URL_new P (target c resourcePath) with
  | None => throw (Throw TypeError "Invalid URL")
  | Some url0 =>
      let url := with_params url0 params in
      let requestBody := serialize_body data in
      log c Debug [("🔍 Making " ++ method ++ " request to: " ++ URL_toString url)%string] ;;;
      log c Debug [("📊 Request body: " ++ requestBody)%string] ;;;
      try_catch (dispatch P c (request_for P c method url requestBody)) (rewrap c)
  end.

Definition get (P : Platform) (c : CMPClient) (resourcePath : string)
    (params : option (list (string * option json))) : M json :=
  makeRequest P c "GET" resourcePath None params.

Definition post (P : Platform) (c : CMPClient) (resourcePath : string) (data : option json)
  : M json :=
  makeRequest P c "POST" resourcePath data None.

(** ** The query operations *)

Record SIMListQuery := MkSIMListQuery
  { sl_pageNum : option Z;
    sl_pageSize : option Z;
    sl_enterpriseDataPlan : option string;
    sl_expirationTimeStart : option string;
    sl_expirationTimeEnd : option string;
    sl_iccidStart : option string;
    sl_iccidEnd : option string;
    sl_label : option string;
    sl_simState : option Z;
    sl_simType : option string }.

Definition default {A : Type} (d : A) (o : option A) : A :=
  match o with
  | Some a => a
  | None => d
  end.

(** [if (x) data.k = x] for a string that may be absent. *)
Definition set_truthy (k : string) (x : option string) (data : list (string * json))
  : list (string * json) :=
  match x with
  | Some s => if String.eqb s "" then data else obj_set k (JStr s) data
  | None => data
  end.

(** [if (x !== undefined) data.k = x] for a number that may be absent. *)
Definition set_defined (k : string) (x : option Z) (data : list (string * json))
  : list (string * json) :=
  match x with
  | Some n => obj_set k (JInt n) data
  | None => data
  end.

(** The request body of [querySimList], lines 283-308. *)
Definition simListData (options : SIMListQuery) : list (string * json) :=
  let pageNum := default 1 (sl_pageNum options) in
  let pageSize := default 10 (sl_pageSize options) in
  let data := [("pageNum", JInt pageNum); ("pageSize", JInt (Z.min pageSize 1000))] in
  let data := set_truthy "enterpriseDataPlan" (sl_enterpriseDataPlan options) data in
  let data := set_truthy "expirationTimeStart" (sl_expirationTimeStart options) data in
  let data := set_truthy "expirationTimeEnd" (sl_expirationTimeEnd options) data in
  let data := set_truthy "iccidStart" (sl_iccidStart options) data in
  let data := set_truthy "iccidEnd" (sl_iccidEnd options) data in
  let data := set_truthy "label" (sl_label options) data in
  let data := set_defined "simState" (sl_simState options) data in
  set_truthy "simType" (sl_simType options) data.

Definition querySimList (P : Platform) (c : CMPClient) (options : SIMListQuery) : M json :=
  post P c "/sim/page" (Some (JObj (simListData options))).

(** *** String.prototype.trim

    The white space and line terminators of ECMAScript, in UTF-8: one, two
    or three bytes. *)

Definition ws1 (a : ascii) : bool := in_range "009" "013" a || Ascii.eqb a " ".

Definition ws2 (a b : ascii) : bool := Ascii.eqb a "194" && Ascii.eqb b "160".

Definition ws3 (a b c : ascii) : bool :=
  (Ascii.eqb a "225" && Ascii.eqb b "154" && Ascii.eqb c "128")
  || (Ascii.eqb a "226" && Ascii.eqb b "128"
      && (in_range "128" "138" c || Ascii.eqb c "168" || Ascii.eqb c "169"
          || Ascii.eqb c "175"))
  || (Ascii.eqb a "226" && Ascii.eqb b "129" && Ascii.eqb c "159")
  || (Ascii.eqb a "227" && Ascii.eqb b "128" && Ascii.eqb c "128")
  || (Ascii.eqb a "239" && Ascii.eqb b "187" && Ascii.eqb c "191").

Fixpoint trimStart (s : string) : string :=
  match s with
  | EmptyString => ""
  | String a r1 =>
      if ws1 a then trimStart r1
      else
        match r1 with
        | String b r2 =>
            if ws2 a b then trimStart r2
            else
              match r2 with
              | String c r3 => if ws3 a b c then trimStart r3 else s
              | EmptyString => s
              end
        | EmptyString => s
        end
  end.

Fixpoint all_ws (s : string) : bool :=
  match s with
  | EmptyString => true
  | String a r1 =>
      if ws1 a then all_ws r1
      else
        match r1 with
        | String b r2 =>
            if ws2 a b then all_ws r2
            else
              match r2 with
              | String c r3 => ws3 a b c && all_ws r3
              | EmptyString => false
              end
        | EmptyString => false
        end
  end.

Fixpoint trimEnd (s : string) : string :=
  match s with
  | EmptyString => ""
  | String a r => if all_ws s then "" else String a (trimEnd r)
  end.

Definition trim (s : string) : string := trimEnd (trimStart s).

(** [/^\d{6}$/.test(s)]. *)
Definition six_digits (s : string) : bool :=
  (String.length s =? 6)%nat && string_forallb is_digit s.

Definition is_empty (s : string) : bool := String.eqb s "".

(** [querySimDetail], lines 313-319. *)
Definition querySimDetail (P : Platform) (c : CMPClient) (iccid : string) : M json :=
  if is_empty iccid || is_empty (trim iccid) then new_Error "ICCID cannot be empty"
  else post P c "/sim/detail" (Some (JObj [("iccid", JStr (trim iccid))])).

Record SIMUsageQuery := MkSIMUsageQuery { su_iccid : string; su_month : string }.

(** [querySimMonthData], lines 321-341. *)
Definition querySimMonthData (P : Platform) (c : CMPClient) (options : SIMUsageQuery)
  : M json :=
  let iccid := su_iccid options in
  let month := su_month options in
  if is_empty iccid || is_empty (trim iccid) then new_Error "ICCID cannot be empty"
  else if is_empty month || is_empty (trim month) then new_Error "Month cannot be empty"
  else if negb (six_digits (trim month)) then
    new_Error "Month format must be yyyyMM (e.g., 202301)"
  else
    post P c "/sim/queryMonthData"
      (Some (JObj [("iccid", JStr (trim iccid)); ("month", JStr (trim month))])).

Record EuiccPageQuery := MkEuiccPageQuery
  { eu_childEnterpriseId : option Z;
    eu_iccid : option string;
    eu_pageNum : option Z;
    eu_pageSize : option Z;
    eu_profileStatus : option Z }.

(** The request body of [queryEuiccPage], lines 345-361. *)
Definition euiccPageData (options : EuiccPageQuery) : list (string * json) :=
  let pageNum := default 1 (eu_pageNum options) in
  let pageSize := default 10 (eu_pageSize options) in
  let data := [("pageNum", JInt pageNum); ("pageSize", JInt (Z.min pageSize 1000))] in
  let data := set_defined "childEnterpriseId" (eu_childEnterpriseId options) data in
  let data :=
    match eu_iccid options with
    | Some iccid =>
        if negb (is_empty iccid) && negb (is_empty (trim iccid))
        then obj_set "iccid" (JStr (trim iccid)) data else data
    | None => data
    end in
  set_defined "profileStatus" (eu_profileStatus options) data.

Definition profile_status_message : string :=
  "Profile status must be between 1-9 (see ProfileStatus enum)".

(** [queryEuiccPage], lines 344-369. *)
Definition queryEuiccPage (P : Platform) (c : CMPClient) (options : EuiccPageQuery)
  : M json :=
  let data := euiccPageData options in
  match eu_profileStatus options with
  | Some profileStatus =>
      if (profileStatus <? 1) || (9 <? profileStatus) then new_Error profile_status_message
      else post P c "/esim/euicc/page" (Some (JObj data))
  | None => post P c "/esim/euicc/page" (Some (JObj data))
  end.

(** ** The cursor codec, lines 389-400 *)

Definition createCursor (data : json) : string :=
  base64Encode (JSON_stringify data).

Definition parseCursor (cursor : string) : thrown + json :=
  match JSON_parse (base64Decode cursor) with
  | Some v => inr v
  | None => inl (Throw PlainError "Invalid cursor format")
  end.

(** ** formatDataUsage, lines 371-387

    [bytesValue] is a JavaScript number: a finite one is held as the
    rational it is, next to the two infinities and NaN.  The function only
    compares, divides by 1024 (exact on a binary float of magnitude 1024 or
    more), rounds with [Math.round] and prints with [toFixed], and
    ECMAScript defines each of these on the exact value, so the rationals
    follow the floats step by step. *)

Inductive number : Type :=
| Fin (x : Q)
| Infinity
| NegInfinity
| NaN.

(** [x === 0] *)
Definition Number_is_zero (x : number) : bool :=
  match x with
  | Fin q => Qeq_bool q 0
  | _ => false
  end.

(** [x >= c] for a finite [c] *)
Definition Number_ge (x : number) (c : Q) : bool :=
  match x with
  | Fin q => Qle_bool c q
  | Infinity => true
  | NegInfinity | NaN => false
  end.

(** [x / c] for a finite [c] above zero *)
Definition Number_div (x : number) (c : Q) : number :=
  match x with
  | Fin q => Fin (q / c)
  | _ => x
  end.

(** [Math.round]: the nearest integer, the larger one at a tie. *)
Definition Math_round (x : number) : number :=
  match x with
  | Fin q => Fin (inject_Z (Qfloor (q + (1 # 2))))
  | _ => x
  end.

Definition units : list string := ["B"; "KB"; "MB"; "GB"; "TB"].

(** The while loop: each turn costs one unit of fuel. *)
Fixpoint scale (fuel : nat) (size : number) (unitIndex : nat) : number * nat :=
  match fuel with
  | O => (size, unitIndex)
  | S f =>
      if Number_ge size 1024 && (unitIndex <? length units - 1)%nat
      then scale f (Number_div size 1024) (S unitIndex)
      else (size, unitIndex)
  end.

Definition two_digits (n : Z) : string :=
  String (digit_char (n / 10)) (String (digit_char (n mod 10)) "").

Definition is_integer (q : Q) : bool := Qnum q mod Zpos (Qden q) =? 0.

Section Formatter.

(** [Number::toString] prints an integer of magnitude below 10^21 as its
    digits.  The text of any other finite number (a fraction, or exponent
    notation from 10^21 on) is left to the platform. *)
Variable Number_text_other : Q -> string.

(** The text of a number inside a template literal. *)
Definition String_of_number (x : number) : string :=
  match x with
  | Fin q =>
      if is_integer q && negb (Qle_bool (inject_Z (10 ^ 21)) (Qabs q))
      then Number_toString (Qfloor q)
      else Number_text_other q
  | Infinity => "Infinity"
  | NegInfinity => "-Infinity"
  | NaN => "NaN"
  end.

(** [x.toFixed(2)]: the sign, then the nearest multiple of 1/100 of the
    magnitude (the larger one at a tie) with two digits after the point;
    from 10^21 on, the text of the number instead. *)
Definition toFixed2 (x : number) : string :=
  match x with
  | Fin q =>
      let a := Qabs q in
      let sign := if Qle_bool 0 q then "" else "-" in
      if Qle_bool (inject_Z (10 ^ 21)) a then (sign ++ String_of_number (Fin a))%string
      else
        let n := Qfloor (100 * a + (1 # 2)) in
        (sign ++ digits_of (n / 100) ++ "." ++ two_digits (n mod 100))%string
  | _ => String_of_number x
  end.

Definition formatDataUsage (bytesValue : number) : string :=
  if Number_is_zero bytesValue then "0 B"
  else
    let '(size, unitIndex) := scale (length units) bytesValue 0 in
    if (unitIndex =? 0)%nat
    then (String_of_number (Math_round size) ++ " " ++ nth unitIndex units "")%string
    else (toFixed2 size ++ " " ++ nth unitIndex units "")%string.

End Formatter.

(** ** The packaged client, dxt-release/server/cmp-client.js

    The JavaScript build of the same client.  Its [makeRequest] opens the
    try block before the URL is built. *)

Module Packaged.

Definition log (c : CMPClient) (l : level) (args : list string) : M unit :=
  fun w =>
    if logger c then (inr tt, MkWorld (logs w ++ [(l, args)]) (sent w))
    else (inr tt, w).

Definition classify_body (c : CMPClient) (result : json) : M json :=
  match js_get "code" result with
  | None =>
      if match result with JNull => true | _ => false end then
        throw (Throw TypeError "Cannot read properties of null (reading 'code')")
      else if is_object result then
        log c Warn ["API returned data without standard wrapper, treating as success"] ;;;
        ret (synthesized result)
      else
        new_Error ("API Error: Invalid response format - " ++ JSON_stringify result)%string
  | Some code =>
      if negb (json_eqb_int code 200) then
        new_Error ("API Error [" ++ js_toString code ++ "]: "
                     ++ msg_or_placeholder result)%string
      else ret result
  end.

Definition attempt (P : Platform) (c : CMPClient) (method resourcePath : string)
    (data : option json) (params : option (list (string * option json))) : M json :=
  match URL_new P (target c resourcePath) with
  | None => throw (Throw TypeError "Invalid URL")
  | Some url0 =>
      let url := with_params url0 params in
      let requestBody := serialize_body data in
      log c Debug [("Making " ++ method ++ " request to: " ++ URL_toString url)%string] ;;;
      log c Debug [("Request body: " ++ requestBody)%string] ;;;
      response <- do_fetch P (request_for P c method url requestBody) ;;
      log c Debug [("Response status: " ++ Number_toString (status response) ++ " "
                      ++ statusText response)%string] ;;;
      (if negb (ok response) then
         let responseText := body response in
         log c LError [("HTTP Error: " ++ Number_toString (status response) ++ " "
                          ++ statusText response)%string; responseText] ;;;
         new_Error ("HTTP Error: " ++ Number_toString (status response) ++ " "
                      ++ statusText response)%string
       else ret tt) ;;;
      result <- response_json P response ;;
      log c Debug [("Response data: " ++ JSON_stringify result)%string] ;;;
      classify_body c result
  end.

Definition rewrap {A : Type} (c : CMPClient) (error : thrown) : M A :=
  match error with
  | Throw _ m =>
      log c LError ["Request failed:"; m] ;;;
      new_Error ("Request failed: " ++ m)%string
  | ThrowValue _ =>
      log c LError ["Request failed:"; "undefined"] ;;;
      new_Error "Request failed: Unknown error"
  end.

Definition makeRequest (P : Platform) (c : CMPClient) (method resourcePath : string)
    (data : option json) (params : option (list (string * option json))) : M json :=
  try_catch (attempt P c method resourcePath data params) (rewrap c).

End Packaged.

(** ** Reference definitions for the statements below *)

(** Whether one string occurs inside another. *)
Fixpoint contains (needle hay : string) : bool :=
  match strip_prefix needle hay with
  | Some _ => true
  | None =>
      match hay with
      | String _ r => contains needle r
      | EmptyString => false
      end
  end.

(** The message of a thrown value, as the catch clause reads it. *)
Definition inner_message (t : thrown) : string :=
  match t with
  | Throw _ m => m
  | ThrowValue _ => "Unknown error"
  end.

(** What the checks on a parsed body decide, without the log lines: the
    message of the error, or the envelope. *)
Definition verdict (parsedBody : json) : string + json :=
  if negb (js_truthy parsedBody) || negb (is_object parsedBody) then
    inl ("API Error: Invalid response format - " ++ JSON_stringify parsedBody)%string
  else
    match js_get "code" parsedBody with
    | None => inr (synthesized parsedBody)
    | Some code =>
        if negb (json_eqb_int code 200) then
          inl ("API Error [" ++ js_toString code ++ "]: " ++ msg_or_placeholder parsedBody)%string
        else inr parsedBody
    end.

Definition http_error_message (r : Response) : string :=
  ("HTTP Error: " ++ Number_toString (status r) ++ " " ++ statusText r)%string.

(** What becomes of the answer of [fetch]. *)
Definition outcome (P : Platform) (answer : thrown + Response) : string + json :=
  match answer with
  | inl t => inl (inner_message t)
  | inr r =>
      if ok r then
        match JSON_parse (body r) with
        | Some v => verdict v
        | None => inl (syntax_error_message P (body r))
        end
      else inl (http_error_message r)
  end.

Definition request_failed (m : string) : thrown :=
  Throw PlainError ("Request failed: " ++ m).

Definition starts_with (p s : string) : bool :=
  match strip_prefix p s with
  | Some _ => true
  | None => false
  end.


(** The integer a decimal numeral denotes: an optional minus sign, then
    digits only. *)
Definition digits_value (s : string) : option Z :=
  match digits1 s with
  | Some (v, _, EmptyString) => Some v
  | _ => None
  end.

Definition decimal_value (s : string) : option Z :=
  match s with
  | String c r =>
      if Ascii.eqb c "-" then option_map Z.opp (digits_value r) else digits_value s
  | EmptyString => None
  end.

(** HMAC-SHA256 of a message under a key, in lowercase hexadecimal. *)
Definition hmac_sha256_hex (key message : string) : string :=
  hex_of_bytes (Sha256.hmac_sha256 (bytes_of_string key) (bytes_of_string message)).


(** [n] is the integer nearest to [y], the larger one at a tie. *)
Definition nearest_to (n : Z) (y : Q) : Prop :=
  (inject_Z n - (1 # 2) <= y /\ y < inject_Z n + (1 # 2))%Q.


Definition carries (t : thrown) (text : string) : bool :=
  match t with
  | Throw _ m => contains text m
  | ThrowValue _ => false
  end.

(** ** Sample platforms and clients

    The URL parser of the samples asks for an http or https scheme ([new
    URL] without a base rejects a string that has no scheme); the clock is
    fixed and [fetch] gives the same answer to every request. *)

Definition sample_URL_new (s : string) : option URL :=
  if starts_with "https://" s || starts_with "http://" s then Some (MkURL s []) else None.

Definition sample_platform (answer : thrown + Response) : Platform :=
  MkPlatform 1700000000123 sample_URL_new (fun _ => answer) (fun _ => "Unexpected token").

Definition sample_client : CMPClient :=
  setLogger (CMPClient_new "key" "secret" "https://cmp.example/gateway/openapi/").

(** A client whose endpoint was configured without a scheme. *)
Definition schemeless_client : CMPClient :=
  CMPClient_new "key" "secret" "cmp.example/gateway/openapi".

Definition json_text (l : list string) : string :=
  String.concat (String dquote "") l.

(** The body [{"code":500,"msg":"boom"}]. *)
Definition boom_body : string := json_text ["{"; "code"; ":500,"; "msg"; ":"; "boom"; "}"].

(** The body [{"list":[],"total":0}]. *)
Definition bare_body : string := json_text ["{"; "list"; ":[],"; "total"; ":0}"].

(** ** The remaining verbs, lines 274-280 *)

Definition put (P : Platform) (c : CMPClient) (resourcePath : string) (data : option json)
  : M json :=
  makeRequest P c "PUT" resourcePath data None.

Definition delete (P : Platform) (c : CMPClient) (resourcePath : string)
    (data : option json) : M json :=
  makeRequest P c "DELETE" resourcePath data None.

(** ** Display names, lines 16-41 and 122-147 *)

Inductive SIMState : Type :=
| PRE_ACTIVATION | TEST | SILENT | STANDBY | ACTIVE | SHUTDOWN | PAUSE | PRE_LOGOUT | LOGOUT.

Definition SIMState_value (s : SIMState) : Z :=
  match s with
  | PRE_ACTIVATION => 2
  | TEST => 3
  | SILENT => 4
  | STANDBY => 5
  | ACTIVE => 6
  | SHUTDOWN => 7
  | PAUSE => 8
  | PRE_LOGOUT => 10
  | LOGOUT => 11
  end.

Inductive ProfileStatus : Type :=
| NOT_DOWNLOADED | DOWNLOADING | DOWNLOADED | ENABLING | ENABLED | DISABLING | DISABLED
| DELETING | DELETED.

Definition ProfileStatus_value (s : ProfileStatus) : Z :=
  match s with
  | NOT_DOWNLOADED => 1
  | DOWNLOADING => 2
  | DOWNLOADED => 3
  | ENABLING => 4
  | ENABLED => 5
  | DISABLING => 6
  | DISABLED => 7
  | DELETING => 8
  | DELETED => 9
  end.

(** [table[key]] on a record literal whose keys are numbers. *)
Fixpoint Record_get (key : Z) (table : list (Z * string)) : option string :=
  match table with
  | [] => None
  | (k, v) :: r => if key =? k then Some v else Record_get key r
  end.

(** [x || fallback] for a string that may be undefined. *)
Definition or_else (x : option string) (fallback : string) : string :=
  match x with
  | Some s => if is_empty s then fallback else s
  | None => fallback
  end.

Definition getStateName (stateCode : Z) : string :=
  let stateMap :=
    [ (2, "Pre-activation"); (3, "Test"); (4, "Silent"); (5, "Standby"); (6, "Active");
      (7, "Shutdown"); (8, "Pause"); (10, "Pre-logout"); (11, "Logout") ] in
  or_else (Record_get stateCode stateMap)
    ("Unknown status (" ++ Number_toString stateCode ++ ")")%string.

Definition getProfileStatusName (status : Z) : string :=
  let statusMap :=
    [ (1, "Not Downloaded"); (2, "Downloading"); (3, "Downloaded"); (4, "Enabling");
      (5, "Enabled"); (6, "Disabling"); (7, "Disabled"); (8, "Deleting"); (9, "Deleted") ] in
  or_else (Record_get status statusMap)
    ("Unknown Status (" ++ Number_toString status ++ ")")%string.

(** ** Reference definitions for the further properties *)

(** The codes of the SIMState enumeration. *)
Definition known_state (n : Z) : bool :=
  existsb (fun s => SIMState_value s =? n)
    [PRE_ACTIVATION; TEST; SILENT; STANDBY; ACTIVE; SHUTDOWN; PAUSE; PRE_LOGOUT; LOGOUT].



(** The query parameters [makeRequest] keeps: those that are neither null
    nor undefined, as text, in their order. *)
Definition kept_params (params : list (string * option json)) : list (string * string) :=
  flat_map (fun p : string * option json =>
              match snd p with
              | Some JNull | None => []
              | Some v => [(fst p, js_toString v)]
              end) params.

(** A filter of a request body: present when the text is given and not
    empty. *)
Definition text_field (k : string) (x : option string) : list (string * json) :=
  match x with
  | Some s => if is_empty s then [] else [(k, JStr s)]
  | None => []
  end.

(** A filter of a request body: present when the number is given. *)
Definition number_field (k : string) (x : option Z) : list (string * json) :=
  match x with
  | Some n => [(k, JInt n)]
  | None => []
  end.

Definition keys (fields : list (string * json)) : list string := map fst fields.

(** The one request a query operation posts: its path below the endpoint
    and its body. *)
Definition posted (P : Platform) (c : CMPClient) (url0 : URL) (data : json) : FetchRequest :=
  MkFetch (URL_toString url0) "POST" (getHeaders P c (JSON_stringify data))
    (Some (JSON_stringify data)).

(** The JSON text of the members of an object, as [JSON.stringify] joins
    them. *)
Fixpoint members_text (l : list (string * json)) : string :=
  match l with
  | [] => ""
  | [(k, x)] => (quote k ++ ":" ++ JSON_stringify x)%string
  | (k, x) :: r => (quote k ++ ":" ++ JSON_stringify x ++ "," ++ members_text r)%string
  end.

(** How [JSON.parse] reads back a character of a string that
    [JSON.stringify] wrote: a control character without a short escape comes
    back from its [\u] escape, any other character as itself. *)
Definition item_of (c : ascii) : item :=
  if ascii_leb c "031"
     && negb (Ascii.eqb c "008" || Ascii.eqb c "009" || Ascii.eqb c "010"
              || Ascii.eqb c "012" || Ascii.eqb c "013")
  then Esc (byte_of c) else Raw c.

(** A number as [JSON.parse] gives it: a whole number, or a decimal whose
    last digit is not zero. *)
Definition normal_number (m e : Z) : bool :=
  (e =? 0) || ((e <? 0) && negb (m mod 10 =? 0)).

(** A value of a flat record: null, a boolean, a number, or a text without
    a lone surrogate. *)
Definition flat_value (v : json) : bool :=
  match v with
  | JNull => true
  | JBool _ => true
  | JNum m e => normal_number m e
  | JStr s => wellformed s
  | JArr _ => false
  | JObj _ => false
  end.

Fixpoint distinct (l : list string) : bool :=
  match l with
  | [] => true
  | k :: r => negb (existsb (String.eqb k) r) && distinct r
  end.

(** A flat record: an object whose property names are distinct and
    well-formed and whose values are flat. *)
Definition flat_record (r : json) : bool :=
  match r with
  | JObj fields =>
      forallb (fun p : string * json => wellformed (fst p) && flat_value (snd p)) fields
      && distinct (keys fields)
  | _ => false
  end.

(** A character of the base64 alphabet, or the padding character. *)
Definition base64_text_char (c : ascii) : bool :=
  existsb (Ascii.eqb c) (list_ascii_of_string base64_alphabet) || Ascii.eqb c "=".

(** What may follow a number in a JSON text without making it longer. *)
Definition ends_number (rest : string) : bool :=
  match rest with
  | String c _ =>
      negb (is_digit c || Ascii.eqb c "." || Ascii.eqb c "e" || Ascii.eqb c "E")
  | EmptyString => true
  end.

(** ** Reference definitions for the query operations *)

(** Empty, or white space only: nothing is left after trimming. *)
Definition blank (s : string) : Prop := trim s = "".



(** * Properties *)

Unset Implicit Arguments.

(** ** Strings *)

Lemma sapp_assoc (a b c : string) : ((a ++ b) ++ c = a ++ (b ++ c))%string.
Proof. induction a as [|x a IH]; simpl; [reflexivity | now rewrite IH]. Qed.

Lemma sapp_cons (a : ascii) (s t : string) : (String a s ++ t = String a (s ++ t))%string.
Proof. reflexivity. Qed.

Lemma sapp_nil_r (a : string) : (a ++ "" = a)%string.
Proof. induction a as [|x a IH]; simpl; [reflexivity | now rewrite IH]. Qed.

Lemma slength_app (a b : string) :
  String.length (a ++ b) = (String.length a + String.length b)%nat.
Proof. induction a as [|x a IH]; simpl; [reflexivity | now rewrite IH]. Qed.

Lemma list_of_sapp (a b : string) :
  list_ascii_of_string (a ++ b) = list_ascii_of_string a ++ list_ascii_of_string b.
Proof. induction a as [|x a IH]; simpl; [reflexivity | now rewrite IH]. Qed.

Lemma forallb_sapp (p : ascii -> bool) (a b : string) :
  string_forallb p (a ++ b) = string_forallb p a && string_forallb p b.
Proof.
  induction a as [|x a IH]; simpl; [reflexivity|].
  now rewrite IH, andb_assoc.
Qed.

(** ** Decimal digits *)

(** A property of the integers below [n], checked on each of them. *)
Lemma below_all (p : Z -> bool) (n : nat) :
  forallb p (map Z.of_nat (seq 0 n)) = true ->
  forall d, 0 <= d < Z.of_nat n -> p d = true.
Proof.
  intros H d Hd. rewrite forallb_forall in H. apply H.
  apply in_map_iff. exists (Z.to_nat d). split; [lia|].
  apply in_seq. lia.
Qed.

Lemma digit_char_digit (d : Z) :
  0 <= d <= 9 -> is_digit (digit_char d) = true /\ digit_value (digit_char d) = d.
Proof.
  intros H.
  pose proof (below_all
    (fun d => is_digit (digit_char d) && (digit_value (digit_char d) =? d)) 10
    eq_refl d ltac:(lia)) as C.
  apply andb_true_iff in C. destruct C as [C1 C2].
  split; [assumption | now apply Z.eqb_eq].
Qed.

Lemma mod10_digit (n : Z) : 0 <= n mod 10 <= 9.
Proof. pose proof (Z.mod_pos_bound n 10 ltac:(lia)). lia. Qed.

Lemma digits_acc_S (f : nat) (n : Z) (acc : string) :
  digits_acc (S f) n acc
  = if n <? 10 then String (digit_char (n mod 10)) acc
    else digits_acc f (n / 10) (String (digit_char (n mod 10)) acc).
Proof. reflexivity. Qed.

Lemma digits_acc_app (fuel : nat) : forall n acc,
  digits_acc fuel n acc = (digits_acc fuel n "" ++ acc)%string.
Proof.
  induction fuel as [|f IH]; intros n acc; [reflexivity|].
  cbn [digits_acc]. destruct (n <? 10); [reflexivity|].
  rewrite IH. rewrite (IH _ (String _ "")). now rewrite sapp_assoc.
Qed.

(** Reading back the digits written for [n]: the value read so far is
    shifted by as many places as there are digits, then [n] is added. *)
Lemma read_digits_acc (f : nat) : forall n,
  0 <= n < 2 ^ Z.of_nat (S f) ->
  exists k, 0 < k /\ n < 10 ^ k
    /\ forall a cnt rest,
         read_digits a cnt (digits_acc (S f) n "" ++ rest)
         = read_digits (a * 10 ^ k + n) (cnt + k) rest.
Proof.
  induction f as [|f IH]; intros n Hn.
  - change (2 ^ Z.of_nat 1) with 2 in Hn.
    exists 1. repeat split; try lia. intros a cnt rest.
    cbn [digits_acc]. replace (n <? 10) with true by (symmetry; apply Z.ltb_lt; lia).
    destruct (digit_char_digit (n mod 10)) as [D V]; [apply mod10_digit|].
    cbn [String.append read_digits]. rewrite D, V.
    rewrite Z.mod_small by lia. f_equal; lia.
  - rewrite digits_acc_S. destruct (Z.ltb_spec n 10) as [L|L].
    + exists 1. repeat split; try lia. intros a cnt rest.
      destruct (digit_char_digit (n mod 10)) as [D V]; [apply mod10_digit|].
      cbn [String.append read_digits]. rewrite D, V.
      rewrite Z.mod_small by lia. f_equal; lia.
    + destruct (IH (n / 10)) as (k & Hk & Hlt & Hread).
      { split; [apply Z.div_pos; lia|].
        rewrite Nat2Z.inj_succ, Z.pow_succ_r in Hn by lia.
        apply Z.div_lt_upper_bound; lia. }
      exists (k + 1). split; [lia|]. split.
      { rewrite Z.pow_add_r by lia. change (10 ^ 1) with 10.
        pose proof (Z.div_mod n 10 ltac:(lia)).
        pose proof (Z.mod_pos_bound n 10 ltac:(lia)). lia. }
      intros a cnt rest.
      rewrite digits_acc_app, sapp_assoc. rewrite Hread.
      destruct (digit_char_digit (n mod 10)) as [D V]; [apply mod10_digit|].
      cbn [String.append read_digits]. rewrite D, V.
      rewrite Z.pow_add_r by lia. change (10 ^ 1) with 10.
      pose proof (Z.div_mod n 10 ltac:(lia)). f_equal; lia.
Qed.

Lemma digits_of_fuel (n : Z) : 0 <= n -> n < 2 ^ Z.of_nat (S (Z.to_nat (Z.log2 n))).
Proof.
  intros H. rewrite Nat2Z.inj_succ, Z2Nat.id by apply Z.log2_nonneg.
  destruct (Z.eq_dec n 0) as [->|N]; [reflexivity|].
  apply Z.log2_spec. lia.
Qed.

Lemma read_digits_of (n : Z) :
  0 <= n ->
  exists k, 0 < k /\ n < 10 ^ k
    /\ forall a cnt rest,
         read_digits a cnt (digits_of n ++ rest)
         = read_digits (a * 10 ^ k + n) (cnt + k) rest.
Proof.
  intros H. apply read_digits_acc. split; [assumption | now apply digits_of_fuel].
Qed.

(** The digits of a number are digits, at least one, and the first is not
    a zero unless the number is zero. *)
Lemma digits_acc_shape (f : nat) : forall n,
  0 <= n < 2 ^ Z.of_nat (S f) ->
  exists d r, digits_acc (S f) n "" = String (digit_char d) r
    /\ 0 <= d <= 9 /\ (0 < n -> 0 < d) /\ (n < 10 -> r = "" /\ d = n)
    /\ string_forallb is_digit (digits_acc (S f) n "") = true.
Proof.
  induction f as [|f IH]; intros n Hn.
  - change (2 ^ Z.of_nat 1) with 2 in Hn.
    exists n, "". cbn [digits_acc].
    replace (n <? 10) with true by (symmetry; apply Z.ltb_lt; lia).
    rewrite Z.mod_small by lia.
    destruct (digit_char_digit n) as [D _]; [lia|].
    cbn [string_forallb]. rewrite D. repeat split; auto; lia.
  - rewrite digits_acc_S. destruct (Z.ltb_spec n 10) as [L|L].
    + exists n, "". rewrite Z.mod_small by lia.
      destruct (digit_char_digit n) as [D _]; [lia|].
      cbn [string_forallb]. rewrite D. repeat split; auto; lia.
    + destruct (IH (n / 10)) as (d & r & E & Hd & Hpos & _ & Hall).
      { split; [apply Z.div_pos; lia|].
        rewrite Nat2Z.inj_succ, Z.pow_succ_r in Hn by lia.
        apply Z.div_lt_upper_bound; lia. }
      exists d, (r ++ String (digit_char (n mod 10)) "")%string.
      rewrite digits_acc_app, E. cbn [String.append]. split; [reflexivity|].
      split; [assumption|]. split.
      { intros _. apply Hpos. apply Z.div_str_pos. lia. }
      split; [lia|].
      change (String (digit_char d) (r ++ String (digit_char (n mod 10)) ""))%string
        with (String (digit_char d) r ++ String (digit_char (n mod 10)) "")%string.
      rewrite forallb_sapp, <- E, Hall.
      destruct (digit_char_digit (n mod 10)) as [D _]; [apply mod10_digit|].
      cbn [string_forallb]. now rewrite D.
Qed.

Lemma digits_of_shape (n : Z) :
  0 <= n ->
  exists d r, digits_of n = String (digit_char d) r
    /\ 0 <= d <= 9 /\ (0 < n -> 0 < d) /\ (n < 10 -> r = "" /\ d = n)
    /\ string_forallb is_digit (digits_of n) = true.
Proof.
  intros H. apply digits_acc_shape. split; [assumption | now apply digits_of_fuel].
Qed.

(** ** The request signature *)

Definition is_byte (b : Z) : Prop := 0 <= b < 256.

Lemma land_255_byte (x : Z) : is_byte (Z.land x 255).
Proof.
  change 255 with (Z.ones 8). rewrite Z.land_ones by lia.
  apply Z.mod_pos_bound. lia.
Qed.

Lemma word_bytes_bytes (w : Z) : Forall is_byte (Sha256.word_bytes w).
Proof. unfold Sha256.word_bytes. repeat constructor; apply land_255_byte. Qed.

Lemma digest_bytes_bytes (s : Sha256.state) : Forall is_byte (Sha256.digest_bytes s).
Proof.
  unfold Sha256.digest_bytes.
  repeat (apply Forall_app; split); apply word_bytes_bytes.
Qed.

Lemma digest_bytes_length (s : Sha256.state) : length (Sha256.digest_bytes s) = 32%nat.
Proof. reflexivity. Qed.

Lemma hex_digit_lower (n : Z) : 0 <= n < 16 -> is_lower_hex (hex_digit n) = true.
Proof. intros H. exact (below_all (fun n => is_lower_hex (hex_digit n)) 16 eq_refl n H). Qed.

Lemma hex_of_bytes_lower (bs : list Z) :
  Forall is_byte bs -> string_forallb is_lower_hex (hex_of_bytes bs) = true.
Proof.
  induction 1 as [|b bs [Hb1 Hb2] _ IH]; [reflexivity|].
  cbn [hex_of_bytes string_forallb]. rewrite IH, !hex_digit_lower.
  - reflexivity.
  - change 15 with (Z.ones 4). rewrite Z.land_ones by lia. apply Z.mod_pos_bound. lia.
  - rewrite Z.shiftr_div_pow2 by lia. change (2 ^ 4) with 16.
    split; [apply Z.div_pos; lia | apply Z.div_lt_upper_bound; lia].
Qed.

Lemma hex_of_bytes_length (bs : list Z) :
  String.length (hex_of_bytes bs) = (2 * length bs)%nat.
Proof.
  induction bs as [|b bs IH]; [reflexivity|].
  cbn [hex_of_bytes String.length length]. lia.
Qed.

Lemma sha256_bytes (msg : list Z) :
  Forall is_byte (Sha256.sha256 msg) /\ length (Sha256.sha256 msg) = 32%nat.
Proof. unfold Sha256.sha256. split; [apply digest_bytes_bytes | apply digest_bytes_length]. Qed.

Lemma digits_value_digits_of (n : Z) : 0 <= n -> digits_value (digits_of n) = Some n.
Proof.
  intros H. unfold digits_value, digits1.
  destruct (digits_of_shape n H) as (d & r & E & Hd & _ & _ & _).
  destruct (read_digits_of n H) as (k & _ & _ & R).
  specialize (R 0 0 ""). rewrite sapp_nil_r in R.
  rewrite E in *. destruct (digit_char_digit d Hd) as [D _]. rewrite D, R.
  cbn [read_digits]. f_equal; lia.
Qed.

(** [Number_toString] writes the decimal numeral of its argument. *)
Lemma Number_toString_decimal (n : Z) : decimal_value (Number_toString n) = Some n.
Proof.
  unfold Number_toString, decimal_value. destruct (Z.ltb_spec n 0) as [L|L].
  - cbn [Ascii.eqb Bool.eqb]. rewrite digits_value_digits_of by lia.
    cbn [option_map]. f_equal. lia.
  - destruct (digits_of_shape n L) as (d & r & E & Hd & _ & _ & _).
    rewrite <- (digits_value_digits_of n L). rewrite E.
    replace (Ascii.eqb (digit_char d) "-") with false; [reflexivity|].
    symmetry. apply Ascii.eqb_neq. intros C.
    destruct (digit_char_digit d Hd) as [D _]. rewrite C in D. discriminate D.
Qed.

(** C1. The signature is the lowercase hexadecimal HMAC-SHA256, keyed by
    the application secret, of the application key, the decimal numeral of
    the timestamp and the serialized body, concatenated with nothing in
    between: 64 characters, each one of 0-9 and a-f.  It depends on nothing
    else, so equal inputs give equal digests.  Two known answers fix the
    digest: the key, the timestamp 1700000000 and the body of an ICCID query
    under the secret, and the same with the empty body. *)
Theorem generateSignature_hmac (c : CMPClient) (timestamp : Z) (requestBody : string) :
  generateSignature c timestamp requestBody
  = hmac_sha256_hex (appSecret c) (appKey c ++ Number_toString timestamp ++ requestBody)
  /\ decimal_value (Number_toString timestamp) = Some timestamp
  /\ String.length (generateSignature c timestamp requestBody) = 64%nat
  /\ string_forallb is_lower_hex (generateSignature c timestamp requestBody) = true
  /\ (forall c' timestamp' requestBody',
        appKey c' = appKey c -> appSecret c' = appSecret c ->
        timestamp' = timestamp -> requestBody' = requestBody ->
        generateSignature c' timestamp' requestBody'
        = generateSignature c timestamp requestBody)
  /\ generateSignature (CMPClient_new "key" "secret" "https://cmp.example") 1700000000
       (json_text ["{"; "iccid"; ":"; "8986"; "}"])
     = "0a9a201159329b254683d9a16abb01f366d7b0ec7d07175030e48696c216351b"
  /\ generateSignature (CMPClient_new "key" "secret" "https://cmp.example") 1700000000 ""
     = "9e00b61d4ad9dff13d80e83545de601bc2cfd8162994bbd7247fa0ac8f3501b5".
Proof.
  split; [reflexivity|].
  split; [apply Number_toString_decimal|].
  unfold generateSignature, Hmac_digest_hex, Sha256.hmac_sha256.
  split; [|split; [|split; [|split]]].
  - rewrite hex_of_bytes_length. now rewrite (proj2 (sha256_bytes _)).
  - apply hex_of_bytes_lower. apply sha256_bytes.
  - intros c' t' b' K S -> ->. unfold Hmac_update, createHmac_sha256.
    cbn [hmac_key hmac_data]. now rewrite K, S.
  - vm_compute. reflexivity.
  - vm_compute. reflexivity.
Qed.

(** ** formatDataUsage *)


Lemma Qle_bool_false (a b : Q) : Qle_bool a b = false <-> (b < a)%Q.
Proof.
  split.
  - intros H. apply Qnot_le_lt. intros C. apply Qle_bool_iff in C. congruence.
  - intros H. destruct (Qle_bool a b) eqn:E; [|reflexivity].
    apply Qle_bool_iff in E. apply Qlt_not_le in H. contradiction.
Qed.



Lemma Qfloor_nearest (y : Q) : nearest_to (Qfloor (y + (1 # 2))) y.
Proof.
  unfold nearest_to.
  pose proof (Qfloor_le (y + (1 # 2))) as L.
  pose proof (Qlt_floor (y + (1 # 2))) as U.
  rewrite inject_Z_plus in U. change (inject_Z 1) with 1%Q in U.
  split; lra.
Qed.


Lemma nearest_to_bounds (n : Z) (y : Q) (lo hi : Z) :
  nearest_to n y -> (inject_Z lo <= y)%Q -> (y < inject_Z hi)%Q -> lo <= n <= hi.
Proof.
  unfold nearest_to. intros [L U] A B.
  assert (P : (inject_Z lo < inject_Z (n + 1))%Q)
    by (rewrite inject_Z_plus; change (inject_Z 1) with 1%Q; lra).
  assert (R : (inject_Z n < inject_Z (hi + 1))%Q)
    by (rewrite inject_Z_plus; change (inject_Z 1) with 1%Q; lra).
  rewrite <- Zlt_Qlt in P, R. lia.
Qed.

Section FormatterFacts.

Variable other : Q -> string.

Lemma String_of_number_integer (n : Z) :
  Z.abs n < 10 ^ 21 -> String_of_number other (Fin (inject_Z n)) = Number_toString n.
Proof.
  intros H. unfold String_of_number, is_integer, Qle_bool, Qabs, inject_Z, Qfloor.
  cbn [Qnum Qden]. rewrite Z.mod_1_r, Z.div_1_r, !Z.mul_1_r.
  replace (10 ^ 21 <=? Z.abs n) with false by (symmetry; apply Z.leb_gt; exact H).
  reflexivity.
Qed.


End FormatterFacts.





(** What is shown in the B unit: a value below 1024 is never divided. *)
Lemma formatDataUsage_below_1024 (other : Q -> string) (x : Q) :
  (x < 1024)%Q -> (inject_Z (- (10 ^ 21 - 1)) <= x)%Q ->
  exists n, nearest_to n x
    /\ formatDataUsage other (Fin x) = (Number_toString n ++ " B")%string.
Proof.
  intros U L. unfold formatDataUsage, Number_is_zero.
  destruct (Qeq_bool x 0) eqn:Z0.
  - apply Qeq_bool_iff in Z0. exists 0. split; [|reflexivity].
    unfold nearest_to. rewrite Z0. change (inject_Z 0) with 0%Q. split; lra.
  - cbn [units length scale Number_ge].
    replace (Qle_bool 1024 x) with false by (symmetry; now apply Qle_bool_false).
    cbn [andb Nat.eqb Math_round nth].
    set (n := Qfloor (x + (1 # 2))).
    assert (N : nearest_to n x) by apply Qfloor_nearest.
    exists n. split; [exact N|].
    rewrite String_of_number_integer; [reflexivity|].
    pose proof (nearest_to_bounds n x (- (10 ^ 21 - 1)) 1024 N L U). lia.
Qed.

(** X18. The edges of [formatDataUsage]: NaN and the infinities are printed
    by name (NaN B, Infinity TB, -Infinity B); a negative count is never
    scaled, whatever its size, and shows as a rounded number of B; a count
    from 1023.5 up to 1024 shows as 1024 B, and 1024^5 bytes as 1024.00 TB,
    since there is no unit above TB. *)
Theorem formatDataUsage_edges (other : Q -> string) :
  formatDataUsage other NaN = "NaN B"
  /\ formatDataUsage other Infinity = "Infinity TB"
  /\ formatDataUsage other NegInfinity = "-Infinity B"
  /\ (forall x, (x < 0)%Q -> (inject_Z (- (10 ^ 21 - 1)) <= x)%Q ->
        exists n, nearest_to n x /\ n <= 0
          /\ formatDataUsage other (Fin x) = (Number_toString n ++ " B")%string)
  /\ (forall x, (1023 + (1 # 2) <= x)%Q -> (x < 1024)%Q ->
        formatDataUsage other (Fin x) = "1024 B")
  /\ formatDataUsage other (Fin (inject_Z (1024 ^ 5))) = "1024.00 TB"
  /\ formatDataUsage other (Fin (- (3 # 2))) = "-1 B"
  /\ formatDataUsage other (Fin (- inject_Z (1024 ^ 3))) = "-1073741824 B".
Proof.
  split; [reflexivity|]. split; [reflexivity|]. split; [reflexivity|].
  split.
  { intros x N L.
    destruct (formatDataUsage_below_1024 other x ltac:(lra) L) as (n & Hn & E).
    exists n. split; [exact Hn|]. split; [|exact E].
    pose proof (nearest_to_bounds n x (- (10 ^ 21 - 1)) 0 Hn L N). lia. }
  split.
  { intros x L U.
    destruct (formatDataUsage_below_1024 other x U) as (n & Hn & E).
    { apply Qle_trans with (y := 0%Q); [now vm_compute | lra]. }
    pose proof (nearest_to_bounds n x 1023 1024 Hn) as B.
    assert (n = 1024); [|now subst n].
    destruct Hn as [Hl Hu].
    assert (P : (inject_Z 1023 < inject_Z n)%Q)
      by (change (inject_Z 1023) with 1023%Q; lra).
    rewrite <- Zlt_Qlt in P.
    assert (B' : 1023 <= n <= 1024)
      by (apply B; [change (inject_Z 1023) with 1023%Q; lra
                   | change (inject_Z 1024) with 1024%Q; lra]).
    lia. }
  repeat split.
Qed.

(** ** makeRequest *)

Arguments getHeaders : simpl never.
Arguments generateSignature : simpl never.
Arguments Number_toString : simpl never.
Arguments JSON_stringify : simpl never.
Arguments JSON_parse : simpl never.
Arguments URL_toString : simpl never.
Arguments String.append : simpl never.

Ltac run_m :=
  unfold dispatch, classify_body, rewrap, do_fetch, response_json, new_Error, log,
    bind, try_catch, ret, throw.

(** The result of [makeRequest] once the URL is built: the answer of
    [fetch] is classified, and every failure is wrapped. *)
Lemma makeRequest_result (P : Platform) (c : CMPClient) (method path : string)
    (data : option json) (params : option (list (string * option json))) (w : World)
    (url0 : URL) :
  URL_new P (target c path) = Some url0 ->
  let rq := request_for P c method (with_params url0 params) (serialize_body data) in
  fst (makeRequest P c method path data params w)
  = match outcome P (fetch P rq) with
    | inl m => inl (request_failed m)
    | inr v => inr v
    end.
Proof.
  intros U rq. unfold makeRequest. rewrite U. fold rq. run_m. unfold outcome, verdict.
  destruct (fetch P rq) as [t|r]; [destruct (logger c), t; reflexivity|].
  destruct (ok r); cbn [negb]; [|destruct (logger c); reflexivity].
  destruct (JSON_parse (body r)) as [v|]; [|destruct (logger c); reflexivity].
  destruct (negb (js_truthy v) || negb (is_object v)); [destruct (logger c); reflexivity|].
  destruct (js_get "code" v) as [code|]; [|destruct (logger c); reflexivity].
  destruct (negb (json_eqb_int code 200)); destruct (logger c); reflexivity.
Qed.

(** What [makeRequest] hands to [fetch]: one request when the URL is
    built, none otherwise. *)
Lemma makeRequest_sent (P : Platform) (c : CMPClient) (method path : string)
    (data : option json) (params : option (list (string * option json))) (w : World) :
  sent (snd (makeRequest P c method path data params w))
  = sent w ++ match URL_new P (target c path) with
              | Some url0 =>
                  [request_for P c method (with_params url0 params) (serialize_body data)]
              | None => []
              end.
Proof.
  unfold makeRequest. destruct (URL_new P (target c path)) as [url0|].
  2:{ unfold throw. cbn [snd]. now rewrite app_nil_r. }
  set (rq := request_for _ _ _ _ _). run_m.
  destruct (fetch P rq) as [t|r]; [destruct (logger c), t; reflexivity|].
  destruct (ok r); cbn [negb]; [|destruct (logger c); reflexivity].
  destruct (JSON_parse (body r)) as [v|]; [|destruct (logger c); reflexivity].
  destruct (negb (js_truthy v) || negb (is_object v)); [destruct (logger c); reflexivity|].
  destruct (js_get "code" v) as [code|]; [|destruct (logger c); reflexivity].
  destruct (negb (json_eqb_int code 200)); destruct (logger c); reflexivity.
Qed.

Lemma makeRequest_invalid_url (P : Platform) (c : CMPClient) (method path : string)
    (data : option json) (params : option (list (string * option json))) (w : World) :
  URL_new P (target c path) = None ->
  makeRequest P c method path data params w = (inl (Throw TypeError "Invalid URL"), w).
Proof. intros U. unfold makeRequest. now rewrite U. Qed.

(** Every error of [makeRequest] is the TypeError of the URL parser or a
    wrapped failure. *)
Lemma makeRequest_errors (P : Platform) (c : CMPClient) (method path : string)
    (data : option json) (params : option (list (string * option json))) (w : World)
    (t : thrown) :
  fst (makeRequest P c method path data params w) = inl t ->
  (URL_new P (target c path) = None /\ t = Throw TypeError "Invalid URL")
  \/ (exists m, t = request_failed m).
Proof.
  intros H. destruct (URL_new P (target c path)) as [url0|] eqn:U.
  - right. rewrite (makeRequest_result P c method path data params w url0 U) in H.
    destruct (outcome P _) as [m|v]; [|discriminate H].
    exists m. now injection H as <-.
  - left. rewrite makeRequest_invalid_url in H by assumption.
    split; [reflexivity|]. now injection H as <-.
Qed.

Lemma js_toString_int (n : Z) : js_toString (JInt n) = Number_toString n.
Proof.
  unfold JInt. cbn [js_toString]. unfold number_text. cbn [Z.leb Z.compare Z.pow].
  now rewrite Z.mul_1_r.
Qed.

Lemma json_eqb_int_false (v : json) (n : Z) : v <> JInt n -> json_eqb_int v n = false.
Proof.
  intros H. destruct v as [| | m e | | |]; try reflexivity.
  cbn [json_eqb_int]. destruct (Z.eqb_spec m n) as [->|]; [|reflexivity].
  destruct (Z.eqb_spec e 0) as [->|]; [|reflexivity].
  now contradiction H.
Qed.

Lemma msg_or_placeholder_cases (fields : list (string * json)) :
  (obj_get "msg" fields = None -> msg_or_placeholder (JObj fields) = "Unknown error")
  /\ (forall s, obj_get "msg" fields = Some (JStr s) -> s <> "" ->
        msg_or_placeholder (JObj fields) = s)
  /\ (obj_get "msg" fields = Some (JStr "") ->
        msg_or_placeholder (JObj fields) = "Unknown error").
Proof.
  unfold msg_or_placeholder. cbn [js_get]. repeat split.
  - now intros ->.
  - intros s -> N. cbn [js_truthy js_toString].
    destruct (String.eqb_spec s "") as [E|_]; [contradiction | reflexivity].
  - now intros ->.
Qed.

(** C3. On an HTTP success whose body is a JSON object: without a [code]
    field the result is the synthesized envelope with code 200, msg OK and
    the body as data; with a [code] other than 200 the call fails with an
    error whose message carries the code and the [msg] field of the body,
    or the placeholder Unknown error when there is no [msg]. *)
Theorem makeRequest_envelope (P : Platform) (c : CMPClient) (method path : string)
    (data : option json) (params : option (list (string * option json))) (w : World)
    (url0 : URL) (r : Response) (fields : list (string * json)) :
  URL_new P (target c path) = Some url0 ->
  fetch P (request_for P c method (with_params url0 params) (serialize_body data)) = inr r ->
  ok r = true ->
  JSON_parse (body r) = Some (JObj fields) ->
  (obj_get "code" fields = None ->
     fst (makeRequest P c method path data params w)
     = inr (JObj [("code", JInt 200); ("msg", JStr "OK"); ("data", JObj fields)]))
  /\ (forall code, obj_get "code" fields = Some code -> code <> JInt 200 ->
        fst (makeRequest P c method path data params w)
        = inl (Throw PlainError
                 ("Request failed: API Error [" ++ js_toString code ++ "]: "
                    ++ msg_or_placeholder (JObj fields))))
  /\ (forall n, js_toString (JInt n) = Number_toString n)
  /\ (obj_get "msg" fields = None -> msg_or_placeholder (JObj fields) = "Unknown error")
  /\ (forall s, obj_get "msg" fields = Some (JStr s) -> s <> "" ->
        msg_or_placeholder (JObj fields) = s).
Proof.
  intros U F K B.
  pose proof (makeRequest_result P c method path data params w url0 U) as R.
  cbv zeta in R. rewrite F in R. unfold outcome in R. rewrite K, B in R.
  unfold verdict in R. cbn [js_truthy is_object negb orb js_get] in R.
  split; [|split; [|split; [|split]]].
  - intros C. now rewrite C in R.
  - intros code C N. rewrite C, (json_eqb_int_false code 200 N) in R. exact R.
  - exact js_toString_int.
  - apply msg_or_placeholder_cases.
  - apply msg_or_placeholder_cases.
Qed.

(** The example of the specification: the body with code 500 and msg boom. *)
Lemma makeRequest_envelope_witness :
  fst (makeRequest (sample_platform (inr (MkResponse 200 "OK" boom_body))) sample_client
         "POST" "/sim/page" None None quiet)
  = inl (Throw PlainError "Request failed: API Error [500]: boom").
Proof.
  exact (proj1 (proj2
    (makeRequest_envelope (sample_platform (inr (MkResponse 200 "OK" boom_body)))
       sample_client "POST" "/sim/page" None None quiet
       (MkURL "https://cmp.example/gateway/openapi/sim/page" [])
       (MkResponse 200 "OK" boom_body)
       [("code", JInt 500); ("msg", JStr "boom")]
       eq_refl eq_refl eq_refl eq_refl))
    (JInt 500) eq_refl ltac:(discriminate)).
Defined.

Example makeRequest_bare_body :
  fst (makeRequest (sample_platform (inr (MkResponse 200 "OK" bare_body))) sample_client
         "POST" "/sim/page" None None quiet)
  = inr (JObj [("code", JInt 200); ("msg", JStr "OK");
               ("data", JObj [("list", JArr []); ("total", JInt 0)])]).
Proof. vm_compute. reflexivity. Qed.

(** ** The error of a failed HTTP status *)

Lemma makeRequest_http_logs (P : Platform) (c : CMPClient) (method path : string)
    (data : option json) (params : option (list (string * option json))) (w : World)
    (url0 : URL) (r : Response) :
  URL_new P (target c path) = Some url0 ->
  fetch P (request_for P c method (with_params url0 params) (serialize_body data)) = inr r ->
  ok r = false ->
  logs (snd (makeRequest P c method path data params w))
  = if logger c then
      logs w
      ++ [ (Debug, [("🔍 Making " ++ method ++ " request to: "
                       ++ URL_toString (with_params url0 params))%string]);
           (Debug, [("📊 Request body: " ++ serialize_body data)%string]);
           (Debug, [("📡 Response status: " ++ Number_toString (status r) ++ " "
                       ++ statusText r)%string]);
           (LError, [("❌ Response body: " ++ body r)%string]);
           (LError, ["Request failed:"; http_error_message r]) ]
    else logs w.
Proof.
  intros U F K. unfold makeRequest. rewrite U. run_m. rewrite F, K. cbn [negb].
  destruct (logger c); cbn [snd logs sent]; [|reflexivity].
  now rewrite <- !app_assoc.
Qed.

(** C8, as amended. On a status outside 200-299 the call fails with an
    error whose message gives the status code and the status text; the body
    is read as text and handed to the logger, when there is one, and to
    nothing else: the error is the same whatever the body. *)
Theorem makeRequest_http_error (P : Platform) (c : CMPClient) (method path : string)
    (data : option json) (params : option (list (string * option json))) (w : World)
    (url0 : URL) (r : Response) :
  URL_new P (target c path) = Some url0 ->
  fetch P (request_for P c method (with_params url0 params) (serialize_body data)) = inr r ->
  ok r = false ->
  fst (makeRequest P c method path data params w)
  = inl (Throw PlainError
           ("Request failed: HTTP Error: " ++ Number_toString (status r) ++ " "
              ++ statusText r))
  /\ (logger c = true ->
        In (LError, [("❌ Response body: " ++ body r)%string])
           (logs (snd (makeRequest P c method path data params w))))
  /\ (logger c = false -> logs (snd (makeRequest P c method path data params w)) = logs w).
Proof.
  intros U F K.
  pose proof (makeRequest_result P c method path data params w url0 U) as R.
  cbv zeta in R. rewrite F in R. unfold outcome in R. rewrite K in R.
  split; [exact R|].
  rewrite (makeRequest_http_logs P c method path data params w url0 r U F K).
  split; intros L; rewrite L; [|reflexivity].
  apply in_or_app. right. cbn [In]. auto.
Qed.

Lemma makeRequest_http_error_witness :
  fst (makeRequest
         (sample_platform (inr (MkResponse 500 "Internal Server Error" "disk full")))
         sample_client "POST" "/sim/page" None None quiet)
  = inl (Throw PlainError "Request failed: HTTP Error: 500 Internal Server Error").
Proof.
  exact (proj1
    (makeRequest_http_error
       (sample_platform (inr (MkResponse 500 "Internal Server Error" "disk full")))
       sample_client "POST" "/sim/page" None None quiet
       (MkURL "https://cmp.example/gateway/openapi/sim/page" [])
       (MkResponse 500 "Internal Server Error" "disk full")
       eq_refl eq_refl eq_refl)).
Defined.

(** C8, as stated, fails: the error of a status 500 whose body is the text
    disk full does not hold that text. *)
Lemma http_error_drops_body :
  ~ (forall (P : Platform) (c : CMPClient) (method path : string) (data : option json)
       (params : option (list (string * option json))) (w : World) (url0 : URL)
       (r : Response),
       URL_new P (target c path) = Some url0 ->
       fetch P (request_for P c method (with_params url0 params) (serialize_body data))
       = inr r ->
       ok r = false ->
       exists t, fst (makeRequest P c method path data params w) = inl t
                 /\ carries t (Number_toString (status r)) = true
                 /\ carries t (statusText r) = true
                 /\ carries t (body r) = true).
Proof.
  intros H.
  destruct (H (sample_platform (inr (MkResponse 500 "Internal Server Error" "disk full")))
              sample_client "POST" "/sim/page" None None quiet
              (MkURL "https://cmp.example/gateway/openapi/sim/page" [])
              (MkResponse 500 "Internal Server Error" "disk full")
              eq_refl eq_refl eq_refl) as (t & E & _ & _ & C).
  rewrite makeRequest_http_error_witness in E. injection E as <-.
  vm_compute in C. discriminate C.
Qed.

(** ** The request URL *)

Lemma ends_with_slash_app (e : string) : ends_with_slash (e ++ "/") = true.
Proof.
  induction e as [|a e IH]; [reflexivity|].
  rewrite sapp_cons. cbn [ends_with_slash].
  destruct (e ++ "/")%string eqn:E; [|exact IH].
  destruct e; discriminate E.
Qed.

Lemma drop_last_app (e : string) : drop_last (e ++ "/") = e.
Proof.
  induction e as [|a e IH]; [reflexivity|].
  rewrite sapp_cons. cbn [drop_last]. destruct (e ++ "/")%string eqn:E.
  - destruct e; discriminate E.
  - now rewrite IH.
Qed.

Lemma strip_trailing_slash_app (e : string) : strip_trailing_slash (e ++ "/") = e.
Proof. unfold strip_trailing_slash. now rewrite ends_with_slash_app, drop_last_app. Qed.

Lemma strip_leading_slash_none (p : string) :
  starts_with "/" p = false -> strip_leading_slash p = p.
Proof.
  destruct p as [|a p]; [reflexivity|].
  unfold starts_with. cbn [strip_prefix strip_leading_slash].
  rewrite (Ascii.eqb_sym "/" a). now destruct (Ascii.eqb a "/").
Qed.

(** X1. The URL a request goes to is the endpoint, one slash and the
    resource path: a slash at the end of the configured endpoint (or two)
    and a slash at the start of the resource path make no difference. *)
Theorem target_slashes (key secret e p : string) :
  ends_with_slash e = false ->
  starts_with "/" p = false ->
  let t := (e ++ "/" ++ p)%string in
  target (CMPClient_new key secret e) p = t
  /\ target (CMPClient_new key secret (e ++ "/")) p = t
  /\ target (CMPClient_new key secret e) (String "/" p) = t
  /\ target (CMPClient_new key secret (e ++ "/")) (String "/" p) = t
  /\ target (CMPClient_new key secret ((e ++ "/") ++ "/")) p = t.
Proof.
  intros E Hp t. unfold target, CMPClient_new. cbn [endpoint].
  rewrite !strip_trailing_slash_app.
  assert (S0 : strip_trailing_slash e = e) by (unfold strip_trailing_slash; now rewrite E).
  rewrite !S0, (strip_leading_slash_none p Hp).
  cbn [strip_leading_slash Ascii.eqb Bool.eqb]. repeat split.
Qed.

Lemma target_slashes_witness :
  target (CMPClient_new "key" "secret" "https://cmp.example/openapi/") "/sim/page"
  = "https://cmp.example/openapi/sim/page".
Proof.
  exact (proj1 (proj2 (proj2 (proj2
    (target_slashes "key" "secret" "https://cmp.example/openapi" "sim/page"
       eq_refl eq_refl))))).
Defined.

(** ** Request headers *)

Lemma floor_seconds (ms : Z) : 1000 * (ms / 1000) <= ms < 1000 * (ms / 1000) + 1000.
Proof.
  pose proof (Z.div_mod ms 1000 ltac:(lia)).
  pose proof (Z.mod_pos_bound ms 1000 ltac:(lia)). lia.
Qed.

(** X2. The headers of a request: the content type, the application key,
    the timestamp (the whole seconds of the clock, as a decimal numeral) and
    the signature, which is the HMAC-SHA256 of exactly the key, the
    timestamp as the header gives it, and the body: whoever holds the secret
    can check the signature from the headers and the body alone. *)
Theorem getHeaders_verifiable (P : Platform) (c : CMPClient) (requestBody : string) :
  exists ts sig,
    getHeaders P c requestBody
    = [ ("Content-Type", "application/json"); ("APP-Key", appKey c);
        ("Signature", sig); ("Timestamp", ts) ]
    /\ (exists seconds, decimal_value ts = Some seconds
          /\ 1000 * seconds <= Date_now P < 1000 * seconds + 1000)
    /\ sig = hmac_sha256_hex (appSecret c) (appKey c ++ ts ++ requestBody).
Proof.
  exists (Number_toString (Date_now P / 1000)).
  exists (generateSignature c (Date_now P / 1000) requestBody).
  split; [reflexivity|]. split.
  { exists (Date_now P / 1000). split; [apply Number_toString_decimal | apply floor_seconds]. }
  reflexivity.
Qed.


Lemma digits_of_cons (n : Z) : 0 <= n -> exists a r, digits_of n = String a r.
Proof.
  intros H. destruct (digits_of_shape n H) as (d & r & E & _). now exists (digit_char d), r.
Qed.

Lemma Number_toString_cons (n : Z) : exists a r, Number_toString n = String a r.
Proof.
  unfold Number_toString. destruct (Z.ltb_spec n 0); [now eexists; eexists|].
  now apply digits_of_cons.
Qed.

Lemma number_text_cons (m e : Z) : exists a r, number_text m e = String a r.
Proof.
  unfold number_text. destruct (Z.leb_spec 0 e) as [L|L]; [apply Number_toString_cons|].
  destruct (digits_of_cons (Z.abs m / 10 ^ (- e))) as (a & r & E).
  { apply Z.div_pos; [lia | apply Z.pow_pos_nonneg; lia]. }
  rewrite E. destruct (m <? 0); rewrite ?sapp_cons; now eexists; eexists.
Qed.

Lemma JSON_stringify_cons (v : json) : exists a r, JSON_stringify v = String a r.
Proof.
  destruct v as [|[|]|m e|s|items|fields]; unfold JSON_stringify;
    try (now eexists; eexists).
  apply number_text_cons.
Qed.

(** ** Query parameters *)

Lemma append_params_kept (ps : list (string * option json)) : forall u,
  append_params u ps = MkURL (location u) (searchParams u ++ kept_params ps).
Proof.
  induction ps as [|[k [v|]] ps IH]; intros [loc sp]; cbn [append_params kept_params flat_map snd fst].
  - now rewrite app_nil_r.
  - destruct v; try (rewrite IH; unfold searchParams_append; cbn [location searchParams];
      now rewrite <- app_assoc).
    apply IH.
  - apply IH.
Qed.

(** X4. [get] sends a GET request without a body, signed over the empty
    body.  Its query string holds the parameters that are neither null nor
    undefined, each as text and in the order given, after those the URL
    already had: a parameter that is false, 0 or the empty text is sent. *)
Theorem get_query_parameters (P : Platform) (c : CMPClient) (path : string)
    (params : list (string * option json)) (w : World) (url0 : URL) :
  URL_new P (target c path) = Some url0 ->
  sent (snd (get P c path (Some params) w))
  = sent w
    ++ [ MkFetch
           (URL_toString (MkURL (location url0) (searchParams url0 ++ kept_params params)))
           "GET" (getHeaders P c "") None ]
  /\ kept_params [("a", Some (JBool false)); ("b", Some JNull); ("c", None);
                  ("d", Some (JInt 0)); ("e", Some (JStr ""))]
     = [("a", "false"); ("d", "0"); ("e", "")].
Proof.
  intros U. split; [|reflexivity].
  unfold get. rewrite makeRequest_sent, U. unfold with_params.
  now rewrite append_params_kept.
Qed.

Lemma get_query_parameters_witness :
  sent (snd (get (sample_platform (inr (MkResponse 200 "OK" bare_body))) sample_client
               "/sim/list" (Some [("pageNum", Some (JInt 2)); ("label", None)]) quiet))
  = [ MkFetch "https://cmp.example/gateway/openapi/sim/list?pageNum=2" "GET"
        (getHeaders (sample_platform (inr (MkResponse 200 "OK" bare_body))) sample_client "")
        None ].
Proof.
  exact (proj1 (get_query_parameters
    (sample_platform (inr (MkResponse 200 "OK" bare_body))) sample_client "/sim/list"
    [("pageNum", Some (JInt 2)); ("label", None)] quiet
    (MkURL "https://cmp.example/gateway/openapi/sim/list" []) eq_refl)).
Defined.

(** ** What a response body leads to *)

(** X5. On an HTTP success the parsed body decides the result.  An array
    counts as an object without a code: it is wrapped as a success with
    code 200.  Null, a boolean, a number or a text is refused as an invalid
    response format, with its JSON text in the message.  An object whose
    code is the number 200 is returned as it is, whatever else it holds. *)
Theorem makeRequest_body_kinds (P : Platform) (c : CMPClient) (method path : string)
    (data : option json) (params : option (list (string * option json))) (w : World)
    (url0 : URL) (r : Response) (v : json) :
  URL_new P (target c path) = Some url0 ->
  fetch P (request_for P c method (with_params url0 params) (serialize_body data)) = inr r ->
  ok r = true ->
  JSON_parse (body r) = Some v ->
  (forall items, v = JArr items ->
     fst (makeRequest P c method path data params w)
     = inr (JObj [("code", JInt 200); ("msg", JStr "OK"); ("data", JArr items)]))
  /\ (is_object v = false ->
        fst (makeRequest P c method path data params w)
        = inl (Throw PlainError
                 ("Request failed: API Error: Invalid response format - "
                    ++ JSON_stringify v)))
  /\ (forall fields, v = JObj fields -> obj_get "code" fields = Some (JInt 200) ->
        fst (makeRequest P c method path data params w) = inr v).
Proof.
  intros U F K B.
  pose proof (makeRequest_result P c method path data params w url0 U) as R.
  cbv zeta in R. rewrite F in R. unfold outcome in R. rewrite K, B in R.
  unfold verdict in R. split; [|split].
  - intros items ->. exact R.
  - intros O. rewrite O, orb_true_r in R. exact R.
  - intros fields -> C. cbn [js_truthy is_object negb orb js_get] in R.
    rewrite C in R. exact R.
Qed.

Lemma makeRequest_body_kinds_witness :
  fst (makeRequest (sample_platform (inr (MkResponse 200 "OK" "[]"))) sample_client
         "POST" "/sim/page" None None quiet)
  = inr (JObj [("code", JInt 200); ("msg", JStr "OK"); ("data", JArr [])]).
Proof.
  exact (proj1
    (makeRequest_body_kinds (sample_platform (inr (MkResponse 200 "OK" "[]")))
       sample_client "POST" "/sim/page" None None quiet
       (MkURL "https://cmp.example/gateway/openapi/sim/page" [])
       (MkResponse 200 "OK" "[]") (JArr [])
       eq_refl eq_refl eq_refl eq_refl) [] eq_refl).
Defined.



(** X7. An endpoint the URL parser refuses: [makeRequest] fails with the
    parser's TypeError as it is, before any log line and any request; the
    packaged JavaScript client, which builds the URL inside its try block,
    wraps the same failure as Request failed: Invalid URL.  Neither sends a
    request. *)
Theorem makeRequest_refused_url (P : Platform) (c : CMPClient) (method path : string)
    (data : option json) (params : option (list (string * option json))) (w : World) :
  URL_new P (target c path) = None ->
  makeRequest P c method path data params w = (inl (Throw TypeError "Invalid URL"), w)
  /\ fst (Packaged.makeRequest P c method path data params w)
     = inl (Throw PlainError "Request failed: Invalid URL")
  /\ sent (snd (Packaged.makeRequest P c method path data params w)) = sent w.
Proof.
  intros U. split; [now apply makeRequest_invalid_url|].
  unfold Packaged.makeRequest, Packaged.attempt, Packaged.rewrap, Packaged.log.
  rewrite U. unfold try_catch, throw, bind, new_Error, throw.
  destruct (logger c); split; reflexivity.
Qed.

Lemma makeRequest_refused_url_witness :
  makeRequest (sample_platform (inr (MkResponse 200 "OK" bare_body))) schemeless_client
    "POST" "/sim/page" None None quiet
  = (inl (Throw TypeError "Invalid URL"), quiet).
Proof.
  exact (proj1
    (makeRequest_refused_url (sample_platform (inr (MkResponse 200 "OK" bare_body)))
       schemeless_client "POST" "/sim/page" None None quiet eq_refl)).
Defined.

(** ** The catch-all of makeRequest *)




(** ** Request bodies of the query operations *)

Lemma obj_set_fresh (k : string) (v : json) (d : list (string * json)) :
  ~ In k (keys d) -> obj_set k v d = d ++ [(k, v)].
Proof.
  induction d as [|[k' v'] d IH]; intros N; [reflexivity|].
  cbn [obj_set]. destruct (String.eqb_spec k k') as [->|_].
  - exfalso. apply N. now left.
  - cbn [app]. rewrite IH; [reflexivity|]. intros C. apply N. now right.
Qed.

Lemma set_truthy_fresh (k : string) (x : option string) (d : list (string * json)) :
  ~ In k (keys d) -> set_truthy k x d = d ++ text_field k x.
Proof.
  intros N. unfold set_truthy, text_field, is_empty. destruct x as [s|].
  - destruct (String.eqb s ""); [now rewrite app_nil_r | now apply obj_set_fresh].
  - now rewrite app_nil_r.
Qed.

Lemma set_defined_fresh (k : string) (x : option Z) (d : list (string * json)) :
  ~ In k (keys d) -> set_defined k x d = d ++ number_field k x.
Proof.
  intros N. unfold set_defined, number_field. destruct x as [n|].
  - now apply obj_set_fresh.
  - now rewrite app_nil_r.
Qed.

Lemma keys_text_field (k k' : string) (x : option string) :
  In k' (keys (text_field k x)) -> k' = k.
Proof.
  unfold text_field. destruct x as [s|]; [destruct (is_empty s)|]; cbn; intuition.
Qed.

Lemma keys_number_field (k k' : string) (x : option Z) :
  In k' (keys (number_field k x)) -> k' = k.
Proof. unfold number_field. destruct x as [n|]; cbn; intuition. Qed.

Ltac fresh_key :=
  unfold keys; rewrite ?map_app; intros In_k;
  repeat (apply in_app_or in In_k; destruct In_k as [In_k|In_k]);
  first [ apply keys_text_field in In_k; discriminate In_k
        | apply keys_number_field in In_k; discriminate In_k
        | cbn in In_k; intuition discriminate ].

Lemma post_object_sent (P : Platform) (c : CMPClient) (path : string)
    (fields : list (string * json)) (w : World) (url0 : URL) :
  URL_new P (target c path) = Some url0 ->
  sent (snd (post P c path (Some (JObj fields)) w)) = sent w ++ [posted P c url0 (JObj fields)].
Proof.
  intros U. unfold post. rewrite makeRequest_sent, U.
  unfold with_params, serialize_body, request_for, posted. cbn [js_truthy].
  destruct (JSON_stringify_cons (JObj fields)) as (a & r & E). now rewrite E.
Qed.

Lemma simListData_fields (o : SIMListQuery) :
  simListData o
  = [ ("pageNum", JInt (default 1 (sl_pageNum o)));
      ("pageSize", JInt (Z.min (default 10 (sl_pageSize o)) 1000)) ]
    ++ text_field "enterpriseDataPlan" (sl_enterpriseDataPlan o)
    ++ text_field "expirationTimeStart" (sl_expirationTimeStart o)
    ++ text_field "expirationTimeEnd" (sl_expirationTimeEnd o)
    ++ text_field "iccidStart" (sl_iccidStart o)
    ++ text_field "iccidEnd" (sl_iccidEnd o)
    ++ text_field "label" (sl_label o)
    ++ number_field "simState" (sl_simState o)
    ++ text_field "simType" (sl_simType o).
Proof.
  unfold simListData. cbv zeta.
  rewrite (set_truthy_fresh "enterpriseDataPlan") by fresh_key.
  rewrite (set_truthy_fresh "expirationTimeStart") by fresh_key.
  rewrite (set_truthy_fresh "expirationTimeEnd") by fresh_key.
  rewrite (set_truthy_fresh "iccidStart") by fresh_key.
  rewrite (set_truthy_fresh "iccidEnd") by fresh_key.
  rewrite (set_truthy_fresh "label") by fresh_key.
  rewrite (set_defined_fresh "simState") by fresh_key.
  rewrite (set_truthy_fresh "simType") by fresh_key.
  now rewrite <- !app_assoc.
Qed.

(** X8. [querySimList] posts one request to /sim/page whose body holds, in
    this order: pageNum (1 when not given), pageSize (10 when not given, and
    never more than 1000), then each text filter that is given and not
    empty, with simState, whenever it is given (0 included), before
    simType.  Nothing else is sent, and a page size below 1 is passed on. *)
Theorem querySimList_request (P : Platform) (c : CMPClient) (o : SIMListQuery) (w : World)
    (url0 : URL) :
  URL_new P (target c "/sim/page") = Some url0 ->
  sent (snd (querySimList P c o w))
  = sent w
    ++ [ posted P c url0
           (JObj ([ ("pageNum", JInt (default 1 (sl_pageNum o)));
                    ("pageSize", JInt (Z.min (default 10 (sl_pageSize o)) 1000)) ]
                  ++ text_field "enterpriseDataPlan" (sl_enterpriseDataPlan o)
                  ++ text_field "expirationTimeStart" (sl_expirationTimeStart o)
                  ++ text_field "expirationTimeEnd" (sl_expirationTimeEnd o)
                  ++ text_field "iccidStart" (sl_iccidStart o)
                  ++ text_field "iccidEnd" (sl_iccidEnd o)
                  ++ text_field "label" (sl_label o)
                  ++ number_field "simState" (sl_simState o)
                  ++ text_field "simType" (sl_simType o))) ]
  /\ simListData (MkSIMListQuery None None None None None None None None None None)
     = [("pageNum", JInt 1); ("pageSize", JInt 10)]
  /\ simListData (MkSIMListQuery (Some 3) (Some 5000) (Some "") None None None None
                    (Some "lab") (Some 0) None)
     = [("pageNum", JInt 3); ("pageSize", JInt 1000); ("label", JStr "lab");
        ("simState", JInt 0)]
  /\ obj_get "pageSize"
       (simListData (MkSIMListQuery None (Some (-5)) None None None None None None None None))
     = Some (JInt (-5)).
Proof.
  intros U. split; [|repeat split].
  unfold querySimList. rewrite (post_object_sent P c "/sim/page" _ w url0 U).
  now rewrite simListData_fields.
Qed.

Lemma querySimList_request_witness :
  sent (snd (querySimList (sample_platform (inr (MkResponse 200 "OK" bare_body)))
               sample_client
               (MkSIMListQuery None None None None None None None None (Some 6) None) quiet))
  = [ posted (sample_platform (inr (MkResponse 200 "OK" bare_body))) sample_client
        (MkURL "https://cmp.example/gateway/openapi/sim/page" [])
        (JObj [("pageNum", JInt 1); ("pageSize", JInt 10); ("simState", JInt 6)]) ].
Proof.
  exact (proj1 (querySimList_request
    (sample_platform (inr (MkResponse 200 "OK" bare_body))) sample_client
    (MkSIMListQuery None None None None None None None None (Some 6) None) quiet
    (MkURL "https://cmp.example/gateway/openapi/sim/page" []) eq_refl)).
Defined.

(** ** Validation before the network *)

(** White space at the start: what is left is empty exactly when the text
    was white space only. *)
Lemma trimStart_all_ws (n : nat) : forall s,
  (String.length s <= n)%nat ->
  all_ws (trimStart s) = all_ws s /\ (all_ws s = true -> trimStart s = "").
Proof.
  induction n as [|n IH]; intros s L.
  - destruct s; [now split | cbn in L; lia].
  - destruct s as [|a [|b [|x r]]]; cbn [String.length] in L.
    + now split.
    + cbn [trimStart all_ws]. destruct (ws1 a) eqn:W1; [now split | split; [|discriminate]].
      cbn [all_ws]. now rewrite W1.
    + cbn [trimStart all_ws]. destruct (ws1 a) eqn:W1.
      { exact (IH (String b "") ltac:(cbn; lia)). }
      destruct (ws2 a b) eqn:W2; [now split | split; [|discriminate]].
      cbn [all_ws]. now rewrite W1, W2.
    + cbn [trimStart all_ws]. destruct (ws1 a) eqn:W1.
      { exact (IH (String b (String x r)) ltac:(cbn; lia)). }
      destruct (ws2 a b) eqn:W2.
      { exact (IH (String x r) ltac:(cbn; lia)). }
      destruct (ws3 a b x) eqn:W3; [exact (IH r ltac:(lia)) | split; [|discriminate]].
      cbn [all_ws]. now rewrite W1, W2, W3.
Qed.

Lemma trimEnd_empty (s : string) : trimEnd s = "" <-> all_ws s = true.
Proof.
  destruct s as [|a r]; [now split|].
  cbn [trimEnd]. destruct (all_ws (String a r)); split; auto; discriminate.
Qed.

Lemma trim_empty (s : string) : trim s = "" <-> all_ws s = true.
Proof.
  unfold trim. rewrite trimEnd_empty.
  now rewrite (proj1 (trimStart_all_ws (String.length s) s (le_n _))).
Qed.

(** The test [!s || !s.trim()]. *)
Lemma blank_all_ws (s : string) : is_empty s || is_empty (trim s) = all_ws s.
Proof.
  unfold is_empty. destruct (String.eqb_spec s "") as [->|_]; [reflexivity|].
  cbn [orb]. destruct (String.eqb_spec (trim s) "") as [E|E]; symmetry.
  - now apply trim_empty.
  - destruct (all_ws s) eqn:A; [|reflexivity]. exfalso. apply E. now apply trim_empty.
Qed.

Lemma trimStart_eq (a : ascii) (r1 : string) :
  trimStart (String a r1)
  = if ws1 a then trimStart r1
    else match r1 with
         | String b r2 =>
             if ws2 a b then trimStart r2
             else match r2 with
                  | String x r3 => if ws3 a b x then trimStart r3 else String a r1
                  | EmptyString => String a r1
                  end
         | EmptyString => String a r1
         end.
Proof. reflexivity. Qed.

Lemma trimStart_length (n : nat) : forall s,
  (String.length s <= n)%nat -> (String.length (trimStart s) <= String.length s)%nat.
Proof.
  induction n as [|n IH]; intros s L.
  - destruct s; [reflexivity | cbn in L; lia].
  - destruct s as [|a r1]; [reflexivity|]. cbn [String.length] in L.
    rewrite trimStart_eq.
    destruct (ws1 a).
    { pose proof (IH r1 ltac:(lia)). cbn [String.length]. lia. }
    destruct r1 as [|b r2]; [lia|]. cbn [String.length] in L.
    destruct (ws2 a b).
    { pose proof (IH r2 ltac:(lia)). cbn [String.length]. lia. }
    destruct r2 as [|x r3]; [lia|]. cbn [String.length] in L.
    destruct (ws3 a b x); [|lia].
    pose proof (IH r3 ltac:(lia)). cbn [String.length]. lia.
Qed.

(** A text that [trimStart] leaves alone does not begin with white space. *)
Lemma trimStart_fixed (a : ascii) (r : string) :
  trimStart (String a r) = String a r ->
  ws1 a = false
  /\ match r with
     | String b r2 =>
         ws2 a b = false
         /\ match r2 with String x _ => ws3 a b x = false | EmptyString => True end
     | EmptyString => True
     end.
Proof.
  intros F.
  assert (Short : forall t, (String.length t < String.length (String a r))%nat ->
                            trimStart t <> String a r).
  { intros t L E. pose proof (trimStart_length (String.length t) t (le_n _)) as H.
    rewrite E in H. lia. }
  destruct r as [|b [|x r3]]; cbn [trimStart] in F.
  - destruct (ws1 a); [discriminate F | now split].
  - destruct (ws1 a) eqn:W1; [exfalso; apply (Short (String b "")); [cbn; lia | exact F]|].
    destruct (ws2 a b); [discriminate F | now repeat split].
  - destruct (ws1 a) eqn:W1.
    { exfalso. apply (Short (String b (String x r3))); [cbn; lia | exact F]. }
    destruct (ws2 a b) eqn:W2.
    { exfalso. apply (Short (String x r3)); [cbn; lia | exact F]. }
    destruct (ws3 a b x) eqn:W3; [|now repeat split].
    exfalso. apply (Short r3); [cbn; lia | exact F].
Qed.

Lemma trimStart_idem (n : nat) : forall s,
  (String.length s <= n)%nat -> trimStart (trimStart s) = trimStart s.
Proof.
  induction n as [|n IH]; intros s L.
  - destruct s; [reflexivity | cbn in L; lia].
  - destruct s as [|a [|b [|x r]]]; cbn [String.length] in L; [reflexivity|..].
    + cbn [trimStart]. destruct (ws1 a) eqn:W1; [reflexivity|].
      cbn [trimStart]. now rewrite W1.
    + cbn [trimStart]. destruct (ws1 a) eqn:W1.
      { exact (IH (String b "") ltac:(cbn; lia)). }
      destruct (ws2 a b) eqn:W2; [reflexivity|]. cbn [trimStart]. now rewrite W1, W2.
    + cbn [trimStart]. destruct (ws1 a) eqn:W1.
      { exact (IH (String b (String x r)) ltac:(cbn; lia)). }
      destruct (ws2 a b) eqn:W2.
      { exact (IH (String x r) ltac:(cbn; lia)). }
      destruct (ws3 a b x) eqn:W3; [exact (IH r ltac:(lia))|].
      cbn [trimStart]. now rewrite W1, W2, W3.
Qed.

Lemma trimEnd_cons (a : ascii) (r : string) :
  trimEnd (String a r) = if all_ws (String a r) then "" else String a (trimEnd r).
Proof. reflexivity. Qed.

(** Cutting white space off the end does not uncover white space at the
    start. *)
Lemma trimStart_trimEnd (t : string) :
  trimStart t = t -> trimStart (trimEnd t) = trimEnd t.
Proof.
  destruct t as [|a r]; [reflexivity|]. intros F.
  destruct (trimStart_fixed a r F) as [W1 R].
  rewrite trimEnd_cons. destruct (all_ws (String a r)); [reflexivity|].
  destruct r as [|b r2]; [cbn [trimEnd trimStart]; now rewrite W1|].
  destruct R as [W2 R]. rewrite trimEnd_cons.
  destruct (all_ws (String b r2)); [cbn [trimStart]; now rewrite W1|].
  destruct r2 as [|x r3]; [cbn [trimEnd trimStart]; now rewrite W1, W2|].
  rewrite trimEnd_cons.
  destruct (all_ws (String x r3)); cbn [trimStart]; now rewrite W1, W2, ?R.
Qed.

Lemma all_ws_eq (a : ascii) (r1 : string) :
  all_ws (String a r1)
  = if ws1 a then all_ws r1
    else match r1 with
         | String b r2 =>
             if ws2 a b then all_ws r2
             else match r2 with
                  | String x r3 => ws3 a b x && all_ws r3
                  | EmptyString => false
                  end
         | EmptyString => false
         end.
Proof. reflexivity. Qed.

(** What [trimEnd] keeps is white space only when it keeps nothing. *)
Lemma all_ws_trimEnd (n : nat) : forall s,
  (String.length s <= n)%nat -> all_ws (trimEnd s) = true -> all_ws s = true.
Proof.
  induction n as [|n IH]; intros s L H.
  - destruct s; [reflexivity | cbn in L; lia].
  - destruct s as [|a r]; [reflexivity|]. cbn [String.length] in L.
    rewrite trimEnd_cons in H. destruct (all_ws (String a r)) eqn:A; [reflexivity|].
    exfalso. rewrite all_ws_eq in H, A.
    destruct (ws1 a).
    { rewrite (IH r ltac:(lia) H) in A. discriminate A. }
    destruct r as [|b r2]; [cbn [trimEnd] in H; discriminate H|]. cbn [String.length] in L.
    rewrite trimEnd_cons in H. destruct (all_ws (String b r2)); [discriminate H|].
    destruct (ws2 a b).
    { rewrite (IH r2 ltac:(lia) H) in A. discriminate A. }
    destruct r2 as [|x r3]; [cbn [trimEnd] in H; discriminate H|].
    cbn [String.length] in L.
    rewrite trimEnd_cons in H. destruct (all_ws (String x r3)); [discriminate H|].
    apply andb_true_iff in H. destruct H as [W3 H].
    rewrite W3, (IH r3 ltac:(lia) H) in A. discriminate A.
Qed.

Lemma trimEnd_idem (s : string) : trimEnd (trimEnd s) = trimEnd s.
Proof.
  induction s as [|a r IH]; [reflexivity|].
  rewrite trimEnd_cons. destruct (all_ws (String a r)) eqn:A; [reflexivity|].
  rewrite trimEnd_cons, IH.
  destruct (all_ws (String a (trimEnd r))) eqn:B; [|reflexivity].
  pose proof (all_ws_trimEnd (String.length (String a r)) (String a r) (le_n _)) as Q.
  rewrite trimEnd_cons, A in Q. discriminate (Q B).
Qed.

(** The trimmed text has no white space left at either end. *)
Lemma trim_trimmed (s : string) :
  trimStart (trim s) = trim s /\ trimEnd (trim s) = trim s.
Proof.
  unfold trim. split; [|apply trimEnd_idem].
  apply trimStart_trimEnd. apply (trimStart_idem (String.length s)). apply le_n.
Qed.

(** X9. [querySimDetail] refuses an ICCID that is empty or white space
    only, with the error ICCID cannot be empty, before any log line and any
    request.  Any other ICCID is posted to /sim/detail trimmed: the text
    sent is not empty and has no white space left at either end. *)
Theorem querySimDetail_validation (P : Platform) (c : CMPClient) (iccid : string)
    (w : World) :
  (all_ws iccid = true ->
     querySimDetail P c iccid w = (inl (Throw PlainError "ICCID cannot be empty"), w))
  /\ (all_ws iccid = false ->
        trim iccid <> ""
        /\ trimStart (trim iccid) = trim iccid
        /\ trimEnd (trim iccid) = trim iccid
        /\ querySimDetail P c iccid w
           = post P c "/sim/detail" (Some (JObj [("iccid", JStr (trim iccid))])) w
        /\ forall url0, URL_new P (target c "/sim/detail") = Some url0 ->
             sent (snd (querySimDetail P c iccid w))
             = sent w ++ [posted P c url0 (JObj [("iccid", JStr (trim iccid))])])
  /\ all_ws "" = true
  /\ all_ws "  " = true
  /\ trim " 8986 " = "8986".
Proof.
  unfold querySimDetail. rewrite blank_all_ws. split; [|split; [|repeat split]].
  - now intros ->.
  - intros A. rewrite A.
    split; [intros E; apply trim_empty in E; rewrite E in A; discriminate A|].
    split; [apply trim_trimmed|]. split; [apply trim_trimmed|]. split; [reflexivity|].
    intros url0 U. now apply post_object_sent.
Qed.

(** X10. [querySimMonthData] checks in this order: the ICCID (empty or
    white space only: ICCID cannot be empty), the month (empty or white
    space only: Month cannot be empty), then the trimmed month, which must
    be six decimal digits.  A refusal happens before any log line and any
    request.  What passes is posted to /sim/queryMonthData with both texts
    trimmed.  The month is not checked against the calendar. *)
Theorem querySimMonthData_validation (P : Platform) (c : CMPClient) (o : SIMUsageQuery)
    (w : World) :
  querySimMonthData P c o w
  = (if all_ws (su_iccid o) then (inl (Throw PlainError "ICCID cannot be empty"), w)
     else if all_ws (su_month o) then (inl (Throw PlainError "Month cannot be empty"), w)
     else if six_digits (trim (su_month o)) then
       post P c "/sim/queryMonthData"
         (Some (JObj [ ("iccid", JStr (trim (su_iccid o)));
                       ("month", JStr (trim (su_month o))) ])) w
     else (inl (Throw PlainError "Month format must be yyyyMM (e.g., 202301)"), w))
  /\ (forall url0,
        URL_new P (target c "/sim/queryMonthData") = Some url0 ->
        all_ws (su_iccid o) = false -> six_digits (trim (su_month o)) = true ->
        sent (snd (querySimMonthData P c o w))
        = sent w
          ++ [ posted P c url0
                 (JObj [ ("iccid", JStr (trim (su_iccid o)));
                         ("month", JStr (trim (su_month o))) ]) ])
  /\ (six_digits (trim (su_month o)) = true ->
        String.length (trim (su_month o)) = 6%nat
        /\ string_forallb is_digit (trim (su_month o)) = true
        /\ all_ws (su_month o) = false)
  /\ six_digits (trim " 202301 ") = true
  /\ six_digits "202313" = true
  /\ six_digits "2023-01" = false
  /\ six_digits "20231" = false.
Proof.
  assert (D : six_digits (trim (su_month o)) = true -> all_ws (su_month o) = false).
  { intros S. destruct (all_ws (su_month o)) eqn:A; [|reflexivity].
    apply trim_empty in A. rewrite A in S. discriminate S. }
  unfold querySimMonthData. cbv zeta. rewrite !blank_all_ws.
  split; [|split; [|split; [|repeat split]]].
  - destruct (all_ws (su_iccid o)); [reflexivity|].
    destruct (all_ws (su_month o)); [reflexivity|].
    now destruct (six_digits (trim (su_month o))).
  - intros url0 U A S. rewrite A, (D S), S. cbn [negb]. now apply post_object_sent.
  - intros S. unfold six_digits in S. apply andb_true_iff in S. destruct S as [S1 S2].
    split; [now apply Nat.eqb_eq|]. split; [assumption|].
    apply D. unfold six_digits. now rewrite S1, S2.
Qed.

Lemma euiccPageData_fields (o : EuiccPageQuery) :
  euiccPageData o
  = [ ("pageNum", JInt (default 1 (eu_pageNum o)));
      ("pageSize", JInt (Z.min (default 10 (eu_pageSize o)) 1000)) ]
    ++ number_field "childEnterpriseId" (eu_childEnterpriseId o)
    ++ text_field "iccid" (option_map trim (eu_iccid o))
    ++ number_field "profileStatus" (eu_profileStatus o).
Proof.
  unfold euiccPageData. cbv zeta.
  rewrite (set_defined_fresh "childEnterpriseId") by fresh_key.
  assert (I : match eu_iccid o with
              | Some iccid =>
                  if negb (is_empty iccid) && negb (is_empty (trim iccid))
                  then obj_set "iccid" (JStr (trim iccid))
                         ([ ("pageNum", JInt (default 1 (eu_pageNum o)));
                            ("pageSize", JInt (Z.min (default 10 (eu_pageSize o)) 1000)) ]
                          ++ number_field "childEnterpriseId" (eu_childEnterpriseId o))
                  else [ ("pageNum", JInt (default 1 (eu_pageNum o)));
                         ("pageSize", JInt (Z.min (default 10 (eu_pageSize o)) 1000)) ]
                       ++ number_field "childEnterpriseId" (eu_childEnterpriseId o)
              | None =>
                  [ ("pageNum", JInt (default 1 (eu_pageNum o)));
                    ("pageSize", JInt (Z.min (default 10 (eu_pageSize o)) 1000)) ]
                  ++ number_field "childEnterpriseId" (eu_childEnterpriseId o)
              end
              = ([ ("pageNum", JInt (default 1 (eu_pageNum o)));
                   ("pageSize", JInt (Z.min (default 10 (eu_pageSize o)) 1000)) ]
                 ++ number_field "childEnterpriseId" (eu_childEnterpriseId o))
                ++ text_field "iccid" (option_map trim (eu_iccid o))).
  { destruct (eu_iccid o) as [iccid|]; cbn [option_map text_field]; [|now rewrite app_nil_r].
    rewrite <- negb_orb, blank_all_ws.
    destruct (all_ws iccid) eqn:A; cbn [negb].
    - apply trim_empty in A. rewrite A. cbn [is_empty String.eqb]. now rewrite app_nil_r.
    - destruct (is_empty (trim iccid)) eqn:E.
      + unfold is_empty in E. apply String.eqb_eq in E. apply trim_empty in E.
        rewrite E in A. discriminate A.
      + apply obj_set_fresh. fresh_key. }
  rewrite I. rewrite (set_defined_fresh "profileStatus") by fresh_key.
  now rewrite <- !app_assoc.
Qed.

(** The only error [queryEuiccPage] raises by itself is the one about the
    profile status. *)
Lemma queryEuiccPage_refusal (P : Platform) (c : CMPClient) (o : EuiccPageQuery)
    (w : World) :
  fst (queryEuiccPage P c o w) = inl (Throw PlainError profile_status_message)
  <-> exists s, eu_profileStatus o = Some s /\ (s < 1 \/ 9 < s).
Proof.
  unfold queryEuiccPage. cbv zeta. set (fields := euiccPageData o).
  destruct (eu_profileStatus o) as [s|].
  - destruct ((s <? 1) || (9 <? s)) eqn:B.
    + split; [intros _|reflexivity]. exists s. split; [reflexivity|].
      apply orb_true_iff in B. destruct B as [B|B]; apply Z.ltb_lt in B; lia.
    + split.
      { intros H. unfold post in H.
        destruct (makeRequest_errors P c "POST" "/esim/euicc/page" (Some (JObj fields))
                    None w _ H) as [[_ C]|[m C]]; discriminate C. }
      { intros (s' & E & R). injection E as <-.
        apply orb_false_iff in B. destruct B as [B1 B2].
        apply Z.ltb_ge in B1, B2. lia. }
  - split.
    + intros H. unfold post in H.
      destruct (makeRequest_errors P c "POST" "/esim/euicc/page" (Some (JObj fields))
                  None w _ H) as [[_ C]|[m C]]; discriminate C.
    + intros (s' & E & _). discriminate E.
Qed.

(** X11. [queryEuiccPage] refuses a profile status below 1 or above 9
    before any log line and any request; a query without a profile status,
    or with one from 1 to 9, is posted to /esim/euicc/page.  The body holds
    pageNum (1 when not given), pageSize (10 when not given, at most 1000),
    childEnterpriseId when given (0 included), the trimmed iccid unless it
    is empty or white space only, and profileStatus when given. *)
Theorem queryEuiccPage_validation (P : Platform) (c : CMPClient) (o : EuiccPageQuery)
    (w : World) :
  let fields :=
    [ ("pageNum", JInt (default 1 (eu_pageNum o)));
      ("pageSize", JInt (Z.min (default 10 (eu_pageSize o)) 1000)) ]
    ++ number_field "childEnterpriseId" (eu_childEnterpriseId o)
    ++ text_field "iccid" (option_map trim (eu_iccid o))
    ++ number_field "profileStatus" (eu_profileStatus o) in
  (forall s, eu_profileStatus o = Some s -> s < 1 \/ 9 < s ->
     queryEuiccPage P c o w = (inl (Throw PlainError profile_status_message), w))
  /\ ((forall s, eu_profileStatus o = Some s -> 1 <= s <= 9) ->
        queryEuiccPage P c o w = post P c "/esim/euicc/page" (Some (JObj fields)) w
        /\ forall url0, URL_new P (target c "/esim/euicc/page") = Some url0 ->
             sent (snd (queryEuiccPage P c o w))
             = sent w ++ [posted P c url0 (JObj fields)])
  /\ (fst (queryEuiccPage P c o w) = inl (Throw PlainError profile_status_message)
      <-> exists s, eu_profileStatus o = Some s /\ (s < 1 \/ 9 < s)).
Proof.
  intros fields. split; [|split; [|apply queryEuiccPage_refusal]].
  all: unfold queryEuiccPage; cbv zeta; rewrite euiccPageData_fields; fold fields.
  - intros s -> R.
    replace ((s <? 1) || (9 <? s)) with true; [reflexivity|].
    symmetry. apply orb_true_iff. destruct R; [left; apply Z.ltb_lt | right; apply Z.ltb_lt]; lia.
  - intros R.
    assert (E : match eu_profileStatus o with
                | Some profileStatus =>
                    if (profileStatus <? 1) || (9 <? profileStatus)
                    then new_Error profile_status_message
                    else post P c "/esim/euicc/page" (Some (JObj fields))
                | None => post P c "/esim/euicc/page" (Some (JObj fields))
                end = post P c "/esim/euicc/page" (Some (JObj fields))).
    { destruct (eu_profileStatus o) as [s|]; [|reflexivity].
      specialize (R s eq_refl).
      replace ((s <? 1) || (9 <? s)) with false; [reflexivity|].
      symmetry. apply orb_false_iff. split; apply Z.ltb_ge; lia. }
    rewrite E. split; [reflexivity|]. intros url0 U. now apply post_object_sent.
Qed.

(** ** Validation before sending *)

Lemma post_error_wrapped (P : Platform) (c : CMPClient) (path : string)
    (data : option json) (w : World) (m : string) :
  starts_with "Request failed: " m = false ->
  fst (post P c path data w) <> inl (Throw PlainError m).
Proof.
  intros S H. unfold post in H.
  destruct (makeRequest_errors P c "POST" path data None w _ H) as [[_ C]|[x C]];
    [discriminate C|].
  unfold request_failed in C. injection C as ->.
  change (starts_with "Request failed: " ("Request failed: " ++ x)) with true in S.
  discriminate S.
Qed.

(** C6. [querySimDetail] fails with ICCID cannot be empty exactly when the
    ICCID is empty or white space only, and then nothing is logged or sent;
    any other ICCID is posted trimmed.  [querySimMonthData] checks the ICCID
    the same way, then the month (Month cannot be empty), then that the
    trimmed month is six decimal digits (Month format must be yyyyMM), and
    posts the trimmed ICCID and month when all three pass.  The texts 2023-01
    and 202301 and 202313: the first is refused, the other two are posted;
    the calendar is not looked at. *)
Theorem query_validation (P : Platform) (c : CMPClient) (w : World) :
  (forall iccid,
     (fst (querySimDetail P c iccid w) = inl (Throw PlainError "ICCID cannot be empty")
      <-> blank iccid)
     /\ (blank iccid ->
           querySimDetail P c iccid w
           = (inl (Throw PlainError "ICCID cannot be empty"), w))
     /\ (~ blank iccid ->
           querySimDetail P c iccid w
           = post P c "/sim/detail" (Some (JObj [("iccid", JStr (trim iccid))])) w
           /\ forall url0, URL_new P (target c "/sim/detail") = Some url0 ->
                sent (snd (querySimDetail P c iccid w))
                = sent w ++ [posted P c url0 (JObj [("iccid", JStr (trim iccid))])]))
  /\ (forall o,
        let iccid := su_iccid o in
        let month := su_month o in
        (fst (querySimMonthData P c o w) = inl (Throw PlainError "ICCID cannot be empty")
         <-> blank iccid)
        /\ (fst (querySimMonthData P c o w) = inl (Throw PlainError "Month cannot be empty")
            <-> ~ blank iccid /\ blank month)
        /\ (fst (querySimMonthData P c o w)
            = inl (Throw PlainError "Month format must be yyyyMM (e.g., 202301)")
            <-> ~ blank iccid /\ ~ blank month /\ six_digits (trim month) = false)
        /\ (blank iccid \/ blank month \/ six_digits (trim month) = false ->
              snd (querySimMonthData P c o w) = w)
        /\ (~ blank iccid -> six_digits (trim month) = true ->
              querySimMonthData P c o w
              = post P c "/sim/queryMonthData"
                  (Some (JObj [("iccid", JStr (trim iccid)); ("month", JStr (trim month))]))
                  w
              /\ forall url0, URL_new P (target c "/sim/queryMonthData") = Some url0 ->
                   sent (snd (querySimMonthData P c o w))
                   = sent w
                     ++ [ posted P c url0
                            (JObj [ ("iccid", JStr (trim iccid));
                                    ("month", JStr (trim month)) ]) ]))
  /\ (forall s, six_digits s = true
                <-> String.length s = 6%nat /\ string_forallb is_digit s = true)
  /\ blank "" /\ blank "   "
  /\ fst (querySimMonthData P c (MkSIMUsageQuery "X" "2023-01") w)
     = inl (Throw PlainError "Month format must be yyyyMM (e.g., 202301)")
  /\ querySimMonthData P c (MkSIMUsageQuery "X" "202301") w
     = post P c "/sim/queryMonthData"
         (Some (JObj [("iccid", JStr "X"); ("month", JStr "202301")])) w
  /\ querySimMonthData P c (MkSIMUsageQuery " X " " 202313 ") w
     = post P c "/sim/queryMonthData"
         (Some (JObj [("iccid", JStr "X"); ("month", JStr "202313")])) w.
Proof.
  assert (B : forall s, is_empty s || is_empty (trim s) = true <-> blank s).
  { intros s. rewrite blank_all_ws. unfold blank. symmetry. apply trim_empty. }
  assert (NB : forall s, ~ blank s -> is_empty s || is_empty (trim s) = false).
  { intros s N. destruct (is_empty s || is_empty (trim s)) eqn:E; [|reflexivity].
    exfalso. apply N. now apply B. }
  assert (D : forall s, six_digits (trim s) = true -> ~ blank s).
  { intros s S E. unfold blank in E. rewrite E in S. discriminate S. }
  split; [|split; [|split; [|repeat split]]].
  - intros iccid. unfold querySimDetail.
    destruct (is_empty iccid || is_empty (trim iccid)) eqn:E.
    + apply B in E. split; [split; [intros _; exact E | reflexivity]|].
      split; [reflexivity | intros N; contradiction].
    + assert (N : ~ blank iccid) by (intros C; apply B in C; congruence).
      split; [split; [intros H; exfalso; revert H; apply post_error_wrapped; reflexivity
                     | intros C; contradiction]|].
      split; [intros C; contradiction | intros _].
      split; [reflexivity | intros url0 U; now apply post_object_sent].
  - intros o iccid month. unfold querySimMonthData. cbv zeta. fold iccid month.
    destruct (is_empty iccid || is_empty (trim iccid)) eqn:E1.
    { apply B in E1. unfold new_Error, throw. cbn [fst snd].
      split; [split; [intros _; exact E1 | reflexivity]|].
      split; [split; [intros H; discriminate H | intros [N _]; contradiction]|].
      split; [split; [intros H; discriminate H | intros [N _]; contradiction]|].
      split; [intros _; reflexivity | intros N; contradiction]. }
    assert (N1 : ~ blank iccid) by (intros C; apply B in C; congruence).
    destruct (is_empty month || is_empty (trim month)) eqn:E2.
    { apply B in E2. unfold new_Error, throw. cbn [fst snd].
      split; [split; [intros H; discriminate H | intros C; contradiction]|].
      split; [split; [intros _; now split | reflexivity]|].
      split; [split; [intros H; discriminate H | intros (_ & N & _); contradiction]|].
      split; [intros _; reflexivity | intros _ S; exfalso; exact (D month S E2)]. }
    assert (N2 : ~ blank month) by (intros C; apply B in C; congruence).
    destruct (six_digits (trim month)) eqn:S; cbn [negb].
    + split; [split; [intros H; exfalso; revert H; apply post_error_wrapped; reflexivity
                     | intros C; contradiction]|].
      split; [split; [intros H; exfalso; revert H; apply post_error_wrapped; reflexivity
                     | intros [_ C]; contradiction]|].
      split; [split; [intros H; exfalso; revert H; apply post_error_wrapped; reflexivity
                     | intros (_ & _ & C); discriminate C]|].
      split; [intros [C|[C|C]]; [contradiction | contradiction | discriminate C]|].
      intros _ _. split; [reflexivity | intros url0 U; now apply post_object_sent].
    + unfold new_Error, throw. cbn [fst snd].
      split; [split; [intros H; discriminate H | intros C; contradiction]|].
      split; [split; [intros H; discriminate H | intros [_ C]; contradiction]|].
      split; [split; [intros _; now repeat split | reflexivity]|].
      split; [intros _; reflexivity | intros _ C; discriminate C].
  - intros s. unfold six_digits. rewrite andb_true_iff, Nat.eqb_eq. reflexivity.
Qed.


(** ** The body of the SIM list query *)







(** ** Display names *)

Lemma Number_toString_inj (a b : Z) : Number_toString a = Number_toString b -> a = b.
Proof.
  intros E. pose proof (Number_toString_decimal a) as A.
  rewrite E, Number_toString_decimal in A. now injection A.
Qed.

Lemma sapp_cancel_l (p a b : string) : (p ++ a = p ++ b)%string -> a = b.
Proof.
  induction p as [|x p IH]; intros E; [exact E|].
  rewrite !sapp_cons in E. injection E as E. now apply IH.
Qed.

Lemma sapp_cancel_r (c : string) : forall a b, (a ++ c = b ++ c)%string -> a = b.
Proof.
  induction a as [|x a IH]; intros [|y b] E.
  - reflexivity.
  - exfalso. apply (f_equal String.length) in E.
    rewrite !slength_app in E. cbn [String.length] in E. lia.
  - exfalso. apply (f_equal String.length) in E.
    rewrite !slength_app in E. cbn [String.length] in E. lia.
  - rewrite !sapp_cons in E. injection E as -> E. f_equal. now apply IH.
Qed.

Lemma Record_get_none (n : Z) (table : list (Z * string)) :
  forallb (fun p => negb (n =? fst p)) table = true -> Record_get n table = None.
Proof.
  induction table as [|[k v] t IH]; [reflexivity|]. cbn [forallb fst Record_get].
  intros H. apply andb_true_iff in H. destruct H as [H1 H2].
  destruct (n =? k); [discriminate H1 | now apply IH].
Qed.

Lemma known_state_cases (n : Z) :
  (known_state n = true /\ In n [2; 3; 4; 5; 6; 7; 8; 10; 11])
  \/ (known_state n = false
      /\ getStateName n = ("Unknown status (" ++ Number_toString n ++ ")")%string).
Proof.
  destruct (known_state n) eqn:K; [left | right]; (split; [reflexivity|]).
  - unfold known_state in K. cbn [existsb SIMState_value] in K.
    repeat (apply orb_true_iff in K; destruct K as [K|K]);
      try (apply Z.eqb_eq in K; subst n; cbn [In]; tauto).
    discriminate K.
  - unfold getStateName. cbv zeta. rewrite Record_get_none; [reflexivity|].
    unfold known_state in K. cbn [existsb SIMState_value] in K.
    cbn [forallb fst]. rewrite !(Z.eqb_sym n).
    repeat (apply orb_false_iff in K; destruct K as [-> K]). reflexivity.
Qed.

(** X12. [getStateName] names exactly the nine codes of the SIMState
    enumeration (2 to 8, 10 and 11), each with a name of its own; every
    other code, 0, 1 and 9 among them, comes out as Unknown status with the
    code in brackets, so two codes never share a text. *)
Theorem getStateName_codes (n : Z) :
  ((exists s, SIMState_value s = n) <-> known_state n = true)
  /\ (known_state n = false ->
        getStateName n = ("Unknown status (" ++ Number_toString n ++ ")")%string)
  /\ (known_state n = true -> starts_with "Unknown" (getStateName n) = false)
  /\ (forall m, getStateName m = getStateName n -> m = n)
  /\ map (fun s => getStateName (SIMState_value s))
       [PRE_ACTIVATION; TEST; SILENT; STANDBY; ACTIVE; SHUTDOWN; PAUSE; PRE_LOGOUT; LOGOUT]
     = ["Pre-activation"; "Test"; "Silent"; "Standby"; "Active"; "Shutdown"; "Pause";
        "Pre-logout"; "Logout"]
  /\ map getStateName [0; 1; 9]
     = ["Unknown status (0)"; "Unknown status (1)"; "Unknown status (9)"].
Proof.
  assert (U : forall x, starts_with "Unknown"
                          ("Unknown status (" ++ Number_toString x ++ ")") = true)
    by reflexivity.
  assert (Kn : forall x, In x [2; 3; 4; 5; 6; 7; 8; 10; 11] ->
                         starts_with "Unknown" (getStateName x) = false).
  { intros x I. cbn [In] in I. intuition (subst x; reflexivity). }
  split; [|split; [|split; [|split; [|split]]]].
  - split.
    + intros [s <-]. now destruct s.
    + intros K. destruct (known_state_cases n) as [[_ I]|[K' _]]; [|congruence].
      cbn [In] in I.
      repeat (destruct I as [<-|I];
              [first [ now exists PRE_ACTIVATION | now exists TEST | now exists SILENT
                     | now exists STANDBY | now exists ACTIVE | now exists SHUTDOWN
                     | now exists PAUSE | now exists PRE_LOGOUT | now exists LOGOUT ]|]).
      contradiction.
  - intros K. destruct (known_state_cases n) as [[K' _]|[_ E]]; [congruence | exact E].
  - intros K. destruct (known_state_cases n) as [[_ I]|[K' _]]; [now apply Kn | congruence].
  - intros m E.
    destruct (known_state_cases m) as [[_ Im]|[_ Em]];
      destruct (known_state_cases n) as [[_ In_]|[_ En]].
    + cbn [In] in Im, In_.
      repeat (destruct Im as [<-|Im]; [|]); try contradiction;
        repeat (destruct In_ as [<-|In_]; [|]); try contradiction;
        first [reflexivity | discriminate E].
    + apply (f_equal (starts_with "Unknown")) in E.
      rewrite (Kn m Im), En, U in E. discriminate E.
    + apply (f_equal (starts_with "Unknown")) in E.
      rewrite (Kn n In_), Em, U in E. discriminate E.
    + rewrite Em, En in E. apply sapp_cancel_l in E. apply sapp_cancel_r in E.
      now apply Number_toString_inj.
  - reflexivity.
  - reflexivity.
Qed.

Lemma profile_status_cases (s : Z) :
  (1 <= s <= 9 /\ In s [1; 2; 3; 4; 5; 6; 7; 8; 9])
  \/ (~ 1 <= s <= 9
      /\ getProfileStatusName s = ("Unknown Status (" ++ Number_toString s ++ ")")%string).
Proof.
  destruct (Z_le_dec 1 s) as [L|L]; [destruct (Z_le_dec s 9) as [H|H]|].
  - left. split; [lia|].
    pose proof (below_all
      (fun d => existsb (fun k => k =? d + 1) [1; 2; 3; 4; 5; 6; 7; 8; 9]) 9
      eq_refl (s - 1) ltac:(lia)) as E.
    apply existsb_exists in E. destruct E as (x & I & E).
    apply Z.eqb_eq in E. now replace s with x by lia.
  - right. split; [lia|]. unfold getProfileStatusName. cbv zeta.
    rewrite Record_get_none; [reflexivity|]. cbn [forallb fst].
    repeat match goal with |- context [s =? ?k] => replace (s =? k) with false
                             by (symmetry; apply Z.eqb_neq; lia) end.
    reflexivity.
  - right. split; [lia|]. unfold getProfileStatusName. cbv zeta.
    rewrite Record_get_none; [reflexivity|]. cbn [forallb fst].
    repeat match goal with |- context [s =? ?k] => replace (s =? k) with false
                             by (symmetry; apply Z.eqb_neq; lia) end.
    reflexivity.
Qed.

(** X13. For a whole-number status, [getProfileStatusName] names exactly
    the statuses 1 to 9, the values of the ProfileStatus enumeration, and
    gives Unknown Status with the number in brackets for every other one; no
    two statuses share a text.  Every status it names is one that
    [queryEuiccPage] lets through: a status that is refused has no name. *)
Theorem getProfileStatusName_accepted (s : Z) :
  ((exists ps, ProfileStatus_value ps = s) <-> 1 <= s <= 9)
  /\ (1 <= s <= 9 -> starts_with "Unknown" (getProfileStatusName s) = false)
  /\ (~ 1 <= s <= 9 ->
        getProfileStatusName s = ("Unknown Status (" ++ Number_toString s ++ ")")%string)
  /\ (forall m, getProfileStatusName m = getProfileStatusName s -> m = s)
  /\ (forall (P : Platform) (c : CMPClient) (o : EuiccPageQuery) (w : World),
        eu_profileStatus o = Some s ->
        fst (queryEuiccPage P c o w) = inl (Throw PlainError profile_status_message) ->
        starts_with "Unknown" (getProfileStatusName s) = true)
  /\ map (fun ps => getProfileStatusName (ProfileStatus_value ps))
       [NOT_DOWNLOADED; DOWNLOADING; DOWNLOADED; ENABLING; ENABLED; DISABLING; DISABLED;
        DELETING; DELETED]
     = ["Not Downloaded"; "Downloading"; "Downloaded"; "Enabling"; "Enabled"; "Disabling";
        "Disabled"; "Deleting"; "Deleted"]
  /\ map getProfileStatusName [0; 10]
     = ["Unknown Status (0)"; "Unknown Status (10)"].
Proof.
  assert (U : forall x, starts_with "Unknown"
                          ("Unknown Status (" ++ Number_toString x ++ ")") = true)
    by reflexivity.
  assert (Kn : forall x, In x [1; 2; 3; 4; 5; 6; 7; 8; 9] ->
                         starts_with "Unknown" (getProfileStatusName x) = false).
  { intros x I. cbn [In] in I. intuition (subst x; reflexivity). }
  assert (Un : ~ 1 <= s <= 9 -> starts_with "Unknown" (getProfileStatusName s) = true).
  { intros N. destruct (profile_status_cases s) as [[R _]|[_ E]]; [contradiction|].
    now rewrite E. }
  split; [|split; [|split; [|split; [|split; [|split]]]]].
  - split.
    + intros [ps <-]. destruct ps; cbn; lia.
    + intros R. destruct (profile_status_cases s) as [[_ I]|[N _]]; [|contradiction].
      cbn [In] in I.
      repeat (destruct I as [<-|I];
              [first [ now exists NOT_DOWNLOADED | now exists DOWNLOADING
                     | now exists DOWNLOADED | now exists ENABLING | now exists ENABLED
                     | now exists DISABLING | now exists DISABLED | now exists DELETING
                     | now exists DELETED ]|]).
      contradiction.
  - intros R. destruct (profile_status_cases s) as [[_ I]|[N _]]; [now apply Kn | contradiction].
  - intros N. destruct (profile_status_cases s) as [[R _]|[_ E]]; [contradiction | exact E].
  - intros m E.
    destruct (profile_status_cases m) as [[_ Im]|[_ Em]];
      destruct (profile_status_cases s) as [[_ Is]|[_ Es]].
    + cbn [In] in Im, Is.
      repeat (destruct Im as [<-|Im]; [|]); try contradiction;
        repeat (destruct Is as [<-|Is]; [|]); try contradiction;
        first [reflexivity | discriminate E].
    + apply (f_equal (starts_with "Unknown")) in E.
      rewrite (Kn m Im), Es, U in E. discriminate E.
    + apply (f_equal (starts_with "Unknown")) in E.
      rewrite (Kn s Is), Em, U in E. discriminate E.
    + rewrite Em, Es in E. apply sapp_cancel_l in E. apply sapp_cancel_r in E.
      now apply Number_toString_inj.
  - intros P c o w E F. apply queryEuiccPage_refusal in F.
    destruct F as (s' & E' & R). rewrite E in E'. injection E' as <-. apply Un. lia.
  - reflexivity.
  - reflexivity.
Qed.

(** ** Base64 *)

(** Every character of the alphabet decodes to the sextet it stands for. *)
Lemma unbase64_base64_char (x : sextet) : unbase64 (base64_char x) = Some x.
Proof.
  destruct x as [[[[[[] []] []] []] []] []]; vm_compute; reflexivity.
Qed.

Lemma base64_sextets_char (x : sextet) (s : string) :
  base64_sextets (String (base64_char x) s) = x :: base64_sextets s.
Proof. cbn [base64_sextets]. now rewrite unbase64_base64_char. Qed.

Lemma byte1_hi6 (a b : ascii) : byte1 (hi6 a) (lo2_hi4 a b) = a.
Proof. destruct a, b. reflexivity. Qed.

Lemma byte2_lo4 (a b c : ascii) : byte2 (lo2_hi4 a b) (lo4_hi2 b c) = b.
Proof. destruct a, b, c. reflexivity. Qed.

Lemma byte3_lo6 (b c : ascii) : byte3 (lo4_hi2 b c) (lo6 c) = c.
Proof. destruct b, c. reflexivity. Qed.

(** Decoding what was encoded gives the bytes back. *)
Lemma Buffer_base64_roundtrip (n : nat) : forall bs : Buffer,
  (length bs <= n)%nat -> Buffer_from_base64 (Buffer_toString_base64 bs) = bs.
Proof.
  unfold Buffer_from_base64.
  induction n as [|n IH]; intros bs L.
  - destruct bs; [reflexivity | cbn in L; lia].
  - destruct bs as [|a [|b [|c r]]].
    + reflexivity.
    + cbn [Buffer_toString_base64]. rewrite !base64_sextets_char.
      cbn [base64_sextets unbase64]. cbn. now rewrite byte1_hi6.
    + cbn [Buffer_toString_base64]. rewrite !base64_sextets_char.
      cbn. now rewrite byte1_hi6, byte2_lo4.
    + cbn [Buffer_toString_base64]. rewrite !base64_sextets_char.
      cbn [sextets_bytes]. rewrite byte1_hi6, byte2_lo4, byte3_lo6.
      rewrite IH; [reflexivity|]. cbn [length] in L. lia.
Qed.

(** ** UTF-8 *)

Lemma utf8_valid_app (n : nat) : forall x y : Buffer,
  (length x <= n)%nat -> utf8_valid x = true -> utf8_valid (x ++ y) = utf8_valid y.
Proof.
  induction n as [|n IH]; intros x y L V.
  - destruct x; [reflexivity | cbn in L; lia].
  - destruct x as [|b1 r1]; [reflexivity|]. cbn [length] in L.
    cbn [app utf8_valid] in *. destruct (classify b1).
    + apply IH; [lia | exact V].
    + destruct r1 as [|b2 r2]; [discriminate V|]. cbn [app length] in *.
      apply andb_true_iff in V. destruct V as [C V]. rewrite C. cbn [andb].
      apply IH; [lia | exact V].
    + destruct r1 as [|b2 [|b3 r3]]; try discriminate V. cbn [app length] in *.
      apply andb_true_iff in V. destruct V as [C V]. rewrite C. cbn [andb].
      apply IH; [lia | exact V].
    + destruct r1 as [|b2 [|b3 [|b4 r4]]]; try discriminate V. cbn [app length] in *.
      apply andb_true_iff in V. destruct V as [C V]. rewrite C. cbn [andb].
      apply IH; [lia | exact V].
    + discriminate V.
Qed.

(** Decoding leaves well-formed UTF-8 as it is. *)
Lemma utf8_replace_valid (n : nat) : forall bs : Buffer,
  (length bs <= n)%nat -> utf8_valid bs = true -> utf8_replace bs = bs.
Proof.
  induction n as [|n IH]; intros bs L V.
  - destruct bs; [reflexivity | cbn in L; lia].
  - destruct bs as [|b1 r1]; [reflexivity|]. cbn [length] in L.
    cbn [utf8_valid utf8_replace] in *. destruct (classify b1).
    + f_equal. apply IH; [lia | exact V].
    + destruct r1 as [|b2 r2]; [discriminate V|]. cbn [length] in L.
      apply andb_true_iff in V. destruct V as [C V]. rewrite C.
      do 2 f_equal. apply IH; [lia | exact V].
    + destruct r1 as [|b2 [|b3 r3]]; try discriminate V. cbn [length] in L.
      apply andb_true_iff in V. destruct V as [C V].
      apply andb_true_iff in C. destruct C as [C2 C3]. rewrite C2, C3.
      do 3 f_equal. apply IH; [lia | exact V].
    + destruct r1 as [|b2 [|b3 [|b4 r4]]]; try discriminate V. cbn [length] in L.
      apply andb_true_iff in V. destruct V as [C V].
      apply andb_true_iff in C. destruct C as [C C4].
      apply andb_true_iff in C. destruct C as [C2 C3]. rewrite C2, C3, C4.
      do 4 f_equal. apply IH; [lia | exact V].
    + discriminate V.
Qed.

Lemma Buffer_toString_utf8_valid (s : string) :
  wellformed s = true -> Buffer_toString_utf8 (Buffer_from_utf8 s) = s.
Proof.
  intros V. unfold Buffer_toString_utf8, Buffer_from_utf8.
  rewrite (utf8_replace_valid (length (list_ascii_of_string s))) by (auto; exact V).
  apply string_of_list_ascii_of_string.
Qed.

Lemma base64_text_roundtrip (s : string) :
  wellformed s = true -> base64Decode (base64Encode s) = s.
Proof.
  intros V. unfold base64Decode, base64Encode.
  rewrite (Buffer_base64_roundtrip (length (Buffer_from_utf8 s))) by apply le_n.
  now apply Buffer_toString_utf8_valid.
Qed.

(** X14. Decoding the base64 text of a string gives the string back,
    whenever the string is well-formed (it has no lone surrogate): the
    decoder reads back the bytes the encoder wrote, and their UTF-8 decoding
    replaces nothing. *)
Theorem base64Decode_base64Encode (s : string) :
  wellformed s = true ->
  base64Decode (base64Encode s) = s
  /\ Buffer_from_base64 (base64Encode s) = Buffer_from_utf8 s.
Proof.
  intros V. split; [now apply base64_text_roundtrip|].
  unfold base64Encode. apply (Buffer_base64_roundtrip (length (Buffer_from_utf8 s))).
  apply le_n.
Qed.

Lemma base64Decode_base64Encode_witness :
  base64Decode (base64Encode "pageNum") = "pageNum".
Proof. exact (proj1 (base64Decode_base64Encode "pageNum" eq_refl)). Defined.

(** ** JSON texts read back *)

Lemma string_items_escape_char (c : ascii) (rest : string) :
  string_items (escape_char c ++ rest) = cons_item (item_of c) (string_items rest).
Proof. destruct c as [[] [] [] [] [] [] [] []]; reflexivity. Qed.

Lemma items_text_item_of (c : ascii) (l : list item) :
  items_text (item_of c :: l) = String c (items_text l).
Proof.
  destruct c as [[] [] [] [] [] [] [] []]; try reflexivity;
    destruct l as [|[x|u] l]; reflexivity.
Qed.

Lemma string_items_escape (s rest : string) :
  string_items (escape s ++ String dquote rest)
  = Some (map item_of (list_ascii_of_string s), rest).
Proof.
  induction s as [|c s IH]; [reflexivity|].
  cbn [escape list_ascii_of_string map]. rewrite sapp_assoc, string_items_escape_char, IH.
  reflexivity.
Qed.

Lemma items_text_map (l : list ascii) :
  items_text (map item_of l) = string_of_list_ascii l.
Proof.
  induction l as [|c l IH]; [reflexivity|].
  cbn [map string_of_list_ascii]. now rewrite items_text_item_of, IH.
Qed.

(** A string literal is read back as the string it was written from. *)
Lemma parse_string_escape (s rest : string) :
  parse_string (escape s ++ String dquote rest) = Some (s, rest).
Proof.
  unfold parse_string. rewrite string_items_escape, items_text_map.
  now rewrite string_of_list_ascii_of_string.
Qed.

Lemma read_digits_count (s : string) : forall a c c',
  read_digits a c' s
  = let '(v, n, t) := read_digits a c s in (v, n - c + c', t).
Proof.
  induction s as [|x s IH]; intros a c c'; cbn [read_digits].
  - f_equal. f_equal. lia.
  - destruct (is_digit x); [|f_equal; f_equal; lia].
    rewrite (IH _ (c + 1) (c' + 1)).
    destruct (read_digits (10 * a + digit_value x) (c + 1) s) as [[v n] t].
    f_equal. f_equal. lia.
Qed.

Lemma read_digits_stop (a c : Z) (rest : string) :
  ends_number rest = true -> read_digits a c rest = (a, c, rest).
Proof.
  destruct rest as [|x r]; [reflexivity|]. cbn [ends_number read_digits].
  destruct (is_digit x); [discriminate | reflexivity].
Qed.

Lemma frac_exp_stop (rest : string) :
  ends_number rest = true -> frac_part rest = Some (0, 0, rest) /\ exp_part rest = Some (0, rest).
Proof.
  destruct rest as [|x r]; [now split|]. cbn [ends_number frac_part exp_part].
  destruct (is_digit x), (Ascii.eqb x "."), (Ascii.eqb x "e"), (Ascii.eqb x "E");
    try discriminate; now split.
Qed.

Lemma digit_char_zero (d : Z) : 0 <= d <= 9 -> Ascii.eqb (digit_char d) "0" = (d =? 0).
Proof.
  intros H.
  pose proof (below_all (fun d => Bool.eqb (Ascii.eqb (digit_char d) "0") (d =? 0)) 10
                eq_refl d ltac:(lia)) as E.
  now apply Bool.eqb_prop in E.
Qed.

(** The integer part of a number is read back from its digits. *)
Lemma int_part_digits (n : Z) (rest : string) :
  0 <= n -> ends_number rest = true -> int_part (digits_of n ++ rest) = Some (n, rest).
Proof.
  intros H R.
  destruct (digits_of_shape n H) as (d & r & E & Hd & Pos & Small & _).
  destruct (read_digits_of n H) as (k & _ & _ & Rd).
  specialize (Rd 0 0 rest). rewrite E in *. rewrite sapp_cons in *.
  unfold int_part. rewrite digit_char_zero by assumption.
  destruct (Z.eqb_spec d 0) as [D0|D0].
  - assert (n = 0) by lia. destruct Small as [-> _]; [lia|]. subst n. reflexivity.
  - destruct (digit_char_digit d Hd) as [Dg Dv]. rewrite Dg.
    cbn [read_digits] in Rd. rewrite Dg, Dv in Rd.
    replace (10 * 0 + d) with d in Rd by lia. rewrite Dv.
    rewrite (read_digits_count (r ++ rest) d (0 + 1) 0), Rd.
    rewrite read_digits_stop by assumption. f_equal; f_equal; lia.
Qed.

Lemma parse_unsigned_digits (neg : bool) (n : Z) (rest : string) :
  0 <= n -> ends_number rest = true ->
  parse_unsigned neg (digits_of n ++ rest)
  = Some (JNum (if neg then - n else n) 0, rest).
Proof.
  intros H R. unfold parse_unsigned. rewrite int_part_digits by assumption.
  destruct (frac_exp_stop rest R) as [-> ->].
  unfold mk_number. rewrite Z.mul_1_r, Z.add_0_r.
  set (m := if neg then - n else n). change (0 - 0) with 0.
  change (0 <=? 0) with true. cbv iota. change (10 ^ 0) with 1. rewrite Z.mul_1_r.
  destruct (Z.eqb_spec m 0) as [->|_]; reflexivity.
Qed.

(** A whole number is read back from its decimal numeral. *)
Lemma parse_number_integer (z : Z) (rest : string) :
  ends_number rest = true ->
  parse_number (Number_toString z ++ rest) = Some (JNum z 0, rest).
Proof.
  intros R. unfold Number_toString. destruct (Z.ltb_spec z 0) as [L|L].
  - rewrite sapp_cons. cbn [parse_number Ascii.eqb Bool.eqb].
    rewrite parse_unsigned_digits by (lia || assumption). now rewrite Z.opp_involutive.
  - destruct (digits_of_shape z L) as (d & r & E & Hd & _).
    rewrite <- (parse_unsigned_digits false z rest L R). rewrite E, sapp_cons.
    cbn [parse_number]. replace (Ascii.eqb (digit_char d) "-") with false; [reflexivity|].
    symmetry. apply Ascii.eqb_neq. intros C.
    destruct (digit_char_digit d Hd) as [D _]. rewrite C in D. discriminate D.
Qed.

Lemma parse_value_number (c : ascii) (r : string) (f : nat) :
  c = "-"%char \/ is_digit c = true ->
  parse_value (S f) (String c r) = of_option (parse_number (String c r)).
Proof.
  destruct c as [[] [] [] [] [] [] [] []]; intros [E|E]; try discriminate E; reflexivity.
Qed.

Lemma quote_app (k rest : string) :
  (quote k ++ rest)%string = String dquote (escape k ++ String dquote rest).
Proof. unfold quote. now rewrite sapp_cons, sapp_assoc. Qed.

Lemma Number_toString_start (m : Z) :
  exists c r, Number_toString m = String c r /\ (c = "-"%char \/ is_digit c = true).
Proof.
  unfold Number_toString. destruct (Z.ltb_spec m 0) as [L|L].
  - eexists. eexists. split; [reflexivity | now left].
  - destruct (digits_of_shape m L) as (d & r & E & Hd & _).
    exists (digit_char d), r. split; [exact E | right].
    now destruct (digit_char_digit d Hd).
Qed.

(** ** Decimals in JSON text *)

Lemma zeros_app (k : nat) : forall s rest, (zeros k s ++ rest)%string = zeros k (s ++ rest).
Proof.
  induction k as [|k IH]; intros s rest; [reflexivity|].
  cbn [zeros]. now rewrite IH, sapp_cons.
Qed.

Lemma read_digits_zeros (k : nat) : forall s a c,
  read_digits a c (zeros k s) = read_digits (a * 10 ^ Z.of_nat k) (c + Z.of_nat k) s.
Proof.
  induction k as [|k IH]; intros s a c.
  - cbn [zeros Z.of_nat]. f_equal; lia.
  - cbn [zeros]. rewrite IH. cbn [read_digits].
    change (is_digit "0") with true. change (digit_value "0") with 0. cbv iota.
    rewrite Nat2Z.inj_succ, Z.pow_succ_r by lia. f_equal; lia.
Qed.

Lemma zeros_digits (k : nat) : forall s,
  string_forallb is_digit s = true -> string_forallb is_digit (zeros k s) = true.
Proof.
  induction k as [|k IH]; intros s D; [exact D|].
  cbn [zeros]. apply IH. cbn [string_forallb]. now rewrite D.
Qed.

Lemma zeros_head (k : nat) : forall c s,
  is_digit c = true ->
  exists c' r, zeros k (String c s) = String c' r /\ is_digit c' = true.
Proof.
  induction k as [|k IH]; intros c s D.
  - now exists c, s.
  - cbn [zeros]. now apply IH.
Qed.

(** The digits of a number below [10^w] are at most [w]. *)
Lemma digits_acc_length (fuel : nat) : forall n w acc,
  (1 <= w)%nat -> 0 <= n < 10 ^ Z.of_nat w ->
  (String.length (digits_acc fuel n acc) <= w + String.length acc)%nat.
Proof.
  induction fuel as [|f IH]; intros n w acc W H; [cbn [digits_acc]; lia|].
  rewrite digits_acc_S. destruct (Z.ltb_spec n 10) as [L|L].
  - cbn [String.length]. lia.
  - destruct w as [|[|w]]; [lia | change (10 ^ Z.of_nat 1) with 10 in H; lia |].
    assert (B : 0 <= n / 10 < 10 ^ Z.of_nat (S w)).
    { split; [apply Z.div_pos; lia|]. apply Z.div_lt_upper_bound; [lia|].
      rewrite (Nat2Z.inj_succ (S w)), Z.pow_succ_r in H by lia. lia. }
    pose proof (IH (n / 10) (S w) (String (digit_char (n mod 10)) acc) ltac:(lia) B) as Q.
    cbn [String.length] in Q. lia.
Qed.

Lemma length_all_digits (s : string) :
  string_forallb is_digit s = true ->
  forall a c rest, ends_number rest = true ->
    snd (fst (read_digits a c (s ++ rest))) = c + Z.of_nat (String.length s).
Proof.
  induction s as [|x s IH]; intros D a c rest R.
  - rewrite read_digits_stop by assumption. cbn. lia.
  - cbn [string_forallb] in D. apply andb_true_iff in D. destruct D as [Dx D].
    rewrite sapp_cons. cbn [read_digits]. rewrite Dx.
    rewrite (IH D) by assumption. cbn [String.length]. lia.
Qed.

(** The fraction digits, padded with zeros on the left, are read back as
    the number and the count of digits. *)
Lemma read_digits_fraction (f : Z) (w : nat) (rest : string) :
  (1 <= w)%nat -> 0 <= f < 10 ^ Z.of_nat w -> ends_number rest = true ->
  read_digits 0 0 (zero_pad w (digits_of f) ++ rest) = (f, Z.of_nat w, rest).
Proof.
  intros W H R. unfold zero_pad.
  assert (Len : (String.length (digits_of f) <= w)%nat).
  { pose proof (digits_acc_length (S (Z.to_nat (Z.log2 f))) f w "" W H) as Q.
    cbn [String.length] in Q. unfold digits_of. lia. }
  destruct (digits_of_shape f ltac:(lia)) as (d & r & E & Hd & _ & _ & D).
  destruct (read_digits_of f ltac:(lia)) as (k & Hk & _ & Rd).
  pose proof (length_all_digits (digits_of f) D 0 0 rest R) as C.
  rewrite (Rd 0 0 rest), read_digits_stop in C by assumption. cbn [fst snd] in C.
  rewrite zeros_app, read_digits_zeros, Rd, read_digits_stop by assumption.
  f_equal. f_equal; lia.
Qed.

Lemma zero_pad_head (f : Z) (w : nat) :
  0 <= f ->
  exists c r, zero_pad w (digits_of f) = String c r /\ is_digit c = true.
Proof.
  intros H. unfold zero_pad.
  destruct (digits_of_shape f H) as (d & r & E & Hd & _).
  rewrite E. apply zeros_head. now destruct (digit_char_digit d Hd).
Qed.

Lemma int_part_point (n : Z) (rest : string) :
  0 <= n -> int_part (digits_of n ++ String "." rest) = Some (n, String "." rest).
Proof.
  intros H.
  destruct (digits_of_shape n H) as (d & r & E & Hd & Pos & Small & _).
  destruct (read_digits_of n H) as (k & _ & _ & Rd).
  specialize (Rd 0 0 (String "." rest)). rewrite E in *. rewrite sapp_cons in *.
  unfold int_part. rewrite digit_char_zero by assumption.
  destruct (Z.eqb_spec d 0) as [D0|D0].
  - assert (n = 0) by lia. destruct Small as [-> _]; [lia|]. subst n. reflexivity.
  - destruct (digit_char_digit d Hd) as [Dg Dv]. rewrite Dg.
    cbn [read_digits] in Rd. rewrite Dg, Dv in Rd.
    replace (10 * 0 + d) with d in Rd by lia. rewrite Dv.
    rewrite (read_digits_count (r ++ String "." rest) d (0 + 1) 0), Rd.
    cbn [read_digits]. change (is_digit ".") with false. cbv iota.
    f_equal; f_equal; lia.
Qed.

Lemma parse_unsigned_decimal (neg : bool) (a : Z) (w : nat) (rest : string) :
  (1 <= w)%nat -> 0 < a -> a mod 10 <> 0 -> ends_number rest = true ->
  parse_unsigned neg
    (digits_of (a / 10 ^ Z.of_nat w)
       ++ String "." (zero_pad w (digits_of (a mod 10 ^ Z.of_nat w)) ++ rest))
  = Some (JNum (if neg then - a else a) (- Z.of_nat w), rest).
Proof.
  intros W A M R.
  assert (S0 : 0 < 10 ^ Z.of_nat w) by (apply Z.pow_pos_nonneg; lia).
  pose proof (Z.div_mod a (10 ^ Z.of_nat w) ltac:(lia)) as DM.
  pose proof (Z.mod_pos_bound a (10 ^ Z.of_nat w) S0) as MB.
  unfold parse_unsigned.
  rewrite int_part_point by (apply Z.div_pos; lia).
  cbn [frac_part Ascii.eqb Bool.eqb]. unfold digits1.
  destruct (zero_pad_head (a mod 10 ^ Z.of_nat w) w ltac:(lia)) as (c & r & E & Dc).
  assert (E' : (zero_pad w (digits_of (a mod 10 ^ Z.of_nat w)) ++ rest)%string
               = String c (r ++ rest)) by (now rewrite E, sapp_cons).
  pose proof (read_digits_fraction (a mod 10 ^ Z.of_nat w) w rest W MB R) as F.
  rewrite E' in *. rewrite Dc, F.
  destruct (frac_exp_stop rest R) as [_ ->].
  replace (a / 10 ^ Z.of_nat w * 10 ^ Z.of_nat w + a mod 10 ^ Z.of_nat w) with a by lia.
  set (m := if neg then - a else a).
  assert (M0 : m mod 10 <> 0).
  { unfold m. destruct neg; [|exact M]. intros C. apply M.
    apply Z.mod_divide in C; [|lia]. apply Z.mod_divide; [lia|].
    destruct C as [q C]. exists (- q). lia. }
  assert (N0 : m <> 0) by (unfold m; destruct neg; lia).
  unfold mk_number.
  replace (m =? 0) with false by (symmetry; now apply Z.eqb_neq).
  replace (0 <=? 0 - Z.of_nat w) with false by (symmetry; apply Z.leb_gt; lia).
  replace (Z.to_nat (- (0 - Z.of_nat w))) with w by lia.
  destruct w as [|w']; [lia|]. cbn [strip_zeros].
  replace (0 - Z.of_nat (S w') <? 0) with true by (symmetry; apply Z.ltb_lt; lia).
  replace (m mod 10 =? 0) with false by (symmetry; now apply Z.eqb_neq).
  cbn [andb]. reflexivity.
Qed.

(** A decimal whose last digit is not zero is read back from its text. *)
Lemma parse_number_decimal (m e : Z) (rest : string) :
  e < 0 -> m mod 10 <> 0 -> ends_number rest = true ->
  parse_number (number_text m e ++ rest) = Some (JNum m e, rest)
  /\ exists c r, (number_text m e ++ rest)%string = String c r
                 /\ (c = "-"%char \/ is_digit c = true).
Proof.
  intros E M R. unfold number_text.
  replace (0 <=? e) with false by (symmetry; apply Z.leb_gt; lia).
  cbv zeta.
  assert (M0 : m <> 0) by (intros ->; now apply M).
  assert (W : (1 <= Z.to_nat (- e))%nat) by lia.
  assert (Pw : 10 ^ (- e) = 10 ^ Z.of_nat (Z.to_nat (- e))) by (rewrite Z2Nat.id; lia).
  assert (A10 : Z.abs m mod 10 <> 0).
  { intros C. apply M. apply Z.mod_divide in C; [|lia]. apply Z.mod_divide; [lia|].
    destruct C as [q C]. destruct (Z.abs_eq_or_opp m) as [Q|Q];
      [exists q | exists (- q)]; lia. }
  pose proof (fun neg => parse_unsigned_decimal neg (Z.abs m) (Z.to_nat (- e)) rest
                           W ltac:(lia) A10 R) as PU.
  rewrite Z2Nat.id, Z.opp_involutive in PU by lia.
  rewrite !sapp_assoc. 
  change ("." ++ zero_pad (Z.to_nat (- e)) (digits_of (Z.abs m mod 10 ^ (- e))) ++ rest)%string
    with (String "." (zero_pad (Z.to_nat (- e)) (digits_of (Z.abs m mod 10 ^ (- e))) ++ rest)).
  destruct (Z.ltb_spec m 0) as [L|L].
  - rewrite sapp_cons. change ("" ++ ?x)%string with x. split.
    + cbn [parse_number Ascii.eqb Bool.eqb]. change (EmptyString ++ ?x)%string with x.
      rewrite (PU true). f_equal. f_equal. f_equal. lia.
    + eexists. eexists. split; [reflexivity | now left].
  - change ("" ++ ?x)%string with x.
    destruct (digits_of_shape (Z.abs m / 10 ^ (- e))) as (d & r & Ed & Hd & _).
    { apply Z.div_pos; [lia | apply Z.pow_pos_nonneg; lia]. }
    destruct (digit_char_digit d Hd) as [Dg _].
    split.
    + pose proof (PU false) as Pf. rewrite Ed, sapp_cons in Pf.
      rewrite Ed, sapp_cons. cbn [parse_number].
      replace (Ascii.eqb (digit_char d) "-") with false.
      * rewrite Pf. now replace (Z.abs m) with m by lia.
      * symmetry. apply Ascii.eqb_neq. intros C. rewrite C in Dg. discriminate Dg.
    + rewrite Ed, sapp_cons. eexists. eexists. split; [reflexivity | now right].
Qed.

(** A flat value is read back from its JSON text, whatever follows it that
    cannot belong to a number. *)
Lemma parse_value_flat (f : nat) (v : json) (rest : string) :
  flat_value v = true -> ends_number rest = true ->
  parse_value (S f) (JSON_stringify v ++ rest) = Parsed v rest.
Proof.
  intros F R. destruct v as [|[|]|m e|s|items|fields]; try discriminate F.
  - reflexivity.
  - reflexivity.
  - reflexivity.
  - cbn [flat_value] in F. unfold normal_number in F.
    change (JSON_stringify (JNum m e)) with (number_text m e).
    apply orb_true_iff in F. destruct F as [F|F].
    + apply Z.eqb_eq in F. subst e.
      unfold number_text. change (0 <=? 0) with true. cbv iota.
      change (10 ^ 0) with 1. rewrite Z.mul_1_r.
      pose proof (parse_number_integer m rest R) as N.
      destruct (Number_toString_start m) as (c & r & E & C).
      rewrite E in *. rewrite sapp_cons in *.
      now rewrite (parse_value_number c (r ++ rest) f C), N.
    + apply andb_true_iff in F. destruct F as [E M].
      apply Z.ltb_lt in E. apply negb_true_iff, Z.eqb_neq in M.
      destruct (parse_number_decimal m e rest E M R) as (N & c & r & T & C).
      rewrite T in *. now rewrite (parse_value_number c r f C), N.
  - change (JSON_stringify (JStr s)) with (quote s). rewrite quote_app.
    change (parse_value (S f) (String dquote (escape s ++ String dquote rest)))
      with (match parse_string (escape s ++ String dquote rest) with
            | Some (str, rest') => Parsed (JStr str) rest'
            | None => Malformed
            end).
    now rewrite parse_string_escape.
Qed.

Lemma parse_members_step (f : nat) (acc : list (string * json)) (k rest : string) :
  parse_members (S f) acc (String dquote (escape k ++ String dquote (String ":" rest)))
  = match parse_value f rest with
    | Parsed v r3 =>
        match skip_ws r3 with
        | EmptyString => Malformed
        | String d r4 =>
            if Ascii.eqb d "," then parse_members f (obj_set k v acc) r4
            else if Ascii.eqb d "}" then Parsed (JObj (obj_set k v acc)) r4
            else Malformed
        end
    | Malformed => Malformed
    | NoFuel => NoFuel
    end.
Proof.
  change (parse_members (S f) acc
            (String dquote (escape k ++ String dquote (String ":" rest))))
    with (match parse_string (escape k ++ String dquote (String ":" rest)) with
          | None => Malformed
          | Some (k', r1) =>
              match skip_ws r1 with
              | EmptyString => Malformed
              | String colon r2 =>
                  if Ascii.eqb colon ":" then
                    match parse_value f r2 with
                    | Parsed v r3 =>
                        match skip_ws r3 with
                        | EmptyString => Malformed
                        | String d r4 =>
                            if Ascii.eqb d "," then parse_members f (obj_set k' v acc) r4
                            else if Ascii.eqb d "}" then Parsed (JObj (obj_set k' v acc)) r4
                            else Malformed
                        end
                    | Malformed => Malformed
                    | NoFuel => NoFuel
                    end
                  else Malformed
              end
          end).
  now rewrite parse_string_escape.
Qed.

Lemma members_text_cons (k : string) (x : json) (l : list (string * json)) (rest : string) :
  (members_text ((k, x) :: l) ++ rest)%string
  = String dquote
      (escape k ++ String dquote (String ":"
         (JSON_stringify x
          ++ match l with
             | [] => rest
             | _ :: _ => String "," (members_text l ++ rest)
             end))).
Proof.
  cbn [members_text]. destruct l as [|p l]; rewrite !sapp_assoc, quote_app; reflexivity.
Qed.

Lemma distinct_fresh (k : string) (r : list string) :
  existsb (String.eqb k) r = false -> ~ In k r.
Proof.
  intros E I. assert (existsb (String.eqb k) r = true); [|congruence].
  apply existsb_exists. exists k. split; [assumption | apply String.eqb_refl].
Qed.

(** The members of a flat record are read back in their order. *)
Lemma parse_members_flat (l : list (string * json)) : forall f acc tail p,
  forallb (fun p : string * json => wellformed (fst p) && flat_value (snd p)) (p :: l) = true ->
  distinct (keys (p :: l)) = true ->
  (forall k, In k (keys (p :: l)) -> ~ In k (keys acc)) ->
  (length (p :: l) < f)%nat ->
  parse_members f acc (members_text (p :: l) ++ String "}" tail)
  = Parsed (JObj (acc ++ p :: l)) tail.
Proof.
  induction l as [|q l IH]; intros f acc tail [k x] F D A L.
  - destruct f as [|[|f]]; cbn [length] in L; try lia.
    rewrite members_text_cons, parse_members_step.
    cbn [forallb fst snd] in F. rewrite andb_true_r in F.
    apply andb_true_iff in F. destruct F as [_ F].
    rewrite (parse_value_flat f x (String "}" tail) F eq_refl).
    cbn [skip_ws is_ws Ascii.eqb Bool.eqb orb].
    rewrite obj_set_fresh; [reflexivity|]. apply A. now left.
  - destruct f as [|[|f]]; cbn [length] in L; try lia.
    rewrite members_text_cons, parse_members_step.
    cbn [forallb fst snd] in F.
    apply andb_true_iff in F. destruct F as [Fx F].
    apply andb_true_iff in Fx. destruct Fx as [_ Fx].
    rewrite (parse_value_flat f x (String "," (members_text (q :: l) ++ String "}" tail))
               Fx eq_refl).
    cbn [skip_ws is_ws Ascii.eqb Bool.eqb orb].
    rewrite obj_set_fresh by (apply A; now left).
    cbn [keys map distinct fst] in D. apply andb_true_iff in D. destruct D as [Dk D].
    apply negb_true_iff in Dk.
    rewrite (IH (S f) (acc ++ [(k, x)]) tail q F D).
    + now rewrite <- app_assoc.
    + intros k' I C. unfold keys in C. rewrite map_app in C. apply in_app_or in C.
      destruct C as [C|[C|[]]].
      * apply (A k'); [now right | exact C].
      * cbn [fst] in C. subst k'. now apply (distinct_fresh k _ Dk).
    + cbn [length] in *. lia.
Qed.

Lemma members_text_eq (k : string) (x : json) (p : string * json)
    (l : list (string * json)) :
  members_text ((k, x) :: p :: l)
  = (quote k ++ ":" ++ JSON_stringify x ++ "," ++ members_text (p :: l))%string.
Proof. reflexivity. Qed.

Lemma JSON_stringify_object (fields : list (string * json)) :
  JSON_stringify (JObj fields) = ("{" ++ members_text fields ++ "}")%string.
Proof.
  assert (M : forall l,
             (fix members (l : list (string * json)) : string :=
                match l with
                | [] => ""
                | [(k, x)] => (quote k ++ ":" ++ JSON_stringify x)%string
                | (k, x) :: (_ :: _) as r =>
                    (quote k ++ ":" ++ JSON_stringify x ++ "," ++ members r)%string
                end) l = members_text l).
  { induction l as [|[k x] l IH]; [reflexivity|].
    destruct l as [|p l]; [reflexivity|].
    rewrite members_text_eq, <- IH. reflexivity. }
  change (JSON_stringify (JObj fields))
    with ("{" ++ (fix members (l : list (string * json)) : string :=
                    match l with
                    | [] => ""
                    | [(k, x)] => (quote k ++ ":" ++ JSON_stringify x)%string
                    | (k, x) :: (_ :: _) as r =>
                        (quote k ++ ":" ++ JSON_stringify x ++ "," ++ members r)%string
                    end) fields ++ "}")%string.
  now rewrite M.
Qed.

Lemma members_text_length (l : list (string * json)) :
  (length l <= String.length (members_text l))%nat.
Proof.
  induction l as [|[k x] l IH]; [cbn; lia|].
  destruct l as [|p l].
  - cbn [members_text length]. rewrite quote_app. cbn [String.length]. lia.
  - rewrite members_text_eq, quote_app.
    repeat (rewrite ?slength_app; cbn [String.length]). cbn [length] in *. lia.
Qed.

(** [JSON.parse] reads a flat record back from the text [JSON.stringify]
    wrote for it. *)
Lemma JSON_parse_stringify_flat (r : json) :
  flat_record r = true -> JSON_parse (JSON_stringify r) = Some r.
Proof.
  destruct r as [| | | | |fields]; try discriminate. cbn [flat_record].
  intros F. apply andb_true_iff in F. destruct F as [F D].
  unfold JSON_parse. rewrite JSON_stringify_object.
  destruct fields as [|p l]; [reflexivity|].
  set (text := ("{" ++ members_text (p :: l) ++ "}")%string).
  assert (T : text = String "{" (members_text (p :: l) ++ String "}" "")) by reflexivity.
  assert (L : (length (p :: l) < String.length text)%nat).
  { rewrite T. cbn [String.length]. rewrite slength_app.
    pose proof (members_text_length (p :: l)). lia. }
  rewrite T at 2.
  assert (Q : exists rest, (members_text (p :: l) ++ String "}" "")%string
                           = String dquote rest).
  { destruct p as [k x]. rewrite members_text_cons. now eexists. }
  destruct Q as [rest Q].
  change (parse_value (S (String.length text))
            (String "{" (members_text (p :: l) ++ String "}" "")))
    with (match skip_ws (members_text (p :: l) ++ String "}" "") with
          | String c' r' =>
              if Ascii.eqb c' "}" then Parsed (JObj []) r'
              else parse_members (String.length text) []
                     (members_text (p :: l) ++ String "}" "")
          | EmptyString => Malformed
          end).
  rewrite Q at 1. cbn [skip_ws is_ws Ascii.eqb Bool.eqb orb dquote].
  now rewrite (parse_members_flat l (String.length text) [] "" p F D (fun _ _ C => C) L).
Qed.

(** ** The JSON text of a flat record is well-formed UTF-8 *)

Lemma wellformed_app (a b : string) :
  wellformed a = true -> wellformed (a ++ b) = wellformed b.
Proof.
  unfold wellformed. rewrite list_of_sapp. intros V.
  now apply (utf8_valid_app (length (list_ascii_of_string a))).
Qed.

Lemma wellformed_ascii (s : string) :
  string_forallb (fun c => ascii_leb c "127") s = true -> wellformed s = true.
Proof.
  unfold wellformed. induction s as [|c s IH]; [reflexivity|].
  cbn [string_forallb list_ascii_of_string utf8_valid]. intros H.
  apply andb_true_iff in H. destruct H as [C H].
  unfold classify. rewrite C. now apply IH.
Qed.

Lemma ascii_leb_trans (a b c : ascii) :
  ascii_leb a b = true -> ascii_leb b c = true -> ascii_leb a c = true.
Proof. unfold ascii_leb. rewrite !N.leb_le. lia. Qed.

Lemma classify_high (c : ascii) : classify c <> L1 -> ascii_leb "128" c = true.
Proof.
  unfold classify. destruct (ascii_leb c "127") eqn:E; [now intros []|]. intros _.
  unfold ascii_leb in *. apply N.leb_gt in E. apply N.leb_le.
  change (N_of_ascii "127") with 127%N in E. change (N_of_ascii "128") with 128%N. lia.
Qed.

Lemma classify_second (c lo hi b : ascii) :
  classify c = L3 lo hi \/ classify c = L4 lo hi ->
  in_range lo hi b = true -> ascii_leb "128" b = true.
Proof.
  intros C R. unfold in_range in R. apply andb_true_iff in R. destruct R as [R _].
  apply (ascii_leb_trans _ lo); [|exact R]. revert C. unfold classify.
  repeat match goal with |- context [if ?t then _ else _] => destruct t end;
    intros [C|C]; try discriminate C; injection C as <- _; reflexivity.
Qed.

Lemma is_cont_high (b : ascii) : is_cont b = true -> ascii_leb "128" b = true.
Proof. unfold is_cont, in_range. intros H. now apply andb_true_iff in H. Qed.

Lemma escape_char_high (c : ascii) : ascii_leb "128" c = true -> escape_char c = String c "".
Proof.
  destruct c as [[] [] [] [] [] [] [] []]; intros H; try reflexivity; discriminate H.
Qed.

Lemma escape_char_low (c : ascii) : classify c = L1 -> wellformed (escape_char c) = true.
Proof.
  destruct c as [[] [] [] [] [] [] [] []]; intros H; try reflexivity; discriminate H.
Qed.

Lemma escape_cons (c : ascii) (r : string) :
  escape (String c r) = (escape_char c ++ escape r)%string.
Proof. reflexivity. Qed.

Lemma wellformed_cons (b1 : ascii) (r : string) :
  wellformed (String b1 r)
  = match classify b1 with
    | L1 => wellformed r
    | L2 =>
        match r with
        | String b2 r2 => is_cont b2 && wellformed r2
        | _ => false
        end
    | L3 lo hi =>
        match r with
        | String b2 (String b3 r3) => in_range lo hi b2 && is_cont b3 && wellformed r3
        | _ => false
        end
    | L4 lo hi =>
        match r with
        | String b2 (String b3 (String b4 r4)) =>
            in_range lo hi b2 && is_cont b3 && is_cont b4 && wellformed r4
        | _ => false
        end
    | LBad => false
    end.
Proof.
  unfold wellformed. cbn [list_ascii_of_string utf8_valid].
  destruct (classify b1); try reflexivity; destruct r as [|b2 [|b3 [|b4 r4]]]; reflexivity.
Qed.

(** Escaping keeps a text well-formed: it touches ASCII characters only. *)
Lemma wellformed_escape (n : nat) : forall s,
  (String.length s <= n)%nat -> wellformed s = true -> wellformed (escape s) = true.
Proof.
  induction n as [|n IH]; intros s L V.
  - destruct s; [reflexivity | cbn in L; lia].
  - destruct s as [|b1 r1]; [reflexivity|]. cbn [String.length] in L.
    rewrite wellformed_cons in V. rewrite escape_cons.
    destruct (classify b1) as [| |lo hi|lo hi|] eqn:C.
    + rewrite wellformed_app by now apply escape_char_low. apply IH; [lia | exact V].
    + destruct r1 as [|b2 r2]; [discriminate V|]. cbn [String.length] in L.
      apply andb_true_iff in V. destruct V as [C2 V].
      rewrite !escape_cons.
      rewrite (escape_char_high b1) by (apply classify_high; congruence).
      rewrite (escape_char_high b2) by now apply is_cont_high.
      change (wellformed (String b1 (String b2 (escape r2))) = true).
      rewrite wellformed_cons, C, C2. apply IH; [lia | exact V].
    + destruct r1 as [|b2 [|b3 r3]]; try discriminate V. cbn [String.length] in L.
      apply andb_true_iff in V. destruct V as [V2 V].
      apply andb_true_iff in V2. destruct V2 as [C2 C3].
      rewrite !escape_cons.
      rewrite (escape_char_high b1) by (apply classify_high; congruence).
      rewrite (escape_char_high b2) by (apply (classify_second b1 lo hi); auto).
      rewrite (escape_char_high b3) by now apply is_cont_high.
      change (wellformed (String b1 (String b2 (String b3 (escape r3)))) = true).
      rewrite wellformed_cons, C, C2, C3. apply IH; [lia | exact V].
    + destruct r1 as [|b2 [|b3 [|b4 r4]]]; try discriminate V. cbn [String.length] in L.
      apply andb_true_iff in V. destruct V as [V2 V].
      apply andb_true_iff in V2. destruct V2 as [V2 C4].
      apply andb_true_iff in V2. destruct V2 as [C2 C3].
      rewrite !escape_cons.
      rewrite (escape_char_high b1) by (apply classify_high; congruence).
      rewrite (escape_char_high b2) by (apply (classify_second b1 lo hi); auto).
      rewrite (escape_char_high b3) by now apply is_cont_high.
      rewrite (escape_char_high b4) by now apply is_cont_high.
      change (wellformed (String b1 (String b2 (String b3 (String b4 (escape r4))))) = true).
      rewrite wellformed_cons, C, C2, C3, C4. apply IH; [lia | exact V].
    + discriminate V.
Qed.

Lemma wellformed_quote (s : string) : wellformed s = true -> wellformed (quote s) = true.
Proof.
  intros V. unfold quote. rewrite wellformed_cons. change (classify dquote) with L1.
  cbv iota. rewrite wellformed_app; [reflexivity|].
  now apply (wellformed_escape (String.length s)).
Qed.

Lemma wellformed_digits (s : string) :
  string_forallb is_digit s = true -> wellformed s = true.
Proof.
  intros D. apply wellformed_ascii. induction s as [|c s IH]; [reflexivity|].
  cbn [string_forallb] in *. apply andb_true_iff in D. destruct D as [C D].
  rewrite IH by assumption. rewrite andb_true_r.
  unfold is_digit, in_range in C. apply andb_true_iff in C. destruct C as [_ C].
  now apply (ascii_leb_trans c "9" "127").
Qed.

Lemma wellformed_Number_toString (z : Z) : wellformed (Number_toString z) = true.
Proof.
  unfold Number_toString. destruct (Z.ltb_spec z 0) as [L|L].
  - change (String "-" (digits_of (- z))) with ("-" ++ digits_of (- z))%string.
    rewrite wellformed_app by reflexivity.
    apply wellformed_digits. now destruct (digits_of_shape (- z)) as (? & ? & ? & ? & ? & ? & D); [lia|].
  - apply wellformed_digits. now destruct (digits_of_shape z L) as (? & ? & ? & ? & ? & ? & D).
Qed.

Lemma wellformed_number_text (m e : Z) : wellformed (number_text m e) = true.
Proof.
  unfold number_text. destruct (0 <=? e); [apply wellformed_Number_toString|].
  cbv zeta.
  assert (S0 : 0 < 10 ^ (- e) \/ 10 ^ (- e) = 0).
  { destruct (Z.lt_ge_cases (- e) 0) as [L|L];
      [right; now apply Z.pow_neg_r | left; now apply Z.pow_pos_nonneg]. }
  assert (Di : forall n, 0 <= n -> string_forallb is_digit (digits_of n) = true)
    by (intros n H; now destruct (digits_of_shape n H) as (? & ? & ? & ? & ? & ? & D)).
  assert (I : 0 <= Z.abs m / 10 ^ (- e)).
  { destruct S0 as [S0|S0]; [apply Z.div_pos; lia | rewrite S0; now destruct (Z.abs m)]. }
  assert (F : 0 <= Z.abs m mod 10 ^ (- e)).
  { destruct S0 as [S0|S0]; [now apply Z.mod_pos_bound|].
    rewrite S0. destruct (Z.abs m) eqn:A; cbn; lia. }
  rewrite wellformed_app by (destruct (m <? 0); reflexivity).
  rewrite wellformed_app by (apply wellformed_digits, Di, I).
  rewrite wellformed_app by reflexivity.
  apply wellformed_digits. unfold zero_pad. apply zeros_digits. now apply Di.
Qed.

Lemma wellformed_flat_value (v : json) :
  flat_value v = true -> wellformed (JSON_stringify v) = true.
Proof.
  destruct v as [|[|]|m e|s|items|fields]; try discriminate; try reflexivity.
  - intros _. apply wellformed_number_text.
  - intros V. now apply wellformed_quote.
Qed.

Lemma wellformed_members (l : list (string * json)) :
  forallb (fun p : string * json => wellformed (fst p) && flat_value (snd p)) l = true ->
  wellformed (members_text l) = true.
Proof.
  induction l as [|[k x] l IH]; [reflexivity|]. cbn [forallb fst snd]. intros F.
  apply andb_true_iff in F. destruct F as [Fx F].
  apply andb_true_iff in Fx. destruct Fx as [Fk Fx].
  destruct l as [|p l].
  - cbn [members_text]. rewrite wellformed_app by now apply wellformed_quote.
    rewrite wellformed_app by reflexivity. now apply wellformed_flat_value.
  - rewrite members_text_eq. rewrite wellformed_app by now apply wellformed_quote.
    rewrite wellformed_app by reflexivity.
    rewrite wellformed_app by now apply wellformed_flat_value.
    rewrite wellformed_app by reflexivity. now apply IH.
Qed.

Lemma wellformed_flat_record (r : json) :
  flat_record r = true -> wellformed (JSON_stringify r) = true.
Proof.
  destruct r as [| | | | |fields]; try discriminate. cbn [flat_record]. intros F.
  apply andb_true_iff in F. destruct F as [F _].
  rewrite JSON_stringify_object. rewrite wellformed_app by reflexivity.
  rewrite wellformed_app by now apply wellformed_members. reflexivity.
Qed.

(** X15. A cursor made from a flat record is read back as that record:
    an object with distinct, well-formed property names whose values are
    null, booleans, numbers or well-formed texts goes through
    [createCursor] and [parseCursor] unchanged, the order of its properties
    included. *)
Theorem parseCursor_createCursor (r : json) :
  flat_record r = true -> parseCursor (createCursor r) = inr r.
Proof.
  intros F. unfold parseCursor, createCursor.
  rewrite base64_text_roundtrip by now apply wellformed_flat_record.
  now rewrite JSON_parse_stringify_flat.
Qed.

Lemma parseCursor_createCursor_witness :
  parseCursor (createCursor (JObj [("pageNum", JInt 3); ("simState", JInt 6)]))
  = inr (JObj [("pageNum", JInt 3); ("simState", JInt 6)]).
Proof.
  exact (parseCursor_createCursor (JObj [("pageNum", JInt 3); ("simState", JInt 6)])
           eq_refl).
Defined.

(** ** What [parseCursor] accepts *)

Lemma base64_sextets_skip (x : ascii) (b : string) : forall a,
  unbase64 x = None -> x <> "="%char ->
  base64_sextets (a ++ String x b) = base64_sextets (a ++ b).
Proof.
  intros a U N. induction a as [|c a IH].
  - change ("" ++ String x b)%string with (String x b). cbn [base64_sextets].
    rewrite U. apply Ascii.eqb_neq in N. now rewrite N.
  - rewrite !sapp_cons. cbn [base64_sextets]. now rewrite IH.
Qed.

Lemma base64_sextets_padding (b : string) : forall a,
  base64_sextets (a ++ String "=" b) = base64_sextets a.
Proof.
  induction a as [|c a IH]; [reflexivity|].
  rewrite !sapp_cons. cbn [base64_sextets]. now rewrite IH.
Qed.

(** X16. [parseCursor] is lenient about the base64 text: a character that
    is neither of the alphabet nor the padding character is skipped wherever
    it stands, and everything from the first padding character on is
    ignored.  Its only error is Invalid cursor format, which the empty
    cursor gives. *)
Theorem parseCursor_lenient (a b : string) (x : ascii) :
  (unbase64 x = None -> x <> "="%char ->
     parseCursor (a ++ String x b) = parseCursor (a ++ b))
  /\ parseCursor (a ++ String "=" b) = parseCursor a
  /\ parseCursor "" = inl (Throw PlainError "Invalid cursor format")
  /\ (forall t, parseCursor a = inl t -> t = Throw PlainError "Invalid cursor format").
Proof.
  unfold parseCursor, base64Decode, Buffer_from_base64.
  split; [|split; [|split]].
  - intros U N. now rewrite base64_sextets_skip.
  - now rewrite base64_sextets_padding.
  - reflexivity.
  - intros t. destruct (JSON_parse _); [discriminate | now intros [= <-]].
Qed.

(** ** The shape of a cursor *)

Lemma base64_char_text (x : sextet) : base64_text_char (base64_char x) = true.
Proof. destruct x as [[[[[[] []] []] []] []] []]; reflexivity. Qed.

Lemma Buffer_toString_base64_shape (n : nat) : forall bs : Buffer,
  (length bs <= n)%nat ->
  string_forallb base64_text_char (Buffer_toString_base64 bs) = true
  /\ String.length (Buffer_toString_base64 bs) = (4 * ((length bs + 2) / 3))%nat.
Proof.
  induction n as [|n IH]; intros bs L.
  - destruct bs; [now split | cbn in L; lia].
  - destruct bs as [|a [|b [|c r]]]; cbn [Buffer_toString_base64 string_forallb].
    + now split.
    + rewrite !base64_char_text. now split.
    + rewrite !base64_char_text. now split.
    + rewrite !base64_char_text. cbn [length] in L.
      destruct (IH r ltac:(lia)) as [F Ln]. rewrite F. split; [reflexivity|].
      cbn [String.length length]. rewrite Ln.
      replace (S (S (S (length r))) + 2)%nat with (1 * 3 + (length r + 2))%nat by lia.
      rewrite Nat.div_add_l by lia. lia.
Qed.

Lemma length_list_ascii (s : string) : length (list_ascii_of_string s) = String.length s.
Proof. induction s as [|c s IH]; [reflexivity | cbn; now rewrite IH]. Qed.

(** X17. A cursor is text of the base64 alphabet with padding: every
    character is a letter, a digit, a plus sign, a slash or an equals sign,
    and its length is four characters for every three bytes of the JSON
    text, rounded up; it is never empty. *)
Theorem createCursor_shape (data : json) :
  string_forallb base64_text_char (createCursor data) = true
  /\ String.length (createCursor data)
     = (4 * ((String.length (JSON_stringify data) + 2) / 3))%nat
  /\ (4 <= String.length (createCursor data))%nat.
Proof.
  unfold createCursor, base64Encode.
  destruct (Buffer_toString_base64_shape _ (Buffer_from_utf8 (JSON_stringify data))
              (le_n _)) as [F L].
  unfold Buffer_from_utf8 in *. rewrite length_list_ascii in L.
  split; [exact F|]. split; [exact L|]. rewrite L.
  destruct (JSON_stringify_cons data) as (a & r & E). rewrite E. cbn [String.length].
  replace (S (String.length r) + 2)%nat with (1 * 3 + String.length r)%nat by lia.
  rewrite Nat.div_add_l by lia. lia.
Qed.

(** ** Cursors that cannot be read *)

(** C5. [parseCursor] fails exactly when the text that base64 decoding
    gives is not JSON, and then with the plain Error Invalid cursor format;
    decoding itself has no failure of its own (the decoder skips what it
    does not know).  The two sample tokens fail this way, and a token whose
    decoded text is JSON gives the parsed value.  The error has the class of
    the API errors and is told from them by its message: no error of
    [makeRequest] has it. *)
Theorem parseCursor_failure (token : string) :
  (JSON_parse (base64Decode token) = None ->
     parseCursor token = inl (Throw PlainError "Invalid cursor format"))
  /\ (forall v, JSON_parse (base64Decode token) = Some v -> parseCursor token = inr v)
  /\ (forall t, parseCursor token = inl t ->
        t = Throw PlainError "Invalid cursor format"
        /\ JSON_parse (base64Decode token) = None)
  /\ parseCursor "not-valid-base64!!" = inl (Throw PlainError "Invalid cursor format")
  /\ base64Decode (base64Encode "not json") = "not json"
  /\ parseCursor (base64Encode "not json") = inl (Throw PlainError "Invalid cursor format")
  /\ (forall (P : Platform) (c : CMPClient) (method path : string) (data : option json)
        (params : option (list (string * option json))) (w : World) (t : thrown),
        fst (makeRequest P c method path data params w) = inl t ->
        t <> Throw PlainError "Invalid cursor format").
Proof.
  unfold parseCursor.
  split; [intros ->; reflexivity|].
  split; [intros v ->; reflexivity|].
  split.
  { intros t E. destruct (JSON_parse (base64Decode token)); [discriminate E|].
    injection E as <-. split; reflexivity. }
  split; [vm_compute; reflexivity|].
  split; [vm_compute; reflexivity|].
  split; [vm_compute; reflexivity|].
  intros P c method path data params w t E C. subst t.
  destruct (makeRequest_errors P c method path data params w _ E) as [[_ D]|[m D]];
    discriminate D.
Qed.

(** ** The cursor round trip *)

(** C2. Decoding a cursor gives back the record it was made from.  For a
    flat record (distinct, well-formed property names; values null,
    booleans, numbers and well-formed texts) the cursor is the base64 text of
    the UTF-8 bytes of the JSON text; base64 decoding gives that JSON text
    back, and parsing it gives the record, so two different flat records
    never have the same cursor.  The record with pageNum 3 and simState 6
    has the cursor eyJwYWdlTnVtIjozLCJzaW1TdGF0ZSI6Nn0= and is read back
    from it. *)
Theorem cursor_roundtrip (r : json) :
  flat_record r = true ->
  parseCursor (createCursor r) = inr r
  /\ createCursor r = Buffer_toString_base64 (Buffer_from_utf8 (JSON_stringify r))
  /\ base64Decode (createCursor r) = JSON_stringify r
  /\ JSON_parse (JSON_stringify r) = Some r
  /\ (forall r', flat_record r' = true -> createCursor r' = createCursor r -> r' = r)
  /\ createCursor (JObj [("pageNum", JInt 3); ("simState", JInt 6)])
     = "eyJwYWdlTnVtIjozLCJzaW1TdGF0ZSI6Nn0="
  /\ parseCursor "eyJwYWdlTnVtIjozLCJzaW1TdGF0ZSI6Nn0="
     = inr (JObj [("pageNum", JInt 3); ("simState", JInt 6)])
  /\ flat_record (JObj [ ("iccid", JStr "8986"); ("ratio", JNum 15 (-1));
                         ("more", JBool true); ("next", JNull) ]) = true.
Proof.
  intros F.
  assert (D : forall x, flat_record x = true -> base64Decode (createCursor x) = JSON_stringify x).
  { intros x Fx. unfold createCursor. apply base64_text_roundtrip.
    now apply wellformed_flat_record. }
  assert (R : forall x, flat_record x = true -> parseCursor (createCursor x) = inr x).
  { intros x Fx. unfold parseCursor. rewrite (D x Fx).
    now rewrite JSON_parse_stringify_flat. }
  split; [now apply R|]. split; [reflexivity|]. split; [now apply D|].
  split; [now apply JSON_parse_stringify_flat|].
  split.
  { intros r' F' E. pose proof (R r' F') as Q. rewrite E, (R r F) in Q.
    now injection Q as ->. }
  split; [vm_compute; reflexivity|]. split; vm_compute; reflexivity.
Qed.

Lemma cursor_roundtrip_witness :
  parseCursor (createCursor (JObj [("iccid", JStr "8986"); ("ratio", JNum 15 (-1))]))
  = inr (JObj [("iccid", JStr "8986"); ("ratio", JNum 15 (-1))]).
Proof.
  exact (proj1 (cursor_roundtrip (JObj [("iccid", JStr "8986"); ("ratio", JNum 15 (-1))])
                  eq_refl)).
Defined.
Example number_toString_ex :
  Number_toString 1700000000 = "1700000000" /\ Number_toString 0 = "0"
  /\ Number_toString (-42) = "-42".
Proof. repeat split. Qed.

Example sha256_abc :
  hex_of_bytes (Sha256.sha256 (bytes_of_string "abc"))
  = "ba7816bf8f01cfea414140de5dae2223b00361a396177a9cb410ff61f20015ad".
Proof. vm_compute. reflexivity. Qed.

Example hmac_rfc4231_case2 :
  Hmac_digest_hex (Hmac_update (createHmac_sha256 "Jefe") "what do ya want for nothing?")
  = "5bdcc146bf60754e6a042426089575c75a003f089d2739839dec58b964ec3843".
Proof. vm_compute. reflexivity. Qed.

Example createCursor_ex :
  createCursor (JObj [("pageNum", JInt 2)]) = "eyJwYWdlTnVtIjoyfQ==".
Proof. vm_compute. reflexivity. Qed.

Example parseCursor_ex :
  parseCursor "eyJwYWdlTnVtIjoyfQ==" = inr (JObj [("pageNum", JInt 2)]).
Proof. vm_compute. reflexivity. Qed.

